(** * The log-analyzer agent: confirmation detector, tool registry and
      tool-calling loop with approval gating.

    Shallow embedding of
      - [src/agents/log_analyzer.py]  (is_confirmation, LogAnalyzerAgent),
      - [src/tools/__init__.py]       (requires_approval, get_all_tools),
      - [src/utils/response.py]       (extract_response_text),
      - [src/config.py]               (Config.MAX_ITERATIONS),
      - [app.py]                      (StreamlitProgress, _summarize_result,
                                       to_langchain),
      - [src/tools/aws_actions.py], [src/tools/slack_notifier.py],
        [src/tools/log_reader.py]     (the tools that reach outside).

    A Python [str] is a [string] whose characters are the code points
    0..255; the language model, the tool bodies and the progress observer
    are collaborators and enter as section variables.  The cycle is
    embedded twice: first with observers whose methods return, then, in
    [Raising], with observers whose methods may raise. *)

From Stdlib Require Import String Ascii List Bool Arith Lia DecimalString
  Sorted.
Import ListNotations.
Open Scope string_scope.
Open Scope list_scope.
Open Scope nat_scope.

(** String concatenation, kept apart from list concatenation [++]. *)
Infix "+++" := String.append (right associativity, at level 60).

Set Implicit Arguments.

(* ================================================================== *)
(** ** Python string primitives *)
(* ================================================================== *)

Module PyStr.

(** [str.isspace] on one character: the white space that [str.strip()]
    removes, for code points below 256. *)
Definition is_space (c : ascii) : bool :=
  let n := nat_of_ascii c in
  ((9 <=? n) && (n <=? 13)) || ((28 <=? n) && (n <=? 32))
  || (n =? 133) || (n =? 160).

(** [str.lower] on one character, for code points below 256: A-Z and
    the upper-case letters of the Latin-1 block (0xC0-0xDE but 0xD7). *)
Definition lower_char (c : ascii) : ascii :=
  let n := nat_of_ascii c in
  if ((65 <=? n) && (n <=? 90))
     || ((192 <=? n) && (n <=? 222) && negb (n =? 215))
  then ascii_of_nat (n + 32) else c.

Fixpoint lower (s : string) : string :=
  match s with
  | EmptyString => EmptyString
  | String c s' => String (lower_char c) (lower s')
  end.

(** [s.lstrip(chars)], the character set given as a predicate. *)
Fixpoint lstrip (p : ascii -> bool) (s : string) : string :=
  match s with
  | EmptyString => EmptyString
  | String c s' => if p c then lstrip p s' else s
  end.

(** [s.rstrip(chars)]. *)
Fixpoint rstrip (p : ascii -> bool) (s : string) : string :=
  match s with
  | EmptyString => EmptyString
  | String c s' =>
      match rstrip p s' with
      | EmptyString => if p c then EmptyString else String c EmptyString
      | r => String c r
      end
  end.

(** [s.strip()] *)
Definition strip (s : string) : string := rstrip is_space (lstrip is_space s).

(** [c in chars] for a string of characters. *)
Fixpoint mem_char (c : ascii) (chars : string) : bool :=
  match chars with
  | EmptyString => false
  | String d r => Ascii.eqb c d || mem_char c r
  end.

(** [sep.join(parts)] *)
Fixpoint join (sep : string) (parts : list string) : string :=
  match parts with
  | [] => EmptyString
  | [x] => x
  | x :: rest => x +++ sep +++ join sep rest
  end.

(** Truthiness of a string, and [a or b] on strings. *)
Definition truthy (s : string) : bool :=
  match s with EmptyString => false | _ => true end.

Definition or_else (a b : string) : string := if truthy a then a else b.

(** [x in S] for a set of strings. *)
Definition in_set (x : string) (S : list string) : bool :=
  existsb (String.eqb x) S.

(** Every character of [s] satisfies [p]. *)
Fixpoint all_chars (p : ascii -> bool) (s : string) : bool :=
  match s with
  | EmptyString => true
  | String c s' => p c && all_chars p s'
  end.

(** The last character of a string. *)
Fixpoint last_char (s : string) : option ascii :=
  match s with
  | EmptyString => None
  | String c EmptyString => Some c
  | String _ s' => last_char s'
  end.

(** A string that [rstrip p] leaves alone: empty, or ending with a
    character outside [p]. *)
Definition rstripped (p : ascii -> bool) (s : string) : Prop :=
  match last_char s with Some c => p c = false | None => True end.

(** The first character of a string. *)
Definition first_char (s : string) : option ascii :=
  match s with EmptyString => None | String c _ => Some c end.

End PyStr.
Import PyStr.

(* ================================================================== *)
(** ** Confirmation detector (log_analyzer.py, lines 19-28) *)
(* ================================================================== *)

Definition CONFIRMATIONS : list string :=
  [ "yes"; "y"; "confirm"; "approve"; "go ahead";
    "do it"; "ok"; "proceed"; "sure"; "yeah"; "yep" ].

(** The argument of [rstrip("!.,")]. *)
Definition is_punct (c : ascii) : bool := mem_char c "!.,".

(** [text.strip().lower().rstrip("!.,")] *)
Definition normalize (text : string) : string :=
  rstrip is_punct (lower (strip text)).

Definition is_confirmation (text : string) : bool :=
  in_set (normalize text) CONFIRMATIONS.

(** White space or one of the characters that [normalize] strips. *)
Definition is_blank (c : ascii) : bool := is_space c || is_punct c.

(* ================================================================== *)
(** ** Tool classification (tools/__init__.py, lines 10-17) *)
(* ================================================================== *)

Definition SAFE_TOOLS : list string :=
  [ "read_log_file"; "list_log_files"; "search_logs";
    "send_slack_notification" ].

Definition APPROVAL_REQUIRED_TOOLS : list string :=
  [ "reboot_rds_instance"; "restart_kubernetes_pod" ].

Definition requires_approval (tool_name : string) : bool :=
  in_set tool_name APPROVAL_REQUIRED_TOOLS.

(** Config.MAX_ITERATIONS (config.py, line 44). *)
Definition MAX_ITERATIONS : nat := 10.

(* ================================================================== *)
(** ** Data model *)
(* ================================================================== *)

Section Agent.

(** Values of tool arguments (JSON), the outside world the tools act
    on, the state of the model client and the state of the progress
    observer. *)
Variables (Value World LLM Obs : Type).

Definition Args : Type := list (string * Value).

(** A tool call as the model client hands it over:
    [{"name": ..., "args": ..., "id": ...}]. *)
Record ToolCall : Type := mkToolCall
  { tc_name : string; tc_args : Args; tc_id : string }.

(** One block of a structured content list (response.py, lines 31-37):
    a dict with or without a ['text'] entry, a plain string, or
    anything else. *)
Inductive Block : Type :=
| BlockDict (text : option string)
| BlockStr (s : string)
| BlockOther.

(** [response.content]: a string, a list of blocks, or neither. *)
Inductive Content : Type :=
| ContentStr (s : string)
| ContentList (blocks : list Block)
| ContentOther.

(** The model's turn, an [AIMessage]: it has [content] and
    [tool_calls] (empty when the model asks for no tool). *)
Record Response : Type := mkResponse
  { content : Content; tool_calls : list ToolCall }.

Inductive Message : Type :=
| SystemMessage (text : string)
| HumanMessage (text : string)
| AIMessage (c : Content) (tcs : list ToolCall)
| ToolMessage (text : string) (tool_call_id : string).

(** What [tool_func.invoke(args)] does: it returns a value, of which
    the loop takes [str(...)], or raises [e], of which the loop takes
    [str(e)]. *)
Inductive ToolOutcome : Type :=
| Returned (result : string)
| Raised (e : string).

Record Tool : Type := mkTool
  { name : string; invoke : Args -> World -> ToolOutcome * World }.

(** The methods of the callbacks object that the loop calls
    (app.py, StreamlitProgress); each acts on the observer's own
    state and returns nothing.  These are the observers of which every
    method returns, as those of StreamlitProgress do; the cycle with
    observers of which a method may raise is in [Raising] below, and
    [process_query_refines] says that the two agree when no method
    raises. *)
Record Observer : Type := mkObserver
  { on_thinking : Obs -> Obs;
    on_reasoning : string -> Obs -> Obs;
    on_tool_start : string -> Args -> Obs -> Obs;
    on_tool_end : string -> string -> bool -> Obs -> Obs;
    on_approval_skipped : string -> Args -> Obs -> Obs }.

(** Ghost record of the calls a cycle makes, in the order it makes
    them. *)
Inductive Call : Type :=
| CallIsConfirmation (text : string)
| CallLLM (conversation : list Message) (reply : Response)
| CallRequiresApproval (tool_name : string)
| CallFindTool (tool_name : string)
| CallInvoke (tool_name : string) (args : Args).

(** The store one cycle works on. *)
Record State : Type := mkState
  { world : World;                       (* acted on by the tools *)
    llm : LLM;                           (* the model client *)
    pending_actions : list ToolCall;     (* self.pending_actions *)
    messages : list Message;             (* the list [messages], extended in place *)
    callbacks : option Obs;              (* the [callbacks] argument; None when absent *)
    calls : list Call }.                 (* ghost *)

Definition set_world (w : World) (st : State) : State :=
  mkState w (llm st) (pending_actions st) (messages st) (callbacks st) (calls st).
Definition set_llm (l : LLM) (st : State) : State :=
  mkState (world st) l (pending_actions st) (messages st) (callbacks st) (calls st).
Definition set_pending_actions (p : list ToolCall) (st : State) : State :=
  mkState (world st) (llm st) p (messages st) (callbacks st) (calls st).
Definition set_messages (m : list Message) (st : State) : State :=
  mkState (world st) (llm st) (pending_actions st) m (callbacks st) (calls st).
Definition set_callbacks (c : option Obs) (st : State) : State :=
  mkState (world st) (llm st) (pending_actions st) (messages st) c (calls st).
Definition set_calls (c : list Call) (st : State) : State :=
  mkState (world st) (llm st) (pending_actions st) (messages st) (callbacks st) c.

(** *** A state monad for the cycle *)

Definition M (A : Type) : Type := State -> A * State.

Definition ret {A : Type} (a : A) : M A := fun st => (a, st).

Definition bind {A B : Type} (m : M A) (k : A -> M B) : M B :=
  fun st => let (a, st') := m st in k a st'.

Notation "x <- m ;; k" := (bind m (fun x => k))
  (at level 61, m at next level, right associativity).
Notation "m ;;; k" := (bind m (fun _ => k))
  (at level 61, right associativity).

Definition log (c : Call) : M unit :=
  fun st => (tt, set_calls (calls st ++ [c]) st).

(** [if callbacks: callbacks.f(...)] *)
Definition notify (f : Obs -> Obs) : M unit :=
  fun st => (tt, set_callbacks (option_map f (callbacks st)) st).

(* ================================================================ *)
(** ** Collaborators *)
(* ================================================================ *)

(** [self.llm.invoke(messages)] *)
Variable llm_invoke : list Message -> LLM -> Response * LLM.

(** The bodies of the six tools, by name. *)
Variable tool_body : string -> Args -> World -> ToolOutcome * World.

(** The methods of the callbacks object. *)
Variable cb : Observer.

(** [Config.get_system_prompt()] *)
Variable system_prompt : string.

Definition read_log_file : Tool :=
  mkTool "read_log_file" (tool_body "read_log_file").
Definition list_log_files : Tool :=
  mkTool "list_log_files" (tool_body "list_log_files").
Definition search_logs : Tool :=
  mkTool "search_logs" (tool_body "search_logs").
Definition restart_kubernetes_pod : Tool :=
  mkTool "restart_kubernetes_pod" (tool_body "restart_kubernetes_pod").
Definition reboot_rds_instance : Tool :=
  mkTool "reboot_rds_instance" (tool_body "reboot_rds_instance").
Definition send_slack_notification : Tool :=
  mkTool "send_slack_notification" (tool_body "send_slack_notification").

(** log_reader.py, line 116 *)
Definition get_log_tools : list Tool :=
  [ read_log_file; list_log_files; search_logs ].

(** tools/__init__.py, lines 20-26 *)
Definition get_all_tools : list Tool :=
  ((get_log_tools ++ [restart_kubernetes_pod])
     ++ [reboot_rds_instance]) ++ [send_slack_notification].

(* ================================================================ *)
(** ** extract_response_text (utils/response.py) *)
(* ================================================================ *)

Definition newline : string := String (ascii_of_nat 10) EmptyString.

Definition block_text (b : Block) : list string :=
  match b with
  | BlockDict (Some t) => [t]
  | BlockDict None => []
  | BlockStr s => [s]
  | BlockOther => []
  end.

Definition content_text (c : Content) : string :=
  strip
    match c with
    | ContentStr s => s
    | ContentList blocks => join newline (flat_map block_text blocks)
    | ContentOther => EmptyString
    end.

Definition extract_response_text (response : Response) : string :=
  content_text (content response).

(* ================================================================ *)
(** ** LogAnalyzerAgent (agents/log_analyzer.py) *)
(* ================================================================ *)

(** [self.llm.invoke(messages)] on the current message list. *)
Definition invoke_llm : M Response :=
  fun st =>
    let (response, l') := llm_invoke (messages st) (llm st) in
    (response,
     set_calls (calls st ++ [CallLLM (messages st) response]) (set_llm l' st)).

(** [tool_func.invoke(args)] *)
Definition invoke_tool (tool_func : Tool) (args : Args) : M ToolOutcome :=
  fun st =>
    let (out, w') := invoke tool_func args (world st) in
    (out,
     set_calls (calls st ++ [CallInvoke (name tool_func) args]) (set_world w' st)).

(** lines 178-183 *)
Definition _find_tool (self_tools : list Tool) (n : string) : option Tool :=
  find (fun t => String.eqb (name t) n) self_tools.

(** The text of lines 149-154. *)
Definition blocked_notice (n : string) : string :=
  "Action '" +++ n +++ "' requires human approval and was not executed. "
  +++ "Present your findings and ask the user to confirm. "
  +++ "When the user confirms, call this tool again -- "
  +++ "the system will allow it through.".

Definition not_found_notice (n : string) : string :=
  "Tool '" +++ n +++ "' not found".

(** lines 135-175 *)
Definition _execute_tool_call (self_tools : list Tool) (tc : ToolCall)
    (approval_granted : bool) : M Message :=
  let n := tc_name tc in
  let args := tc_args tc in
  let call_id := tc_id tc in
  log (CallRequiresApproval n) ;;;
  if requires_approval n && negb approval_granted then
    (fun st => (tt, set_pending_actions (pending_actions st ++ [tc]) st)) ;;;
    notify (on_approval_skipped cb n args) ;;;
    ret (ToolMessage (blocked_notice n) call_id)
  else
    notify (on_tool_start cb n args) ;;;
    log (CallFindTool n) ;;;
    match _find_tool self_tools n with
    | None => ret (ToolMessage (not_found_notice n) call_id)
    | Some tool_func =>
        out <- invoke_tool tool_func args ;;
        match out with
        | Returned result =>
            notify (on_tool_end cb n result true) ;;;
            ret (ToolMessage result call_id)
        | Raised e =>
            notify (on_tool_end cb n e false) ;;;
            ret (ToolMessage ("Error: " +++ e) call_id)
        end
    end.

(** lines 109-114: the tool calls of one turn, in order. *)
Fixpoint execute_tool_calls (self_tools : list Tool) (tcs : list ToolCall)
    (approval_granted : bool) : M (list Message) :=
  match tcs with
  | [] => ret []
  | tc :: rest =>
      result_msg <- _execute_tool_call self_tools tc approval_granted ;;
      tool_results <- execute_tool_calls self_tools rest approval_granted ;;
      ret (result_msg :: tool_results)
  end.

(** lines 104-106: [if callbacks and intermediate: ...] *)
Definition report_reasoning (intermediate : string) : M unit :=
  if truthy intermediate
  then notify (on_reasoning cb intermediate) else ret tt.

(** lines 99-126: one pass of the [for] loop on a turn that has tool
    calls; it yields the next response and the updated [last_text]. *)
Definition loop_body (self_tools : list Tool) (response : Response)
    (last_text : string) (approval_granted : bool) : M (Response * string) :=
  let intermediate := extract_response_text response in
  let last_text := if truthy intermediate then intermediate else last_text in
  report_reasoning intermediate ;;;
  tool_results <- execute_tool_calls self_tools (tool_calls response)
                    approval_granted ;;
  (fun st =>
     (tt, set_messages
            (messages st
               ++ AIMessage (content response) (tool_calls response)
               :: tool_results) st)) ;;;
  notify (on_thinking cb) ;;;
  response' <- invoke_llm ;;
  ret (response', last_text).

(** lines 93-130: the [for] loop with [n] passes left, then the code
    after it. *)
Fixpoint tool_loop_from (n : nat) (self_tools : list Tool)
    (response : Response) (last_text : string) (approval_granted : bool)
    : M string :=
  match n with
  | 0 =>
      let text := extract_response_text response in
      ret (or_else text (or_else last_text "Reached maximum analysis steps."))
  | S n' =>
      match tool_calls response with
      | [] =>
          let text := extract_response_text response in
          ret (or_else text (or_else last_text "No response generated."))
      | _ :: _ =>
          next <- loop_body self_tools response last_text approval_granted ;;
          tool_loop_from n' self_tools (fst next) (snd next) approval_granted
      end
  end.

(** lines 85-130 *)
Definition _tool_loop (self_tools : list Tool) (response : Response)
    (approval_granted : bool) : M string :=
  tool_loop_from MAX_ITERATIONS self_tools response EmptyString
    approval_granted.

(** [self.prompt.format_messages(chat_history=..., input=...)] for the
    template of lines 46-50. *)
Definition format_messages (chat_history : list Message)
    (input : string) : list Message :=
  SystemMessage system_prompt :: chat_history ++ [HumanMessage input].

(** [chat_history or []] *)
Definition or_empty (chat_history : option (list Message)) : list Message :=
  match chat_history with Some ((_ :: _) as h) => h | _ => [] end.

(** lines 56-80; [chat_history] and [callbacks] default to [None]. *)
Definition process_query (self_tools : list Tool) (user_input : string)
    (chat_history : option (list Message)) (cbs : option Obs) : M string :=
  let chat_history := or_empty chat_history in
  (fun st => (tt, set_pending_actions [] st)) ;;;
  log (CallIsConfirmation user_input) ;;;
  let approval_granted := is_confirmation user_input in
  (fun st =>
     (tt, set_messages (format_messages chat_history user_input)
            (set_callbacks cbs st))) ;;;
  notify (on_thinking cb) ;;;
  response <- invoke_llm ;;
  _tool_loop self_tools response approval_granted.

(* ================================================================ *)
(** ** Vocabulary for stating what a cycle did *)
(* ================================================================ *)

(** What lines 168-175 make of a tool's outcome: the text of the result
    turn, and the text and the flag reported to [on_tool_end]. *)
Definition outcome_text (out : ToolOutcome) : string :=
  match out with Returned result => result | Raised e => "Error: " +++ e end.

Definition outcome_success (out : ToolOutcome) : bool :=
  match out with Returned _ => true | Raised _ => false end.

Definition outcome_report (out : ToolOutcome) : string :=
  match out with Returned result => result | Raised e => e end.

(** The test of line 144. *)
Definition gated (approval_granted : bool) (tc : ToolCall) : bool :=
  requires_approval (tc_name tc) && negb approval_granted.

(** The call id a tool result turn carries. *)
Definition result_id (m : Message) : option string :=
  match m with ToolMessage _ id => Some id | _ => None end.

(** [m] is the tool result turn of request [tc]: a blocked notice, a
    not-found notice, or what the tool's execution gave (its result,
    or its error behind "Error: "); it carries the id of [tc]. *)
Inductive answers (self_tools : list Tool) (approval_granted : bool)
    (tc : ToolCall) : Message -> Prop :=
| answer_blocked :
    requires_approval (tc_name tc) = true ->
    approval_granted = false ->
    answers self_tools approval_granted tc
      (ToolMessage (blocked_notice (tc_name tc)) (tc_id tc))
| answer_not_found :
    gated approval_granted tc = false ->
    _find_tool self_tools (tc_name tc) = None ->
    answers self_tools approval_granted tc
      (ToolMessage (not_found_notice (tc_name tc)) (tc_id tc))
| answer_returned (t : Tool) (w w' : World) (result : string) :
    gated approval_granted tc = false ->
    _find_tool self_tools (tc_name tc) = Some t ->
    invoke t (tc_args tc) w = (Returned result, w') ->
    answers self_tools approval_granted tc
      (ToolMessage result (tc_id tc))
| answer_raised (t : Tool) (w w' : World) (e : string) :
    gated approval_granted tc = false ->
    _find_tool self_tools (tc_name tc) = Some t ->
    invoke t (tc_args tc) w = (Raised e, w') ->
    answers self_tools approval_granted tc
      (ToolMessage ("Error: " +++ e) (tc_id tc)).

(** A stretch of conversation made of processed turns: each is the
    model's turn followed by one result per request, in request
    order. *)
Inductive answered_turns (self_tools : list Tool) (approval_granted : bool)
    : list Message -> Prop :=
| turns_nil : answered_turns self_tools approval_granted []
| turns_cons (c : Content) (tcs : list ToolCall)
    (results rest : list Message) :
    Forall2 (answers self_tools approval_granted) tcs results ->
    answered_turns self_tools approval_granted rest ->
    answered_turns self_tools approval_granted
      (AIMessage c tcs :: results ++ rest).

(** The calls a request may cause, besides callbacks. *)
Definition tool_event (approval_granted : bool) (tc : ToolCall)
    (c : Call) : Prop :=
  match c with
  | CallRequiresApproval n => n = tc_name tc
  | CallFindTool n => n = tc_name tc /\ gated approval_granted tc = false
  | CallInvoke n args =>
      n = tc_name tc /\ args = tc_args tc
      /\ gated approval_granted tc = false
  | _ => False
  end.

Definition is_llm_call (c : Call) : bool :=
  match c with CallLLM _ _ => true | _ => false end.

(** Number of model invocations in a record of calls. *)
Definition llm_calls (l : list Call) : nat :=
  length (filter is_llm_call l).

(** The reply of the last model invocation in a record of calls, [r]
    when there is none. *)
Definition last_reply (r : Response) (l : list Call) : Response :=
  fold_left (fun acc c => match c with CallLLM _ r' => r' | _ => acc end)
    l r.

(** The tool calls requested by the model turns of a conversation. *)
Definition requested (msgs : list Message) : list ToolCall :=
  flat_map (fun m => match m with AIMessage _ tcs => tcs | _ => [] end)
    msgs.

(** The texts of the model turns of a conversation. *)
Definition turn_texts (msgs : list Message) : list string :=
  flat_map
    (fun m => match m with AIMessage c _ => [content_text c] | _ => [] end)
    msgs.

(** The last non-empty text of a list, [start] when there is none. *)
Definition last_nonempty (start : string) (texts : list string) : string :=
  fold_left (fun acc t => if truthy t then t else acc) texts start.

(** Serving one request (lines 135-175) from the world [w]: the result
    turn the request gets, the calls made for it, in the order they
    are made, and the world it leaves. *)
Inductive served (self_tools : list Tool) (approval_granted : bool)
    (tc : ToolCall) : World -> Message -> list Call -> World -> Prop :=
| served_blocked (w : World) :
    requires_approval (tc_name tc) = true ->
    approval_granted = false ->
    served self_tools approval_granted tc w
      (ToolMessage (blocked_notice (tc_name tc)) (tc_id tc))
      [CallRequiresApproval (tc_name tc)] w
| served_not_found (w : World) :
    gated approval_granted tc = false ->
    _find_tool self_tools (tc_name tc) = None ->
    served self_tools approval_granted tc w
      (ToolMessage (not_found_notice (tc_name tc)) (tc_id tc))
      [CallRequiresApproval (tc_name tc); CallFindTool (tc_name tc)] w
| served_executed (w w' : World) (t : Tool) (out : ToolOutcome) :
    gated approval_granted tc = false ->
    _find_tool self_tools (tc_name tc) = Some t ->
    invoke t (tc_args tc) w = (out, w') ->
    served self_tools approval_granted tc w
      (ToolMessage (outcome_text out) (tc_id tc))
      [CallRequiresApproval (tc_name tc); CallFindTool (tc_name tc);
       CallInvoke (name t) (tc_args tc)] w'.

(** The requests of one turn served one after the other (lines
    109-114): one result per request, in request order, the calls of
    the requests one after the other, each request starting from the
    world the one before it left. *)
Inductive served_all (self_tools : list Tool) (approval_granted : bool)
    : list ToolCall -> World -> list Message -> list Call -> World -> Prop :=
| served_nil (w : World) :
    served_all self_tools approval_granted [] w [] [] w
| served_cons (tc : ToolCall) (tcs : list ToolCall) (w w1 w2 : World)
    (m : Message) (ms : list Message) (evs evss : list Call) :
    served self_tools approval_granted tc w m evs w1 ->
    served_all self_tools approval_granted tcs w1 ms evss w2 ->
    served_all self_tools approval_granted (tc :: tcs) w (m :: ms)
      (evs ++ evss) w2.

(** The passes of the loop of lines 93-126, with [n] passes left, from
    the reply [r] to the conversation [conv], the world [w] and the
    model client [l]: what the conversation grows by, the calls made,
    and the world and the model client left.  The loop stops when no
    pass is left or the reply asks for no tool.  Otherwise the
    requests of the reply are served, the model's turn and the results
    are appended to the conversation, the model is invoked on that
    conversation, and the loop goes on with its reply. *)
Inductive passes (self_tools : list Tool) (approval_granted : bool)
    : nat -> Response -> list Message -> World -> LLM ->
      list Message -> list Call -> World -> LLM -> Prop :=
| passes_stop (n : nat) (r : Response) (conv : list Message)
    (w : World) (l : LLM) :
    n = 0 \/ tool_calls r = [] ->
    passes self_tools approval_granted n r conv w l [] [] w l
| passes_step (n : nat) (r r' : Response) (conv : list Message)
    (w w1 w2 : World) (l l1 l2 : LLM)
    (results ext : list Message) (events new : list Call) :
    tool_calls r <> [] ->
    served_all self_tools approval_granted (tool_calls r) w results events
      w1 ->
    llm_invoke (conv ++ AIMessage (content r) (tool_calls r) :: results) l
    = (r', l1) ->
    passes self_tools approval_granted n r'
      (conv ++ AIMessage (content r) (tool_calls r) :: results) w1 l1
      ext new w2 l2 ->
    passes self_tools approval_granted (S n) r conv w l
      (AIMessage (content r) (tool_calls r) :: results ++ ext)
      (events ++ CallLLM (conv ++ AIMessage (content r) (tool_calls r)
                            :: results) r' :: new)
      w2 l2.

End Agent.

(** Two stores that differ at most in what the observer holds. *)
Definition agree {Value World LLM Obs1 Obs2 : Type}
    (st1 : State Value World LLM Obs1) (st2 : State Value World LLM Obs2)
    : Prop :=
  world st1 = world st2 /\ llm st1 = llm st2 /\
  pending_actions st1 = pending_actions st2 /\
  messages st1 = messages st2 /\ calls st1 = calls st2.


Arguments SystemMessage {Value} text.
Arguments HumanMessage {Value} text.
Arguments ToolMessage {Value} text tool_call_id.
Arguments CallIsConfirmation {Value} text.
Arguments CallRequiresApproval {Value} tool_name.
Arguments CallFindTool {Value} tool_name.
Arguments result_id {Value} m.

(* ================================================================== *)
(** ** A concrete set of collaborators *)
(* ================================================================== *)

Module Scenario.

(** What the recording observer has been told. *)
Inductive Event : Type :=
| Thinking
| Reasoning (text : string)
| ToolStart (tool_name : string) (args : Args string)
| ToolEnd (tool_name : string) (result : string) (success : bool)
| ApprovalSkipped (tool_name : string) (args : Args string).

(** An observer that appends every event to its transcript. *)
Definition recorder : Observer string (list Event) :=
  mkObserver
    (fun o => o ++ [Thinking])
    (fun text o => o ++ [Reasoning text])
    (fun n args o => o ++ [ToolStart n args])
    (fun n result success o => o ++ [ToolEnd n result success])
    (fun n args o => o ++ [ApprovalSkipped n args]).

(** A model client that replays a script; its state is the number of
    invocations so far. *)
Definition silent : Response string :=
  mkResponse (ContentStr EmptyString) [].

Definition scripted (script : list (Response string))
    (conversation : list (Message string)) (i : nat)
    : Response string * nat :=
  (nth i script silent, S i).

(** Tool bodies: the world is the journal of the effects performed;
    [search_logs] fails. *)
Definition bodies (n : string) (args : Args string) (w : list string)
    : ToolOutcome * list string :=
  if String.eqb n "search_logs"
  then (Raised "missing argument", w)
  else (Returned ("done: " +++ n), w ++ [n]).

Definition st0 : State string (list string) nat (list Event) :=
  mkState [] 0 [] [] None [].

Definition run (script : list (Response string)) (user_input : string)
    (cbs : option (list Event)) :=
  process_query (scripted script) recorder "SYSTEM"
    (get_all_tools bodies) user_input None cbs st0.

Definition call (n id : string) : ToolCall string := mkToolCall n [] id.

Definition asks (text : string) (tcs : list (ToolCall string))
    : Response string :=
  mkResponse (ContentStr text) tcs.

End Scenario.

(* ================================================================== *)
(** ** Facts about the string primitives *)
(* ================================================================== *)

(* ================================================================== *)
(** ** Further vocabulary: strings, blocks and records of calls *)
(* ================================================================== *)

(** A string that [lstrip p] leaves alone: empty, or starting with a
    character outside [p]. *)
Definition lstripped (p : ascii -> bool) (s : string) : Prop :=
  match first_char s with Some c => p c = false | None => True end.

(** A string without leading or trailing white space. *)
Definition trimmed (s : string) : Prop :=
  lstripped is_space s /\ rstripped is_space s.

(** The blocks from which response.py, lines 31-37, takes text. *)
Definition has_text (b : Block) : bool :=
  match b with
  | BlockDict (Some _) => true
  | BlockStr _ => true
  | _ => false
  end.

Definition is_requires_approval_call {Value : Type} (c : Call Value) : bool :=
  match c with CallRequiresApproval _ => true | _ => false end.

Definition is_find_call {Value : Type} (c : Call Value) : bool :=
  match c with CallFindTool _ => true | _ => false end.

Definition is_invoke_call {Value : Type} (c : Call Value) : bool :=
  match c with CallInvoke _ _ => true | _ => false end.

(** Number of the calls of a record that satisfy [p]. *)
Definition count_calls {Value : Type} (p : Call Value -> bool)
    (l : list (Call Value)) : nat :=
  length (filter p l).

(** app.py, lines 210-211: what the chat shows for the string that
    [process_query] returned. *)
Definition shown_response (response : string) : string :=
  if negb (truthy response) || negb (truthy (strip response))
  then "No response generated. Try a different question."
  else response.

(** Number of model turns of a conversation that carry text. *)
Definition spoken {Value : Type} (msgs : list (Message Value)) : nat :=
  length (filter truthy (turn_texts msgs)).

(** The bookkeeping of one pass of the loop, or of several: between
    [st] and [st'] there is one model invocation per model turn added to
    the conversation, one approval test per request added, every such
    request was either left pending or looked up, and no tool was
    invoked without a lookup. *)
Definition accounted {Value World LLM Obs : Type}
    (st st' : State Value World LLM Obs) : Prop :=
  llm_calls (calls st') + length (turn_texts (messages st))
  = llm_calls (calls st) + length (turn_texts (messages st')) /\
  count_calls is_requires_approval_call (calls st')
  + length (requested (messages st))
  = count_calls is_requires_approval_call (calls st)
    + length (requested (messages st')) /\
  count_calls is_find_call (calls st') + length (pending_actions st')
  + length (requested (messages st))
  = count_calls is_find_call (calls st) + length (pending_actions st)
    + length (requested (messages st')) /\
  count_calls is_invoke_call (calls st') + count_calls is_find_call (calls st)
  <= count_calls is_invoke_call (calls st)
     + count_calls is_find_call (calls st').

(** *** What the recording observer was told *)

Module Transcript.

Import Scenario.

Definition is_thinking (e : Event) : bool :=
  match e with Thinking => true | _ => false end.
Definition is_reasoning (e : Event) : bool :=
  match e with Reasoning _ => true | _ => false end.
Definition is_tool_start (e : Event) : bool :=
  match e with ToolStart _ _ => true | _ => false end.
Definition is_tool_end (e : Event) : bool :=
  match e with ToolEnd _ _ _ => true | _ => false end.
Definition is_approval_skipped (e : Event) : bool :=
  match e with ApprovalSkipped _ _ => true | _ => false end.
Definition is_empty_reasoning (e : Event) : bool :=
  match e with Reasoning text => negb (truthy text) | _ => false end.

Definition count_events (p : Event -> bool) (l : list Event) : nat :=
  length (filter p l).

(** The transcript held by the callbacks of a store; empty without
    callbacks. *)
Definition transcript {World LLM : Type}
    (st : State string World LLM (list Event)) : list Event :=
  match callbacks st with Some o => o | None => [] end.

(** Between [st] and [st'] every model invocation was announced by
    [on_thinking], every lookup by [on_tool_start], every invocation of
    a tool was closed by [on_tool_end], every request left pending was
    reported by [on_approval_skipped], and every model turn with text
    added to the conversation was reported by [on_reasoning], which was
    never told an empty text. *)
Definition reported {World LLM : Type}
    (st st' : State string World LLM (list Event)) : Prop :=
  callbacks st <> None ->
  callbacks st' <> None /\
  count_events is_thinking (transcript st') + llm_calls (calls st)
  = count_events is_thinking (transcript st) + llm_calls (calls st') /\
  count_events is_tool_start (transcript st')
  + count_calls is_find_call (calls st)
  = count_events is_tool_start (transcript st)
    + count_calls is_find_call (calls st') /\
  count_events is_tool_end (transcript st')
  + count_calls is_invoke_call (calls st)
  = count_events is_tool_end (transcript st)
    + count_calls is_invoke_call (calls st') /\
  count_events is_approval_skipped (transcript st')
  + length (pending_actions st)
  = count_events is_approval_skipped (transcript st)
    + length (pending_actions st') /\
  count_events is_reasoning (transcript st') + spoken (messages st)
  = count_events is_reasoning (transcript st) + spoken (messages st') /\
  count_events is_empty_reasoning (transcript st')
  = count_events is_empty_reasoning (transcript st).

(** Telling an observer one event, and a transcript of events. *)
Definition tell {Obs : Type} (cb : Observer string Obs) (e : Event)
    (o : Obs) : Obs :=
  match e with
  | Thinking => on_thinking cb o
  | Reasoning text => on_reasoning cb text o
  | ToolStart n args => on_tool_start cb n args o
  | ToolEnd n result success => on_tool_end cb n result success o
  | ApprovalSkipped n args => on_approval_skipped cb n args o
  end.

Definition replay {Obs : Type} (cb : Observer string Obs)
    (events : list Event) (o : Obs) : Obs :=
  fold_left (fun acc e => tell cb e acc) events o.

(** [st1], worked on with the observer [cb] started from [o0], and
    [st2], worked on with the recording observer started from an empty
    transcript, agree, and the observer of [st1] holds what replaying
    the transcript of [st2] gives. *)
Definition mirrored {World LLM Obs : Type} (cb : Observer string Obs)
    (o0 : Obs) (st1 : State string World LLM Obs)
    (st2 : State string World LLM (list Event)) : Prop :=
  agree st1 st2 /\
  exists t, callbacks st2 = Some t /\ callbacks st1 = Some (replay cb t o0).

(** Two computations that keep their stores mirrored and give the same
    value. *)
Definition mirror {World LLM Obs A : Type} (cb : Observer string Obs)
    (o0 : Obs) (m1 : M string World LLM Obs A)
    (m2 : M string World LLM (list Event) A) : Prop :=
  forall st1 st2,
    mirrored cb o0 st1 st2 ->
    fst (m1 st1) = fst (m2 st2) /\
    mirrored cb o0 (snd (m1 st1)) (snd (m2 st2)).

End Transcript.

(* ================================================================== *)
(** ** The chat application (app.py) *)
(* ================================================================== *)

Module App.

Import Scenario.

(** [sub in s] *)
Fixpoint contains (sub s : string) : bool :=
  String.prefix sub s
  || match s with
     | EmptyString => false
     | String _ s' => contains sub s'
     end.

(** [s.count(sub)] for a non-empty [sub]: occurrences are counted from
    the left and do not overlap; [skip] characters are still covered by
    the last occurrence counted. *)
Fixpoint count_from (sub : string) (skip : nat) (s : string) : nat :=
  match s with
  | EmptyString => 0
  | String _ s' =>
      match skip with
      | S k => count_from sub k s'
      | 0 =>
          if String.prefix sub s
          then S (count_from sub (String.length sub - 1) s')
          else count_from sub 0 s'
      end
  end.

Definition count (sub s : string) : nat := count_from sub 0 s.

(** [s.split("\n")[0]] *)
Fixpoint first_line (s : string) : string :=
  match s with
  | EmptyString => EmptyString
  | String c s' =>
      if Ascii.eqb c (ascii_of_nat 10) then EmptyString
      else String c (first_line s')
  end.

(** [s[:n]] *)
Fixpoint take (n : nat) (s : string) : string :=
  match n, s with
  | S k, String c s' => String c (take k s')
  | _, _ => EmptyString
  end.

(** [str(n)] for a natural number. *)
Definition str_of_nat (n : nat) : string :=
  NilZero.string_of_uint (Nat.to_uint n).

(** [d.get(key, default)] on a dict written as its list of items. *)
Fixpoint get (d : list (string * string)) (key default : string) : string :=
  match d with
  | [] => default
  | (k, v) :: rest => if String.eqb k key then v else get rest key default
  end.

(** The em dash of the source texts, as its UTF-8 bytes. *)
Definition em_dash : string :=
  String (ascii_of_nat 226)
    (String (ascii_of_nat 128) (String (ascii_of_nat 148) EmptyString)).

(** lines 29-36 *)
Definition TOOL_LABELS : list (string * string) :=
  [ ("list_log_files", "Listing log files");
    ("read_log_file", "Reading log file");
    ("search_logs", "Searching logs");
    ("reboot_rds_instance", "Rebooting RDS instance");
    ("restart_kubernetes_pod", "Restarting Kubernetes pod");
    ("send_slack_notification", "Sending Slack notification") ].

(** lines 87-102 *)
Definition _summarize_result (tool_name result : string) : string :=
  let r := result in
  if String.eqb tool_name "list_log_files" then
    let n := count ".log" r in
    "found " +++ str_of_nat n +++ " log file"
    +++ (if negb (n =? 1) then "s" else "")
  else if String.eqb tool_name "read_log_file" then "file read"
  else if String.eqb tool_name "search_logs" then
    let line := first_line r in
    if contains "Found" line then lower line else "search complete"
  else if String.eqb tool_name "send_slack_notification" then
    "notification sent"
  else if in_set tool_name ["reboot_rds_instance"; "restart_kubernetes_pod"]
  then "initiated"
  else take 80 r.

(** A call on the [st.status] container. *)
Inductive StatusCall : Type :=
| StatusUpdate (label state : string) (expanded : option bool)
| StatusWrite (text : string).

(** An entry of [steps]: [{"label": ..., "detail": ...}]. *)
Record Step : Type := mkStep { step_label : string; step_detail : string }.

(** A StreamlitProgress object: the calls made on its container, its
    [tool_count] and its [steps]. *)
Record Progress : Type := mkProgress
  { status : list StatusCall; tool_count : nat; steps : list Step }.

(** lines 42-45, on a container on which nothing was called yet. *)
Definition new_progress : Progress := mkProgress [] 0 [].

(** lines 47-48 *)
Definition progress_on_thinking (p : Progress) : Progress :=
  mkProgress (status p ++ [StatusUpdate "Thinking..." "running" None])
    (tool_count p) (steps p).

(** lines 50-53 *)
Definition progress_on_reasoning (text : string) (p : Progress) : Progress :=
  if truthy text
  then mkProgress (status p ++ [StatusWrite ("_" +++ text +++ "_")])
         (tool_count p) (steps p ++ [mkStep "Reasoning" text])
  else p.

(** lines 55-58 *)
Definition progress_on_tool_start (tool_name : string) (tool_args : Args string)
    (p : Progress) : Progress :=
  let label := get TOOL_LABELS tool_name tool_name in
  mkProgress (status p ++ [StatusUpdate (label +++ "...") "running" None])
    (tool_count p + 1) (steps p).

(** lines 60-65 *)
Definition progress_on_tool_end (tool_name result : string) (success : bool)
    (p : Progress) : Progress :=
  let label := get TOOL_LABELS tool_name tool_name in
  let marker := if success then "OK" else "FAIL" in
  let preview := _summarize_result tool_name result in
  mkProgress
    (status p
       ++ [StatusWrite ("[" +++ marker +++ "] **" +++ label +++ "** "
                        +++ em_dash +++ " " +++ preview)])
    (tool_count p)
    (steps p ++ [mkStep label ("[" +++ marker +++ "] " +++ preview)]).

(** lines 67-70 *)
Definition progress_on_approval_skipped (tool_name : string)
    (tool_args : Args string) (p : Progress) : Progress :=
  let label := get TOOL_LABELS tool_name tool_name in
  mkProgress
    (status p
       ++ [StatusWrite ("[BLOCKED] **" +++ label +++ "** " +++ em_dash
                        +++ " requires your approval")])
    (tool_count p)
    (steps p ++ [mkStep label "[BLOCKED] requires approval"]).

(** lines 72-80 *)
Definition complete (p : Progress) : Progress :=
  let n := tool_count p in
  match n with
  | 0 =>
      mkProgress (status p ++ [StatusUpdate "Done" "complete" (Some false)])
        (tool_count p) (steps p)
  | _ =>
      mkProgress
        (status p
           ++ [StatusUpdate
                 ("Done " +++ em_dash +++ " " +++ str_of_nat n +++ " tool"
                  +++ (if negb (n =? 1) then "s" else "") +++ " used")
                 "complete" (Some false)])
        (tool_count p) (steps p)
  end.

(** lines 82-84 *)
Definition error (msg : string) (p : Progress) : Progress :=
  mkProgress
    (status p ++ [StatusUpdate "Error" "error" None;
                  StatusWrite ("Error: " +++ msg)])
    (tool_count p) (steps p).

(** The methods of StreamlitProgress that the agent calls. *)
Definition streamlit_progress : Observer string Progress :=
  mkObserver progress_on_thinking progress_on_reasoning
    progress_on_tool_start progress_on_tool_end
    progress_on_approval_skipped.

(** An entry of [st.session_state.messages]:
    [{"role": ..., "content": ..., "steps": ...}], the steps being there
    for the entries of the assistant. *)
Record ChatEntry : Type := mkChatEntry
  { role : string; entry_content : string; entry_steps : option (list Step) }.

(** lines 119-127 *)
Definition to_langchain (messages : list ChatEntry) : list (Message string) :=
  map (fun m =>
         if String.eqb (role m) "user"
         then HumanMessage (entry_content m)
         else AIMessage (ContentStr (entry_content m)) [])
    messages.

(** lines 193 and 202: the history handed to the agent for a prompt,
    the prompt having been appended to the session messages. *)
Definition history_for (session : list ChatEntry) (prompt : string)
    : list (Message string) :=
  to_langchain (removelast (session ++ [mkChatEntry "user" prompt None])).

End App.

(* ================================================================== *)
(** ** The tools (tools/aws_actions.py, slack_notifier.py, log_reader.py)

    What a tool prints on standard output is not part of the model. *)
(* ================================================================== *)

Module Env.

(** The environment variables: [os.getenv(name)]. *)
Definition Env : Type := string -> option string.

(** [bool(os.getenv(name))] *)
Definition is_set (env : Env) (name : string) : bool :=
  match env name with Some v => truthy v | None => false end.

(** [os.getenv(name, default)] *)
Definition getenv_default (env : Env) (name default : string) : string :=
  match env name with Some v => v | None => default end.

End Env.

Module Aws.

Import Env.

(** An exception raised inside [_reboot_rds_real]: an [ImportError], a
    [botocore.exceptions.ClientError] with the code and the message of
    [e.response['Error']], or any other exception with its [str(e)]. *)
Inductive AwsError : Type :=
| ImportError
| ClientError (code message : string)
| OtherException (text : string).

(** The calls made on the RDS client. *)
Inductive AwsCall : Type :=
| DescribeDbInstances (region db_instance_id : string)
| RebootDbInstance (region db_instance_id : string).

(** boto3 as the tool sees it: whether it can be imported, what
    creating the client for a region raises, if anything, the
    [DBInstanceStatus] of the entries of [response['DBInstances']] that
    [describe_db_instances] returns, and [reboot_db_instance], which
    acts on the cloud. *)
Record Boto3 (Cloud : Type) : Type := mkBoto3
  { installed : bool;
    client : string -> option AwsError;
    describe_db_instances : string -> string -> Cloud -> list string + AwsError;
    reboot_db_instance : string -> string -> Cloud -> option AwsError * Cloud }.

(** The arrow of the source text, as its UTF-8 bytes. *)
Definition arrow : string :=
  String (ascii_of_nat 226)
    (String (ascii_of_nat 134) (String (ascii_of_nat 146) EmptyString)).

(** lines 10-16 *)
Definition _is_aws_configured (env : Env) : bool :=
  is_set env "AWS_ACCESS_KEY_ID" || is_set env "AWS_PROFILE"
  || is_set env "AWS_ROLE_ARN".

(** What a call of the tool gives: the string returned, the calls made
    on the client, and the cloud afterwards. *)
Definition Outcome (Cloud : Type) : Type := (string * list AwsCall * Cloud)%type.

(** lines 84-92: the handlers of the outer [try]. *)
Definition handle (e : AwsError) : string :=
  match e with
  | ImportError =>
      "boto3 is not installed. Install it with: pip install boto3" +++ newline
      +++ "Falling back to placeholder mode."
  | ClientError _ message => "AWS API error: " +++ message
  | OtherException text => "Error rebooting RDS instance: " +++ text
  end.

(** lines 42-92; [response['DBInstances'][0]] on an empty list raises
    an [IndexError]. *)
Definition _reboot_rds_real {Cloud : Type} (env : Env) (boto3 : Boto3 Cloud)
    (db_instance_id reason : string) (cloud : Cloud) : Outcome Cloud :=
  if negb (installed boto3) then (handle ImportError, [], cloud)
  else
    let region := getenv_default env "AWS_REGION" "us-east-1" in
    match client boto3 region with
    | Some e => (handle e, [], cloud)
    | None =>
        let described := [DescribeDbInstances region db_instance_id] in
        match describe_db_instances boto3 region db_instance_id cloud with
        | inr (ClientError code message) =>
            if String.eqb code "DBInstanceNotFoundFault"
            then ("RDS instance '" +++ db_instance_id
                  +++ "' not found in region " +++ region +++ ".",
                  described, cloud)
            else (handle (ClientError code message), described, cloud)
        | inr e => (handle e, described, cloud)
        | inl [] =>
            (handle (OtherException "list index out of range"),
             described, cloud)
        | inl (status :: _) =>
            if negb (String.eqb status "available")
            then ("Cannot reboot RDS instance '" +++ db_instance_id +++ "'. "
                  +++ "Current status: " +++ status
                  +++ ". Instance must be 'available' to reboot.",
                  described, cloud)
            else
              let calls :=
                described ++ [RebootDbInstance region db_instance_id] in
              match reboot_db_instance boto3 region db_instance_id cloud with
              | (Some e, cloud') => (handle e, calls, cloud')
              | (None, cloud') =>
                  ("Successfully initiated reboot of RDS instance '"
                   +++ db_instance_id +++ "' in region " +++ region +++ "."
                   +++ newline
                   +++ "Reason: " +++ reason +++ newline
                   +++ "Previous status: " +++ status +++ newline
                   +++ "Expected downtime: 1-3 minutes for a standard reboot."
                   +++ newline
                   +++ "The instance will transition: available " +++ arrow
                   +++ " rebooting " +++ arrow +++ " available." +++ newline
                   +++ "All existing connections will be dropped and new connections can be established after reboot.",
                   calls, cloud')
              end
        end
    end.

(** lines 95-116 *)
Definition _reboot_rds_placeholder {Cloud : Type} (env : Env)
    (db_instance_id reason : string) (cloud : Cloud) : Outcome Cloud :=
  let region := getenv_default env "AWS_REGION" "us-east-1" in
  ("[SIMULATED] Successfully initiated reboot of RDS instance '"
   +++ db_instance_id +++ "' in region " +++ region +++ "." +++ newline
   +++ "Reason: " +++ reason +++ newline
   +++ "Expected downtime: 1-3 minutes." +++ newline
   +++ "All existing database connections will be dropped. "
   +++ "Application pods will reconnect automatically via HikariCP connection pool.",
   [], cloud).

(** lines 19-39 *)
Definition reboot_rds_instance {Cloud : Type} (env : Env) (boto3 : Boto3 Cloud)
    (db_instance_id reason : string) (cloud : Cloud) : Outcome Cloud :=
  if _is_aws_configured env
  then _reboot_rds_real env boto3 db_instance_id reason cloud
  else _reboot_rds_placeholder env db_instance_id reason cloud.

End Aws.

Module Slack.

Import Env.

(** The blocks of a Slack message: a header with its plain text, a
    section with its mrkdwn text, a context with the mrkdwn texts of its
    elements. *)
Inductive SlackBlock : Type :=
| HeaderBlock (text : string)
| SectionBlock (text : string)
| ContextBlock (elements : list string).

(** The payload: [{"channel": ..., "blocks": ..., "text": ...}]. *)
Record Payload : Type := mkPayload
  { channel : string; blocks : list SlackBlock; text : string }.

(** lines 46-51 *)
Definition severity_tags : list (string * string) :=
  [ ("P1", "[CRITICAL]"); ("P2", "[HIGH]"); ("P3", "[MEDIUM]");
    ("info", "[INFO]") ].

(** lines 44-103 *)
Definition _build_slack_payload
    (channel summary severity details actions_taken : string) : Payload :=
  let tag := App.get severity_tags severity "[UNKNOWN]" in
  let blocks :=
    [ HeaderBlock (tag +++ " " +++ severity +++ " Incident: " +++ summary);
      SectionBlock ("*Severity:* " +++ severity +++ newline
                    +++ "*Summary:* " +++ summary) ] in
  let blocks :=
    if truthy details
    then blocks ++ [SectionBlock ("*Details:*" +++ newline +++ details)]
    else blocks in
  let blocks :=
    if truthy actions_taken
    then blocks
           ++ [SectionBlock ("*Actions Taken:*" +++ newline +++ actions_taken)]
    else blocks in
  let blocks :=
    blocks ++ [ContextBlock ["Sent by AI Logging Agent | DevOps Automation"]]
  in
  mkPayload channel blocks (tag +++ " " +++ severity +++ ": " +++ summary).

Definition is_section (b : SlackBlock) : bool :=
  match b with SectionBlock _ => true | _ => false end.

(** What building the request and [urllib.request.urlopen] do: a
    response with its status, a [URLError], or any other exception, each
    with its [str(e)]. *)
Inductive HttpOutcome : Type :=
| HttpResponse (status : nat)
| URLError (text : string)
| HttpException (text : string).

(** The request: the URL as [os.getenv] returned it, and the payload of
    which the request carries the JSON text. *)
Record HttpPost : Type := mkHttpPost { url : option string; body : Payload }.

(** lines 11-13 *)
Definition _is_slack_configured (env : Env) : bool :=
  is_set env "SLACK_WEBHOOK_URL".

(** lines 106-134 *)
Definition _send_slack_real (env : Env) (urlopen : HttpPost -> HttpOutcome)
    (channel summary severity details actions_taken : string)
    : string * list HttpPost :=
  let webhook_url := env "SLACK_WEBHOOK_URL" in
  let payload :=
    _build_slack_payload channel summary severity details actions_taken in
  let req := mkHttpPost webhook_url payload in
  match urlopen req with
  | HttpResponse status =>
      if status =? 200
      then ("Slack notification sent to " +++ channel +++ "." +++ newline
            +++ "Summary: " +++ severity +++ " - " +++ summary,
            [req])
      else ("Slack API returned status " +++ App.str_of_nat status, [req])
  | URLError e => ("Failed to send Slack notification: " +++ e, [req])
  | HttpException e => ("Error sending Slack notification: " +++ e, [req])
  end.

(** lines 137-159 *)
Definition _send_slack_placeholder
    (channel summary severity details actions_taken : string)
    : string * list HttpPost :=
  ("[SIMULATED] Slack notification sent to " +++ channel +++ "." +++ newline
   +++ "Summary: " +++ severity +++ " - " +++ summary +++ newline
   +++ "The team has been notified about the incident and actions taken.",
   []).

(** lines 16-41 *)
Definition send_slack_notification (env : Env)
    (urlopen : HttpPost -> HttpOutcome)
    (channel summary severity details actions_taken : string)
    : string * list HttpPost :=
  if _is_slack_configured env
  then _send_slack_real env urlopen channel summary severity details
         actions_taken
  else _send_slack_placeholder channel summary severity details
         actions_taken.

End Slack.

Module Logs.

(** What opening, reading or measuring a file raises, with [str(e)]
    where a handler uses it. *)
Inductive IOError : Type :=
| FileNotFoundError
| PermissionError (text : string)
| OtherError (text : string).

(** The files of the log directory, by the name given to the tool:
    the text [f.read()] gives (line ends read as newline characters),
    and [os.path.getsize]. *)
Record Files : Type := mkFiles
  { read_text : string -> string + IOError;
    getsize : string -> nat + IOError }.

(** lines 10-38 *)
Definition read_log_file (LOG_DIRECTORY : string) (fs : Files)
    (filename : string) : string :=
  let raised (e : IOError) :=
    match e with
    | FileNotFoundError =>
        "Error: Log file '" +++ filename +++ "' not found in "
        +++ LOG_DIRECTORY +++ "/ directory"
    | PermissionError _ =>
        "Error: Permission denied reading '" +++ filename +++ "'"
    | OtherError text => "Error reading '" +++ filename +++ "': " +++ text
    end in
  match read_text fs filename with
  | inr e => raised e
  | inl content =>
      match getsize fs filename with
      | inr e => raised e
      | inl file_size =>
          let line_count := App.count newline content + 1 in
          "File: " +++ filename +++ newline
          +++ "Size: " +++ App.str_of_nat file_size +++ " bytes" +++ newline
          +++ "Lines: " +++ App.str_of_nat line_count +++ newline
          +++ newline +++ content
      end
  end.

(** [f.readlines()] on the text of a file: every line keeps its
    newline character; the last one has none when the text does not end
    with one. *)
Fixpoint readlines (content : string) : list string :=
  match content with
  | EmptyString => []
  | String c rest =>
      if Ascii.eqb c (ascii_of_nat 10) then String c EmptyString :: readlines rest
      else match readlines rest with
           | [] => [String c EmptyString]
           | line :: lines => String c line :: lines
           end
  end.

(** [enumerate(lines, start)] *)
Definition enumerate (start : nat) (lines : list string)
    : list (nat * string) :=
  combine (seq start (List.length lines)) lines.

(** line 92 *)
Definition matches_term (search_term line : string) : bool :=
  App.contains (lower search_term) (lower line).

(** line 93 *)
Definition match_entry (line_num : nat) (line : string) : string :=
  "Line " +++ App.str_of_nat line_num +++ ": " +++ rstrip is_space line.

(** lines 90-93: the loop over [enumerate(lines, line_num)]. *)
Fixpoint find_matches (search_term : string) (line_num : nat)
    (lines : list string) : list string :=
  match lines with
  | [] => []
  | line :: rest =>
      let found := find_matches search_term (S line_num) rest in
      if matches_term search_term line
      then match_entry line_num line :: found
      else found
  end.

(** The numbered lines of a file that hold the term, in any letter
    case. *)
Definition hits (search_term : string) (lines : list string)
    : list (nat * string) :=
  filter (fun e => matches_term search_term (snd e)) (enumerate 1 lines).

Definition is_newline (c : ascii) : bool := Ascii.eqb c (ascii_of_nat 10).

Definition is_digit (c : ascii) : bool :=
  (48 <=? nat_of_ascii c) && (nat_of_ascii c <=? 57).

(** An ASCII character; on a text made of them [str.lower] works
    character by character. *)
Definition is_ascii (c : ascii) : bool := nat_of_ascii c <? 128.

(** What the text ends with: nothing, a newline, or another
    character. *)
Definition ends_with_newline (content : string) : bool :=
  match last_char content with Some c => is_newline c | None => false end.

(** The header of the answer of a search with [n] matches. *)
Definition found_header (n : nat) (search_term filename : string) : string :=
  "Found " +++ App.str_of_nat n +++ " matches for '" +++ search_term
  +++ "' in " +++ filename +++ ":".

(** lines 72-106 *)
Definition search_logs (fs : Files) (filename search_term : string) : string :=
  match read_text fs filename with
  | inr FileNotFoundError => "Error: Log file '" +++ filename +++ "' not found"
  | inr (PermissionError text)
  | inr (OtherError text) =>
      "Error searching '" +++ filename +++ "': " +++ text
  | inl content =>
      let matches := find_matches search_term 1 (readlines content) in
      match matches with
      | [] =>
          "No matches found for '" +++ search_term +++ "' in " +++ filename
      | _ =>
          "Found " +++ App.str_of_nat (List.length matches)
          +++ " matches for '" +++ search_term +++ "' in " +++ filename
          +++ ":" +++ newline +++ newline +++ join newline matches
      end
  end.

End Logs.

Module Config.

Import Env.

(** config.py, lines 15-28: the attributes read from the environment
    when the class is created. *)
Definition GEMINI_API_KEY (env : Env) : option string := env "GEMINI_API_KEY".

Definition GEMINI_MODEL (env : Env) : string :=
  getenv_default env "GEMINI_MODEL" "gemini-2.5-flash".

Definition LLM_PROVIDER (env : Env) : string :=
  lower (getenv_default env "LLM_PROVIDER" "gemini").

Definition GITHUB_TOKEN (env : Env) : string :=
  getenv_default env "GITHUB_TOKEN" "".

Definition GITHUB_MODEL (env : Env) : string :=
  getenv_default env "GITHUB_MODEL" "openai/gpt-5".

Definition GITHUB_ENDPOINT (env : Env) : string :=
  getenv_default env "GITHUB_ENDPOINT" "https://models.github.ai/inference".

Definition LOG_DIRECTORY (env : Env) : string :=
  getenv_default env "LOG_DIRECTORY" "logs".

(** [not x] for an attribute that may be [None]. *)
Definition missing (v : option string) : bool :=
  match v with Some s => negb (truthy s) | None => true end.

(** The directories: [os.path.exists], and what [os.makedirs] raises,
    if anything. *)
Record Dirs : Type := mkDirs
  { path_exists : string -> bool;
    makedirs : string -> option string }.

(** What [validate] does: it raises a [ValueError] or lets the error of
    [os.makedirs] through, or returns, having made the directories
    listed. *)
Inductive Validation : Type :=
| ValueError (message : string)
| OSError (text : string)
| Validated (made : list string).

(** config.py, lines 66-81 *)
Definition validate (env : Env) (dirs : Dirs) : Validation :=
  if String.eqb (LLM_PROVIDER env) "gemini" && missing (GEMINI_API_KEY env)
  then ValueError
         ("LLM_PROVIDER=gemini but GEMINI_API_KEY is not set. "
          +++ "Please set it in .env file or environment variables.")
  else if String.eqb (LLM_PROVIDER env) "github"
          && negb (truthy (GITHUB_TOKEN env))
  then ValueError
         ("LLM_PROVIDER=github but GITHUB_TOKEN is not set. "
          +++ "Please set it in .env file or environment variables.")
  else if negb (path_exists dirs (LOG_DIRECTORY env))
  then match makedirs dirs (LOG_DIRECTORY env) with
       | Some text => OSError text
       | None => Validated [LOG_DIRECTORY env]
       end
  else Validated [].

(** The model wrappers of models/gemini.py and models/github_openai.py,
    with the arguments their constructors pass on (the temperature
    apart). *)
Inductive Model : Type :=
| GeminiModel (model : string) (google_api_key : option string)
| GitHubModel (model api_key base_url : string).

(** models/factory.py, lines 12-34: the model, or the message of the
    [ValueError]. *)
Definition create_model (env : Env) : Model + string :=
  let provider := LLM_PROVIDER env in
  if String.eqb provider "gemini"
  then inl (GeminiModel (GEMINI_MODEL env) (GEMINI_API_KEY env))
  else if String.eqb provider "github"
  then inl (GitHubModel (GITHUB_MODEL env) (GITHUB_TOKEN env)
              (GITHUB_ENDPOINT env))
  else inr ("Unknown LLM_PROVIDER '" +++ provider +++ "'. "
            +++ "Supported values: gemini, github").

(** The key a model is built with. *)
Definition key_of (m : Model) : option string :=
  match m with
  | GeminiModel _ key => key
  | GitHubModel _ key _ => Some key
  end.

End Config.

(* ================================================================== *)
(** ** Observers that may raise

    The methods of the callbacks object are the caller's code, and any
    of them may raise.  A call made outside a [try] ends the cycle with
    the exception; the call of [on_tool_end] at line 170 lies inside
    the [try] of lines 167-175, whose handler takes the exception for
    one of the tool.  This is [LogAnalyzerAgent] again, with such
    observers; the model client, the tools and the store are those of
    the section above. *)
(* ================================================================== *)

Module Raising.

(** What a call of a method does: it returns, or it raises an
    [Exception] of which [e] is [str(e)]; in both cases it may have
    changed the state of the observer. *)
Inductive Reaction (Obs : Type) : Type :=
| Returns (o : Obs)
| Raises (e : string) (o : Obs).



(** How a computation ends: with a value, or with an exception that
    nothing caught. *)
Inductive Outcome (A : Type) : Type :=
| Done (a : A)
| Failed (e : string).

Arguments Failed {A} e.

Section Cycle.

Variables (Value World LLM Obs : Type).

Record Observer : Type := mkObserver
  { on_thinking : Obs -> Reaction Obs;
    on_reasoning : string -> Obs -> Reaction Obs;
    on_tool_start : string -> Args Value -> Obs -> Reaction Obs;
    on_tool_end : string -> string -> bool -> Obs -> Reaction Obs;
    on_approval_skipped : string -> Args Value -> Obs -> Reaction Obs }.


Local Abbreviation St := (State Value World LLM Obs).

(** *** The state monad with exceptions *)

Definition R (A : Type) : Type := St -> Outcome A * St.

Definition ret {A : Type} (a : A) : R A := fun st => (Done a, st).

Definition bind {A B : Type} (m : R A) (k : A -> R B) : R B :=
  fun st =>
    match m st with
    | (Done a, st') => k a st'
    | (Failed e, st') => (Failed e, st')
    end.

Notation "x <- m ;; k" := (bind m (fun x => k))
  (at level 61, m at next level, right associativity).
Notation "m ;;; k" := (bind m (fun _ => k))
  (at level 61, right associativity).

(** A step that cannot raise. *)
Definition lift {A : Type} (m : M Value World LLM Obs A) : R A :=
  fun st => let (a, st') := m st in (Done a, st').

(** [try: m except Exception as e: handler(e)] *)
Definition try_except {A : Type} (m : R A) (handler : string -> R A) : R A :=
  fun st =>
    match m st with
    | (Done a, st') => (Done a, st')
    | (Failed e, st') => handler e st'
    end.

(** [if callbacks: callbacks.f(...)] *)
Definition notify (f : Obs -> Reaction Obs) : R unit :=
  fun st =>
    match callbacks st with
    | None => (Done tt, st)
    | Some o =>
        match f o with
        | Returns o' => (Done tt, set_callbacks (Some o') st)
        | Raises e o' => (Failed e, set_callbacks (Some o') st)
        end
    end.

Variable llm_invoke : list (Message Value) -> LLM -> Response Value * LLM.
Variable cb : Observer.
Variable system_prompt : string.

(** lines 135-175 *)
Definition _execute_tool_call (self_tools : list (Tool Value World))
    (tc : ToolCall Value) (approval_granted : bool) : R (Message Value) :=
  let n := tc_name tc in
  let args := tc_args tc in
  let call_id := tc_id tc in
  lift (log (CallRequiresApproval n)) ;;;
  if requires_approval n && negb approval_granted then
    lift (fun st => (tt, set_pending_actions (pending_actions st ++ [tc]) st))
    ;;;
    notify (on_approval_skipped cb n args) ;;;
    ret (ToolMessage (blocked_notice n) call_id)
  else
    notify (on_tool_start cb n args) ;;;
    lift (log (CallFindTool n)) ;;;
    match _find_tool self_tools n with
    | None => ret (ToolMessage (not_found_notice n) call_id)
    | Some tool_func =>
        (* lines 172-175 *)
        let handler (e : string) :=
          notify (on_tool_end cb n e false) ;;;
          ret (ToolMessage ("Error: " +++ e) call_id) in
        out <- lift (invoke_tool tool_func args) ;;
        match out with
        | Returned result =>
            (* lines 169-171, inside the [try] *)
            try_except
              (notify (on_tool_end cb n result true) ;;;
               ret (ToolMessage result call_id))
              handler
        | Raised e => handler e
        end
    end.

(** lines 109-114 *)
Fixpoint execute_tool_calls (self_tools : list (Tool Value World))
    (tcs : list (ToolCall Value)) (approval_granted : bool)
    : R (list (Message Value)) :=
  match tcs with
  | [] => ret []
  | tc :: rest =>
      result_msg <- _execute_tool_call self_tools tc approval_granted ;;
      tool_results <- execute_tool_calls self_tools rest approval_granted ;;
      ret (result_msg :: tool_results)
  end.

(** lines 104-106 *)
Definition report_reasoning (intermediate : string) : R unit :=
  if truthy intermediate
  then notify (on_reasoning cb intermediate) else ret tt.

(** lines 99-126 *)
Definition loop_body (self_tools : list (Tool Value World))
    (response : Response Value) (last_text : string)
    (approval_granted : bool) : R (Response Value * string) :=
  let intermediate := extract_response_text response in
  let last_text := if truthy intermediate then intermediate else last_text in
  report_reasoning intermediate ;;;
  tool_results <- execute_tool_calls self_tools (tool_calls response)
                    approval_granted ;;
  lift (fun st =>
          (tt, set_messages
                 (messages st
                    ++ AIMessage (content response) (tool_calls response)
                    :: tool_results) st)) ;;;
  notify (on_thinking cb) ;;;
  response' <- lift (invoke_llm llm_invoke) ;;
  ret (response', last_text).

(** lines 93-130 *)
Fixpoint tool_loop_from (n : nat) (self_tools : list (Tool Value World))
    (response : Response Value) (last_text : string)
    (approval_granted : bool) : R string :=
  match n with
  | 0 =>
      let text := extract_response_text response in
      ret (or_else text (or_else last_text "Reached maximum analysis steps."))
  | S n' =>
      match tool_calls response with
      | [] =>
          let text := extract_response_text response in
          ret (or_else text (or_else last_text "No response generated."))
      | _ :: _ =>
          next <- loop_body self_tools response last_text approval_granted ;;
          tool_loop_from n' self_tools (fst next) (snd next) approval_granted
      end
  end.

(** lines 85-130 *)
Definition _tool_loop (self_tools : list (Tool Value World))
    (response : Response Value) (approval_granted : bool) : R string :=
  tool_loop_from MAX_ITERATIONS self_tools response EmptyString
    approval_granted.

(** lines 56-80 *)
Definition process_query (self_tools : list (Tool Value World))
    (user_input : string) (chat_history : option (list (Message Value)))
    (cbs : option Obs) : R string :=
  let chat_history := or_empty chat_history in
  lift (fun st => (tt, set_pending_actions [] st)) ;;;
  lift (log (CallIsConfirmation user_input)) ;;;
  let approval_granted := is_confirmation user_input in
  lift (fun st =>
          (tt, set_messages
                 (format_messages system_prompt chat_history user_input)
                 (set_callbacks cbs st))) ;;;
  notify (on_thinking cb) ;;;
  response <- lift (invoke_llm llm_invoke) ;;
  _tool_loop self_tools response approval_granted.

End Cycle.

End Raising.




Module Mishap.

Import Scenario.





End Mishap.

Unset Implicit Arguments.

Module PyStrFacts.

Lemma append_nil_r (s : string) : s +++ EmptyString = s.
Proof. induction s as [|c s IH]; simpl; [reflexivity | now rewrite IH]. Qed.

Lemma append_assoc (a b c : string) : (a +++ b) +++ c = a +++ b +++ c.
Proof. induction a as [|x a IH]; simpl; [reflexivity | now rewrite IH]. Qed.

Lemma in_set_In (x : string) (S : list string) :
  in_set x S = true <-> In x S.
Proof.
  unfold in_set. rewrite existsb_exists. split.
  - intros [y [Hy E]]. apply String.eqb_eq in E. now subst.
  - intros H. exists x. split; [assumption | apply String.eqb_refl].
Qed.

Lemma all_chars_app (p : ascii -> bool) (a b : string) :
  all_chars p (a +++ b) = all_chars p a && all_chars p b.
Proof.
  induction a as [|c a IH]; simpl; [reflexivity|].
  now rewrite IH, andb_assoc.
Qed.

(** *** lstrip *)

Lemma lstrip_split (p : ascii -> bool) (s : string) :
  exists ws, s = ws +++ lstrip p s /\ all_chars p ws = true.
Proof.
  induction s as [|c s [ws [E A]]]; simpl.
  - exists EmptyString. now split.
  - destruct (p c) eqn:Hc.
    + exists (String c ws). simpl. rewrite Hc, A. split; [congruence | reflexivity].
    + exists EmptyString. now split.
Qed.

Lemma lstrip_app_all (p : ascii -> bool) (ws s : string) :
  all_chars p ws = true -> lstrip p (ws +++ s) = lstrip p s.
Proof.
  induction ws as [|c ws IH]; simpl; [reflexivity|].
  intros H. apply andb_prop in H as [Hc H]. rewrite Hc. now apply IH.
Qed.

Lemma lstrip_head (p : ascii -> bool) (c : ascii) (s : string) :
  p c = false -> lstrip p (String c s) = String c s.
Proof. intros H; simpl; now rewrite H. Qed.

(** *** rstrip *)

Lemma last_char_none (s : string) : last_char s = None -> s = EmptyString.
Proof.
  induction s as [|c s IH]; [reflexivity|]. simpl.
  destruct s; [discriminate|]. intros H. specialize (IH H). discriminate.
Qed.

Lemma last_char_app (a b : string) :
  last_char (a +++ b) =
  match last_char b with Some c => Some c | None => last_char a end.
Proof.
  induction a as [|x a IH]; simpl.
  - now destruct (last_char b).
  - destruct (a +++ b) eqn:E.
    + destruct a; simpl in E; [|discriminate]. subst b. reflexivity.
    + rewrite IH. destruct (last_char b) eqn:Eb; [reflexivity|].
      destruct a; [|reflexivity].
      simpl in E. subst b. apply last_char_none in Eb. discriminate.
Qed.

Lemma rstrip_empty_iff (p : ascii -> bool) (s : string) :
  rstrip p s = EmptyString <-> all_chars p s = true.
Proof.
  induction s as [|c s IH]; simpl; [tauto|].
  destruct (rstrip p s) eqn:E.
  - destruct (p c); simpl.
    + split; intros _; [now apply IH | reflexivity].
    + split; discriminate.
  - split; [discriminate|].
    intros H. apply andb_prop in H as [_ H]. apply IH in H. discriminate.
Qed.

Lemma rstrip_split (p : ascii -> bool) (s : string) :
  exists ws, s = rstrip p s +++ ws /\ all_chars p ws = true.
Proof.
  induction s as [|c s [ws [E A]]]; simpl.
  - exists EmptyString. now split.
  - destruct (rstrip p s) eqn:R.
    + simpl in E. subst ws. destruct (p c) eqn:Hc.
      * exists (String c s). simpl. now rewrite Hc, A.
      * exists s. now split.
    + exists ws. split; [simpl; f_equal; exact E | assumption].
Qed.

Lemma rstrip_rstripped (p : ascii -> bool) (s : string) :
  rstripped p (rstrip p s).
Proof.
  unfold rstripped. induction s as [|c s IH]; simpl; [exact I|].
  destruct (rstrip p s) eqn:R.
  - destruct (p c) eqn:Hc; simpl; [exact I | assumption].
  - simpl in *. exact IH.
Qed.

Lemma rstrip_fix (p : ascii -> bool) (s : string) :
  rstripped p s -> rstrip p s = s.
Proof.
  unfold rstripped. induction s as [|c s IH]; simpl; [reflexivity|].
  destruct s as [|d s].
  - simpl. intros H. now rewrite H.
  - intros H. rewrite (IH H). reflexivity.
Qed.

Lemma rstrip_app_all (p : ascii -> bool) (s ws : string) :
  all_chars p ws = true -> rstrip p (s +++ ws) = rstrip p s.
Proof.
  intros A. induction s as [|c s IH]; simpl.
  - now apply rstrip_empty_iff.
  - now rewrite IH.
Qed.

(** *** lower *)

Lemma lower_app (a b : string) : lower (a +++ b) = lower a +++ lower b.
Proof. induction a as [|c a IH]; simpl; [reflexivity | now rewrite IH]. Qed.

Lemma lower_split (s v q : string) :
  lower s = v +++ q ->
  exists w p, s = w +++ p /\ lower w = v /\ lower p = q.
Proof.
  revert s. induction v as [|c v IH]; intros s E.
  - exists EmptyString, s. now repeat split.
  - destruct s as [|d s]; [discriminate|]. simpl in E.
    injection E as Ec E. destruct (IH s E) as [w [p [Es [Ew Ep]]]].
    exists (String d w), p. simpl. now rewrite Ew, Ec, <- Es.
Qed.

Lemma last_char_lower (s : string) :
  last_char (lower s) = option_map lower_char (last_char s).
Proof.
  induction s as [|c s IH]; simpl; [reflexivity|].
  destruct s; simpl in *; [reflexivity | exact IH].
Qed.

(** Character facts, checked on all 256 characters. *)

Lemma punct_lower_inv (c : ascii) :
  is_punct (lower_char c) = true -> is_punct c = true.
Proof.
  destruct c as [[] [] [] [] [] [] [] []]; vm_compute; intros H; exact H.
Qed.

Lemma punct_lower_fix (c : ascii) :
  is_punct c = true -> lower_char c = c.
Proof.
  destruct c as [[] [] [] [] [] [] [] []]; vm_compute; intros H;
    first [reflexivity | discriminate].
Qed.

Lemma space_lower_fix (c : ascii) :
  is_space c = true -> lower_char c = c.
Proof.
  destruct c as [[] [] [] [] [] [] [] []]; vm_compute; intros H;
    first [reflexivity | discriminate].
Qed.

Lemma punct_not_space (c : ascii) :
  is_punct c = true -> is_space c = false.
Proof.
  destruct c as [[] [] [] [] [] [] [] []]; vm_compute; intros H;
    first [reflexivity | discriminate].
Qed.

Lemma all_punct_lower_inv (s : string) :
  all_chars is_punct (lower s) = true -> all_chars is_punct s = true.
Proof.
  induction s as [|c s IH]; simpl; [reflexivity|].
  intros H. apply andb_prop in H as [Hc H].
  now rewrite (punct_lower_inv _ Hc), IH.
Qed.

Lemma all_punct_lower_fix (s : string) :
  all_chars is_punct s = true -> lower s = s.
Proof.
  induction s as [|c s IH]; simpl; [reflexivity|].
  intros H. apply andb_prop in H as [Hc H].
  now rewrite (punct_lower_fix _ Hc), IH.
Qed.

End PyStrFacts.
Import PyStrFacts.

(* ================================================================== *)
(** ** The confirmation detector *)
(* ================================================================== *)

Module ConfirmationFacts.

Lemma all_chars_last (p : ascii -> bool) (s : string) (c : ascii) :
  all_chars p s = true -> last_char s = Some c -> p c = true.
Proof.
  induction s as [|d s IH]; simpl; [discriminate|].
  intros H L. apply andb_prop in H as [Hd H].
  destruct s; [now injection L as <- | now apply IH].
Qed.

Lemma all_chars_lstrip (q p : ascii -> bool) (s : string) :
  all_chars q s = true -> all_chars q (lstrip p s) = true.
Proof.
  induction s as [|c s IH]; simpl; [reflexivity|].
  intros H. destruct (p c); [|exact H].
  apply andb_prop in H as [_ H]. now apply IH.
Qed.

Lemma all_chars_rstrip (q p : ascii -> bool) (s : string) :
  all_chars q s = true -> all_chars q (rstrip p s) = true.
Proof.
  induction s as [|c s IH]; simpl; [reflexivity|].
  intros H. apply andb_prop in H as [Hc H]. specialize (IH H).
  destruct (rstrip p s).
  - destruct (p c); simpl; [reflexivity | now rewrite Hc].
  - change (q c && all_chars q (String a s0) = true). now rewrite Hc.
Qed.

Lemma lstrip_all (p : ascii -> bool) (s : string) :
  all_chars p s = true -> lstrip p s = EmptyString.
Proof.
  induction s as [|c s IH]; simpl; [reflexivity|].
  intros H. apply andb_prop in H as [Hc H]. rewrite Hc. now apply IH.
Qed.

Lemma blank_lower_fix (s : string) :
  all_chars is_blank s = true -> lower s = s.
Proof.
  induction s as [|c s IH]; simpl; [reflexivity|].
  intros H. apply andb_prop in H as [Hc H]. rewrite (IH H).
  unfold is_blank in Hc. apply orb_prop in Hc as [Hc|Hc].
  - now rewrite (space_lower_fix _ Hc).
  - now rewrite (punct_lower_fix _ Hc).
Qed.

(** Every word of the vocabulary starts and ends with a character
    that is neither white space nor stripped punctuation. *)
Lemma vocabulary_shape (v : string) :
  In v CONFIRMATIONS ->
  exists c d,
    first_char v = Some c /\ is_blank c = false /\
    last_char v = Some d /\ is_blank d = false.
Proof.
  unfold CONFIRMATIONS. simpl.
  intros H.
  repeat (destruct H as [H|H];
          [subst v; eexists; eexists; repeat split; reflexivity|]).
  contradiction.
Qed.

Lemma blank_lower_char (c : ascii) :
  is_blank c = true -> is_blank (lower_char c) = true.
Proof.
  intros H. unfold is_blank in H. apply orb_prop in H as [H|H].
  - rewrite (space_lower_fix _ H). unfold is_blank. now rewrite H.
  - rewrite (punct_lower_fix _ H). unfold is_blank. rewrite H.
    apply orb_true_r.
Qed.

Lemma not_blank_lower (c : ascii) :
  is_blank (lower_char c) = false -> is_blank c = false.
Proof.
  intros H. destruct (is_blank c) eqn:E; [|reflexivity].
  apply blank_lower_char in E. congruence.
Qed.

Lemma blank_split (c : ascii) :
  is_blank c = false -> is_space c = false /\ is_punct c = false.
Proof. unfold is_blank. intros H. now apply orb_false_elim in H. Qed.

(** The strings [normalize] maps to a given word [lower w]. *)
Lemma normalize_decomposed (ws1 w p ws2 : string) :
  all_chars is_space ws1 = true ->
  all_chars is_space ws2 = true ->
  all_chars is_punct p = true ->
  In (lower w) CONFIRMATIONS ->
  normalize (ws1 +++ w +++ p +++ ws2) = lower w.
Proof.
  intros A1 A2 A3 Hin.
  destruct (vocabulary_shape _ Hin) as [c [d [Hc [Bc [Hd Bd]]]]].
  (* the first and the last character of [w] *)
  destruct w as [|c0 w']; [discriminate|].
  simpl in Hc. injection Hc as Hc.
  assert (S0 : is_space c0 = false).
  { rewrite <- Hc in Bc. apply not_blank_lower in Bc.
    now apply blank_split in Bc. }
  rewrite last_char_lower in Hd.
  destruct (last_char (String c0 w')) as [d0|] eqn:L; [|discriminate].
  simpl in Hd. injection Hd as Hd.
  assert (Sd : is_space d0 = false).
  { rewrite <- Hd in Bd. apply not_blank_lower in Bd.
    now apply blank_split in Bd. }
  assert (Pd : is_punct d = false) by now apply blank_split in Bd.
  unfold normalize, strip.
  rewrite (lstrip_app_all _ _ _ A1).
  change (String c0 w' +++ p +++ ws2) with (String c0 (w' +++ p +++ ws2)).
  rewrite (lstrip_head _ _ _ S0).
  change (String c0 (w' +++ p +++ ws2)) with (String c0 w' +++ p +++ ws2).
  rewrite <- append_assoc, (rstrip_app_all _ _ _ A2).
  rewrite (rstrip_fix is_space (String c0 w' +++ p)).
  - rewrite lower_app, (all_punct_lower_fix _ A3).
    rewrite (rstrip_app_all _ _ _ A3).
    apply rstrip_fix. unfold rstripped.
    rewrite last_char_lower, L. simpl. now rewrite Hd.
  - unfold rstripped. rewrite last_char_app.
    destruct (last_char p) as [e|] eqn:Lp.
    + apply punct_not_space. exact (all_chars_last _ _ _ A3 Lp).
    + rewrite L. exact Sd.
Qed.

Lemma normalize_decompose (text : string) :
  exists ws1 w p ws2,
    text = ws1 +++ w +++ p +++ ws2 /\
    all_chars is_space ws1 = true /\
    all_chars is_space ws2 = true /\
    all_chars is_punct p = true /\
    lower w = normalize text.
Proof.
  destruct (lstrip_split is_space text) as [ws1 [E1 A1]].
  destruct (rstrip_split is_space (lstrip is_space text)) as [ws2 [E2 A2]].
  fold (strip text) in E2.
  destruct (rstrip_split is_punct (lower (strip text))) as [q [E3 A3]].
  fold (normalize text) in E3.
  destruct (lower_split _ _ _ E3) as [w [p [Es [Ew Ep]]]].
  exists ws1, w, p, ws2. repeat split; try assumption.
  - rewrite E1 at 1. rewrite E2 at 1. rewrite Es.
    now rewrite append_assoc.
  - apply all_punct_lower_inv. now rewrite Ep.
Qed.

Lemma normalize_blank (text : string) :
  all_chars is_blank text = true ->
  all_chars is_blank (normalize text) = true.
Proof.
  intros H. unfold normalize, strip.
  apply all_chars_rstrip.
  rewrite blank_lower_fix; now repeat apply all_chars_rstrip, all_chars_lstrip.
Qed.

Lemma blank_not_confirmation (text : string) :
  all_chars is_blank text = true -> is_confirmation text = false.
Proof.
  intros H. apply normalize_blank in H.
  destruct (is_confirmation text) eqn:E; [|reflexivity].
  apply in_set_In in E.
  destruct (vocabulary_shape _ E) as [c [d [Hc [Bc _]]]].
  destruct (normalize text) as [|c0 r]; [discriminate|].
  simpl in Hc, H. injection Hc as ->.
  rewrite Bc in H. discriminate.
Qed.

Lemma space_all_blank (s : string) :
  all_chars is_space s = true -> all_chars is_blank s = true.
Proof.
  induction s as [|c s IH]; simpl; [reflexivity|].
  intros H. apply andb_prop in H as [Hc H].
  unfold is_blank at 1. now rewrite Hc, IH.
Qed.

Lemma punct_all_blank (s : string) :
  all_chars is_punct s = true -> all_chars is_blank s = true.
Proof.
  induction s as [|c s IH]; simpl; [reflexivity|].
  intros H. apply andb_prop in H as [Hc H].
  unfold is_blank at 1. rewrite Hc, IH by assumption.
  now rewrite orb_true_r.
Qed.

(** With no white space inside the punctuation, nothing is left. *)
Lemma normalize_punct_run (ws1 p ws2 : string) :
  all_chars is_space ws1 = true ->
  all_chars is_punct p = true ->
  all_chars is_space ws2 = true ->
  normalize (ws1 +++ p +++ ws2) = EmptyString.
Proof.
  intros A1 A2 A3. unfold normalize. apply rstrip_empty_iff.
  assert (E : strip (ws1 +++ p +++ ws2) = p).
  { unfold strip. rewrite (lstrip_app_all _ _ _ A1).
    destruct p as [|c p'].
    - simpl. now rewrite (lstrip_all _ _ A3).
    - simpl in A2. apply andb_prop in A2 as [Hc A2].
      change (String c p' +++ ws2) with (String c (p' +++ ws2)).
      rewrite (lstrip_head _ _ _ (punct_not_space _ Hc)).
      change (String c (p' +++ ws2)) with (String c p' +++ ws2).
      rewrite (rstrip_app_all _ _ _ A3).
      apply rstrip_fix. unfold rstripped.
      destruct (last_char (String c p')) as [e|] eqn:L; [|exact I].
      apply punct_not_space.
      apply (all_chars_last is_punct (String c p')); [|exact L].
      simpl. now rewrite Hc, A2. }
  rewrite E, (all_punct_lower_fix _ A2). exact A2.
Qed.

End ConfirmationFacts.
Import ConfirmationFacts.

(** C5. [is_confirmation] trims white space, lower-cases, strips the
    trailing run of '!', '.', ',' and tests membership in the fixed
    vocabulary: "Yes!!!" is a confirmation, "I guess" is not, and the
    inputs accepted are exactly white space, a word of the vocabulary in
    any letter case, a run of the three punctuation characters, white
    space - no partial or fuzzy match is accepted. *)
Theorem C5_is_confirmation_exact_match :
  is_confirmation "Yes!!!" = true /\
  is_confirmation "I guess" = false /\
  (forall text,
      is_confirmation text
      = in_set (rstrip is_punct (lower (strip text)))
          [ "yes"; "y"; "confirm"; "approve"; "go ahead"; "do it"; "ok";
            "proceed"; "sure"; "yeah"; "yep" ]) /\
  (forall text, rstripped is_punct (normalize text)) /\
  (forall text,
      is_confirmation text = true <->
      exists ws1 w p ws2,
        text = ws1 +++ w +++ p +++ ws2 /\
        all_chars is_space ws1 = true /\
        all_chars is_space ws2 = true /\
        all_chars is_punct p = true /\
        In (lower w) CONFIRMATIONS).
Proof.
  split; [reflexivity|]. split; [reflexivity|].
  split; [reflexivity|].
  split; [intros text; apply rstrip_rstripped|].
  intros text. split.
  - intros H. apply in_set_In in H.
    destruct (normalize_decompose text) as [ws1 [w [p [ws2 [E [A1 [A2 [A3 L]]]]]]]].
    exists ws1, w, p, ws2. rewrite L. now repeat split.
  - intros [ws1 [w [p [ws2 [E [A1 [A2 [A3 Hin]]]]]]]].
    unfold is_confirmation. apply in_set_In.
    subst text. now rewrite normalize_decomposed.
Qed.

(* ================================================================== *)
(** ** The agent: one tool call *)
(* ================================================================== *)

Section AgentFacts.

Context {Value World LLM Obs : Type}.
Variable llm_invoke : list (Message Value) -> LLM -> Response Value * LLM.
Variable tool_body : string -> Args Value -> World -> ToolOutcome * World.
Variable cb : Observer Value Obs.
Variable system_prompt : string.

Local Abbreviation St := (State Value World LLM Obs).
Implicit Types (st : St) (tc : ToolCall Value)
  (tools : list (Tool Value World)) (r : Response Value).

Ltac run_monad :=
  cbv beta iota delta [bind ret log notify invoke_tool invoke_llm
                         set_calls set_world set_llm set_pending_actions
                         set_messages set_callbacks
                         world llm pending_actions messages callbacks calls].

Ltac run_monad_in H :=
  cbv beta iota delta [bind ret log notify invoke_tool invoke_llm
                         set_calls set_world set_llm set_pending_actions
                         set_messages set_callbacks
                         world llm pending_actions messages callbacks calls]
    in H.

(** A gated request: lines 144-156. *)
Lemma execute_blocked tools tc st :
  requires_approval (tc_name tc) = true ->
  _execute_tool_call cb tools tc false st
  = (ToolMessage (blocked_notice (tc_name tc)) (tc_id tc),
     mkState (world st) (llm st) (pending_actions st ++ [tc]) (messages st)
       (option_map (on_approval_skipped cb (tc_name tc) (tc_args tc))
          (callbacks st))
       (calls st ++ [CallRequiresApproval (tc_name tc)])).
Proof.
  intros H. unfold _execute_tool_call. rewrite H. destruct st. reflexivity.
Qed.

(** A request for a name that is not registered: lines 158-165. *)
Lemma execute_not_found tools tc a st :
  gated a tc = false ->
  _find_tool tools (tc_name tc) = None ->
  _execute_tool_call cb tools tc a st
  = (ToolMessage (not_found_notice (tc_name tc)) (tc_id tc),
     mkState (world st) (llm st) (pending_actions st) (messages st)
       (option_map (on_tool_start cb (tc_name tc) (tc_args tc))
          (callbacks st))
       (calls st ++ [CallRequiresApproval (tc_name tc);
                     CallFindTool (tc_name tc)])).
Proof.
  intros G F. unfold _execute_tool_call. unfold gated in G.
  rewrite G, F. destruct st. run_monad. now rewrite <- app_assoc.
Qed.

(** A request that is carried out: lines 158-175. *)
Lemma execute_found tools tc a st t out w' :
  gated a tc = false ->
  _find_tool tools (tc_name tc) = Some t ->
  invoke t (tc_args tc) (world st) = (out, w') ->
  _execute_tool_call cb tools tc a st
  = (ToolMessage (outcome_text out) (tc_id tc),
     mkState w' (llm st) (pending_actions st) (messages st)
       (option_map
          (fun o =>
             on_tool_end cb (tc_name tc) (outcome_report out)
               (outcome_success out)
               (on_tool_start cb (tc_name tc) (tc_args tc) o))
          (callbacks st))
       (calls st ++ [CallRequiresApproval (tc_name tc);
                     CallFindTool (tc_name tc);
                     CallInvoke (name t) (tc_args tc)])).
Proof.
  intros G F I. unfold _execute_tool_call. unfold gated in G.
  rewrite G, F. destruct st as [w l p m c k]. run_monad. simpl in I.
  rewrite I. destruct out; run_monad; rewrite <- !app_assoc;
    destruct c; reflexivity.
Qed.

Lemma find_tool_name tools n t :
  _find_tool tools n = Some t -> name t = n.
Proof.
  unfold _find_tool. intros H. apply find_some in H as [_ H].
  now apply String.eqb_eq.
Qed.

(** Every request is answered, and what the call leaves behind. *)
Lemma execute_tool_call_spec tools tc a st m st' :
  _execute_tool_call cb tools tc a st = (m, st') ->
  answers tools a tc m /\
  messages st' = messages st /\
  llm st' = llm st /\
  pending_actions st'
  = pending_actions st ++ (if gated a tc then [tc] else []) /\
  (gated a tc = true -> world st' = world st) /\
  (callbacks st = None -> callbacks st' = None) /\
  exists new, calls st' = calls st ++ new /\ Forall (tool_event a tc) new.
Proof.
  intros E. destruct (gated a tc) eqn:G.
  - unfold gated in G. apply andb_prop in G as [R A].
    apply negb_true_iff in A. subst a.
    rewrite (execute_blocked tools tc st R) in E. injection E as <- <-.
    simpl. repeat split.
    + now constructor.
    + intros ->. reflexivity.
    + eexists. split; [reflexivity|]. repeat constructor.
  - destruct (_find_tool tools (tc_name tc)) as [t|] eqn:F.
    + destruct (invoke t (tc_args tc) (world st)) as [out w'] eqn:I.
      rewrite (execute_found tools tc a st t out w' G F I) in E.
      injection E as <- <-. simpl. repeat split.
      * destruct out; simpl; econstructor; eassumption.
      * rewrite app_nil_r. reflexivity.
      * discriminate.
      * intros ->. reflexivity.
      * eexists. split; [reflexivity|].
        rewrite (find_tool_name _ _ _ F).
        repeat constructor; simpl; auto.
    + rewrite (execute_not_found tools tc a st G F) in E.
      injection E as <- <-. simpl. repeat split.
      * now constructor.
      * rewrite app_nil_r. reflexivity.
      * intros ->. reflexivity.
      * eexists. split; [reflexivity|]. repeat constructor; simpl; auto.
Qed.

(* ================================================================ *)
(** ** The tool calls of one turn *)
(* ================================================================ *)

Lemma execute_tool_calls_cons tools tc rest a st :
  execute_tool_calls cb tools (tc :: rest) a st
  = (let (m, st1) := _execute_tool_call cb tools tc a st in
     let (ms, st2) := execute_tool_calls cb tools rest a st1 in
     (m :: ms, st2)).
Proof.
  simpl. unfold bind, ret.
  destruct (_execute_tool_call cb tools tc a st) as [m st1].
  now destruct (execute_tool_calls cb tools rest a st1).
Qed.

Lemma execute_tool_calls_spec tools tcs a :
  forall st results st',
    execute_tool_calls cb tools tcs a st = (results, st') ->
    Forall2 (answers tools a) tcs results /\
    messages st' = messages st /\
    llm st' = llm st /\
    pending_actions st' = pending_actions st ++ filter (gated a) tcs /\
    (callbacks st = None -> callbacks st' = None) /\
    exists new,
      calls st' = calls st ++ new /\
      Forall (fun c => exists tc, In tc tcs /\ tool_event a tc c) new.
Proof.
  induction tcs as [|tc rest IH]; intros st results st' E.
  - injection E as <- <-. repeat split; auto.
    + now rewrite app_nil_r.
    + exists []. split; [now rewrite app_nil_r | constructor].
  - rewrite execute_tool_calls_cons in E.
    destruct (_execute_tool_call cb tools tc a st) as [m st1] eqn:E1.
    destruct (execute_tool_calls cb tools rest a st1) as [ms st2] eqn:E2.
    injection E as <- <-.
    apply execute_tool_call_spec in E1
      as [A1 [M1 [L1 [P1 [_ [C1 [new1 [K1 F1]]]]]]]].
    apply IH in E2 as [A2 [M2 [L2 [P2 [C2 [new2 [K2 F2]]]]]]].
    repeat split.
    + now constructor.
    + congruence.
    + congruence.
    + rewrite P2, P1, <- app_assoc. simpl.
      now destruct (gated a tc).
    + auto.
    + exists (new1 ++ new2). split.
      * now rewrite K2, K1, app_assoc.
      * apply Forall_app. split.
        -- eapply Forall_impl; [|exact F1]. intros c Hc.
           exists tc. split; [now left | exact Hc].
        -- eapply Forall_impl; [|exact F2]. intros c [tc' [I Hc]].
           exists tc'. split; [now right | exact Hc].
Qed.

(* ================================================================ *)
(** ** One pass of the loop *)
(* ================================================================ *)

Lemma loop_body_spec tools r last a st r' last' st' :
  loop_body llm_invoke cb tools r last a st = ((r', last'), st') ->
  last' = (if truthy (extract_response_text r)
           then extract_response_text r else last) /\
  (callbacks st = None -> callbacks st' = None) /\
  exists results new,
    Forall2 (answers tools a) (tool_calls r) results /\
    messages st'
    = messages st ++ AIMessage (content r) (tool_calls r) :: results /\
    pending_actions st'
    = pending_actions st ++ filter (gated a) (tool_calls r) /\
    calls st' = calls st ++ new ++ [CallLLM (messages st') r'] /\
    Forall (fun c => exists tc, In tc (tool_calls r) /\ tool_event a tc c)
      new /\
    llm_invoke (messages st') (llm st) = (r', llm st') /\
    results
    = fst (execute_tool_calls cb tools (tool_calls r) a
             (snd (report_reasoning cb (extract_response_text r) st))).
Proof.
  unfold loop_body. intros E.
  set (text := extract_response_text r) in *.
  set (st0 :=
         set_callbacks
           (if truthy text
            then option_map (on_reasoning cb text) (callbacks st)
            else callbacks st) st).
  assert (E0 : report_reasoning cb text st = (tt, st0)).
  { subst st0. unfold report_reasoning.
    destruct (truthy text); [reflexivity|].
    destruct st; reflexivity. }
  unfold bind at 1 in E. rewrite E0 in *.
  unfold bind at 1 in E.
  destruct (execute_tool_calls cb tools (tool_calls r) a st0)
    as [results st1] eqn:E1.
  pose proof E1 as E1'.
  apply execute_tool_calls_spec in E1
    as [A [M [L [P [C [new [K F]]]]]]].
  revert E. run_monad.
  destruct (llm_invoke
              (messages st1
                 ++ AIMessage (content r) (tool_calls r) :: results)
              (llm st1)) as [r1 l1] eqn:EL.
  destruct st1 as [w1 l1' p1 m1 c1 k1]. simpl in *.
  rewrite EL. intros E. injection E as <- <- <-.
  split; [reflexivity|]. split.
  { intros H. change (callbacks st = None) in H.
    rewrite C; [reflexivity|]. rewrite H. now destruct (truthy text). }
  exists results, new. simpl. rewrite E1'. subst st0; simpl in *. subst.
  repeat split; auto.
  now rewrite <- app_assoc.
Qed.

Lemma report_reasoning_frame text st :
  world (snd (report_reasoning cb text st)) = world st /\
  llm (snd (report_reasoning cb text st)) = llm st /\
  pending_actions (snd (report_reasoning cb text st)) = pending_actions st /\
  messages (snd (report_reasoning cb text st)) = messages st /\
  calls (snd (report_reasoning cb text st)) = calls st.
Proof.
  unfold report_reasoning. destruct (truthy text); now destruct st.
Qed.

(* ================================================================ *)
(** ** The whole loop *)
(* ================================================================ *)

Lemma llm_calls_app (l1 l2 : list (Call Value)) :
  llm_calls (l1 ++ l2) = llm_calls l1 + llm_calls l2.
Proof. unfold llm_calls. now rewrite filter_app, length_app. Qed.

Lemma last_reply_app r (l1 l2 : list (Call Value)) :
  last_reply r (l1 ++ l2) = last_reply (last_reply r l1) l2.
Proof. unfold last_reply. apply fold_left_app. Qed.

Lemma tool_events_quiet a (P : ToolCall Value -> Prop)
    (new : list (Call Value)) :
  Forall (fun c => exists tc, P tc /\ tool_event a tc c) new ->
  llm_calls new = 0 /\ forall r, last_reply r new = r.
Proof.
  induction 1 as [|c new [tc [_ Hc]] _ [IH1 IH2]]; [now split|].
  destruct c; simpl in Hc; try contradiction;
    (split; [exact IH1 | intros r; apply IH2]).
Qed.

Lemma answers_result tools a tc m :
  answers tools a tc m -> exists text, m = ToolMessage text (tc_id tc).
Proof. destruct 1; eexists; reflexivity. Qed.

Lemma results_not_turns tools a tcs results :
  Forall2 (answers tools a) tcs results ->
  requested results = [] /\ turn_texts results = [] /\
  map result_id results = map (fun tc => Some (tc_id tc)) tcs.
Proof.
  induction 1 as [|tc m tcs results H _ [IH1 [IH2 IH3]]]; [now repeat split|].
  apply answers_result in H as [text ->].
  unfold requested, turn_texts in *. simpl. rewrite IH1, IH2, IH3.
  now repeat split.
Qed.

Lemma requested_app (l1 l2 : list (Message Value)) :
  requested (l1 ++ l2) = requested l1 ++ requested l2.
Proof. apply flat_map_app. Qed.

Lemma turn_texts_app (l1 l2 : list (Message Value)) :
  turn_texts (l1 ++ l2) = turn_texts l1 ++ turn_texts l2.
Proof. apply flat_map_app. Qed.

(** The loop with [n] passes left, as a whole: how the conversation,
    the pending actions and the record of calls grow, how many times
    the model is invoked, and which string comes back. *)
Lemma tool_loop_from_spec tools a n :
  forall r last st answer st',
    tool_loop_from llm_invoke cb n tools r last a st = (answer, st') ->
    exists ext new,
      messages st' = messages st ++ ext /\
      answered_turns tools a ext /\
      pending_actions st'
      = pending_actions st ++ filter (gated a) (requested ext) /\
      calls st' = calls st ++ new /\
      Forall (fun c => is_llm_call c = true
                       \/ exists tc, True /\ tool_event a tc c) new /\
      llm_calls new <= n /\
      (llm_calls new < n -> tool_calls (last_reply r new) = []) /\
      answer
      = or_else (extract_response_text (last_reply r new))
          (or_else (last_nonempty last (turn_texts ext))
             (if llm_calls new =? n
              then "Reached maximum analysis steps."
              else "No response generated.")) /\
      (callbacks st = None -> callbacks st' = None).
Proof.
  induction n as [|n IH]; intros r last st answer st' E.
  - injection E as <- <-. exists [], [].
    rewrite !app_nil_r.
    repeat split; auto; try (now constructor);
      intros H; unfold llm_calls in H; simpl in H; lia.
  - simpl in E. destruct (tool_calls r) as [|tc0 tcs0] eqn:T.
    + injection E as <- <-. exists [], [].
      rewrite !app_nil_r.
      repeat split; auto; try (now constructor);
        unfold llm_calls; simpl; lia.
    + unfold bind in E.
      destruct (loop_body llm_invoke cb tools r last a st)
        as [[r1 last1] st1] eqn:EB.
      simpl fst in E. simpl snd in E.
      apply loop_body_spec in EB
        as [EL [C1 [results [new1 [A [M1 [P1 [K1 [F1 _]]]]]]]]].
      apply IH in E
        as [ext2 [new2 [M2 [T2 [P2 [K2 [F2 [N2 [Z2 [R2 C2]]]]]]]]]].
      destruct (results_not_turns _ _ _ _ A) as [Q1 [Q2 _]].
      assert (W : Forall (fun c => exists tc,
                           True /\ tool_event a tc c) new1).
      { eapply Forall_impl; [|exact F1].
        intros c [tc [_ Hc]]. now exists tc. }
      destruct (tool_events_quiet _ _ _ W) as [Z1 L1].
      exists (AIMessage (content r) (tool_calls r) :: results ++ ext2),
        (new1 ++ [CallLLM (messages st1) r1] ++ new2).
      assert (NL : llm_calls (new1 ++ [CallLLM (messages st1) r1] ++ new2)
                   = S (llm_calls new2)).
      { rewrite !llm_calls_app, Z1. reflexivity. }
      assert (LR : last_reply r (new1 ++ [CallLLM (messages st1) r1] ++ new2)
                   = last_reply r1 new2).
      { rewrite !last_reply_app, L1. reflexivity. }
      rewrite NL, LR. repeat split.
      * rewrite M2, M1, <- app_assoc. reflexivity.
      * now constructor.
      * rewrite P2, P1, <- app_assoc. f_equal.
        change (AIMessage (content r) (tool_calls r) :: results ++ ext2)
          with ([AIMessage (content r) (tool_calls r)] ++ results ++ ext2).
        rewrite !requested_app, Q1, filter_app.
        unfold requested at 1. simpl. now rewrite app_nil_r.
      * rewrite K2, K1, <- !app_assoc. reflexivity.
      * apply Forall_app. split.
        -- eapply Forall_impl; [|exact W]. intros c Hc. now right.
        -- constructor; [now left | exact F2].
      * lia.
      * intros H. apply Z2. lia.
      * rewrite R2. subst last1.
        change (AIMessage (content r) (tool_calls r) :: results ++ ext2)
          with ([AIMessage (content r) (tool_calls r)] ++ results ++ ext2).
        rewrite !turn_texts_app, Q2. reflexivity.
      * auto.
Qed.

(* ================================================================ *)
(** ** One cycle *)
(* ================================================================ *)

Lemma or_else_nonempty (x y : string) :
  y <> EmptyString -> or_else x y <> EmptyString.
Proof. unfold or_else. destruct x; simpl; [auto | discriminate]. Qed.

Lemma fallback_nonempty (x y : string) (b : bool) :
  or_else x
    (or_else y
       (if b then "Reached maximum analysis steps."
        else "No response generated.")) <> EmptyString.
Proof. do 2 apply or_else_nonempty. destruct b; discriminate. Qed.

(** [process_query] as a whole. *)
Lemma process_query_spec tools user_input h cbs st answer st' :
  process_query llm_invoke cb system_prompt tools user_input h cbs st
  = (answer, st') ->
  let a := is_confirmation user_input in
  let conv := format_messages system_prompt (or_empty h) user_input in
  let r0 := fst (llm_invoke conv (llm st)) in
  exists ext new,
    messages st' = conv ++ ext /\
    answered_turns tools a ext /\
    pending_actions st' = filter (gated a) (requested ext) /\
    calls st'
    = calls st ++ CallIsConfirmation user_input :: CallLLM conv r0 :: new /\
    Forall (fun c => is_llm_call c = true
                     \/ exists tc, True /\ tool_event a tc c) new /\
    llm_calls new <= MAX_ITERATIONS /\
    (llm_calls new < MAX_ITERATIONS -> tool_calls (last_reply r0 new) = []) /\
    answer
    = or_else (extract_response_text (last_reply r0 new))
        (or_else (last_nonempty EmptyString (turn_texts ext))
           (if llm_calls new =? MAX_ITERATIONS
            then "Reached maximum analysis steps."
            else "No response generated.")) /\
    (cbs = None -> callbacks st' = None).
Proof.
  intros E a conv r0.
  unfold process_query, _tool_loop in E. fold a in E. fold conv in E.
  destruct st as [w l p m c k]. run_monad_in E.
  subst r0. simpl llm.
  destruct (llm_invoke conv l) as [r0 l0] eqn:EL. simpl fst.
  apply tool_loop_from_spec in E
    as [ext [new [M2 [T2 [P2 [K2 [F2 [N2 [Z2 [R2 C2]]]]]]]]]].
  simpl in *. exists ext, new. repeat split; auto.
  - rewrite K2, <- !app_assoc. reflexivity.
  - intros ->. now apply C2.
Qed.

(* ================================================================ *)
(** ** The passes of a cycle *)
(* ================================================================ *)

Lemma execute_tool_call_served tools tc a st m st' :
  _execute_tool_call cb tools tc a st = (m, st') ->
  exists evs,
    served tools a tc (world st) m evs (world st') /\
    calls st' = calls st ++ evs /\
    messages st' = messages st /\
    llm st' = llm st /\
    pending_actions st'
    = pending_actions st ++ (if gated a tc then [tc] else []).
Proof.
  intros E. destruct (gated a tc) eqn:G.
  - unfold gated in G. apply andb_prop in G as [R A].
    apply negb_true_iff in A. subst a.
    rewrite (execute_blocked tools tc st R) in E. injection E as <- <-.
    eexists. simpl. split; [now constructor | now repeat split].
  - destruct (_find_tool tools (tc_name tc)) as [t|] eqn:F.
    + destruct (invoke t (tc_args tc) (world st)) as [out w'] eqn:I.
      rewrite (execute_found tools tc a st t out w' G F I) in E.
      injection E as <- <-. eexists. simpl.
      split; [econstructor; eassumption|].
      repeat split. now rewrite app_nil_r.
    + rewrite (execute_not_found tools tc a st G F) in E.
      injection E as <- <-. eexists. simpl.
      split; [now constructor|].
      repeat split. now rewrite app_nil_r.
Qed.

Lemma execute_tool_calls_served tools tcs a :
  forall st results st',
    execute_tool_calls cb tools tcs a st = (results, st') ->
    exists events,
      served_all tools a tcs (world st) results events (world st') /\
      calls st' = calls st ++ events /\
      messages st' = messages st /\
      llm st' = llm st /\
      pending_actions st' = pending_actions st ++ filter (gated a) tcs.
Proof.
  induction tcs as [|tc rest IH]; intros st results st' E.
  - injection E as <- <-. exists []. rewrite !app_nil_r.
    split; [constructor | now repeat split].
  - rewrite execute_tool_calls_cons in E.
    destruct (_execute_tool_call cb tools tc a st) as [m st1] eqn:E1.
    destruct (execute_tool_calls cb tools rest a st1) as [ms st2] eqn:E2.
    injection E as <- <-.
    apply execute_tool_call_served in E1 as [evs [S1 [K1 [M1 [L1 P1]]]]].
    apply IH in E2 as [evss [S2 [K2 [M2 [L2 P2]]]]].
    exists (evs ++ evss). split; [econstructor; eassumption|].
    repeat split; try congruence.
    + now rewrite K2, K1, app_assoc.
    + rewrite P2, P1, <- app_assoc. simpl. now destruct (gated a tc).
Qed.

Lemma loop_body_served tools r last a st r' last' st' :
  loop_body llm_invoke cb tools r last a st = ((r', last'), st') ->
  exists results events,
    served_all tools a (tool_calls r) (world st) results events (world st')
    /\ messages st'
       = messages st ++ AIMessage (content r) (tool_calls r) :: results
    /\ calls st' = calls st ++ events ++ [CallLLM (messages st') r']
    /\ llm_invoke (messages st') (llm st) = (r', llm st')
    /\ pending_actions st'
       = pending_actions st ++ filter (gated a) (tool_calls r).
Proof.
  unfold loop_body. intros E.
  set (text := extract_response_text r) in *.
  destruct (report_reasoning_frame text st) as [W0 [L0 [P0 [M0 K0]]]].
  unfold bind at 1 in E.
  destruct (report_reasoning cb text st) as [u st0].
  simpl in W0, L0, P0, M0, K0.
  unfold bind at 1 in E.
  destruct (execute_tool_calls cb tools (tool_calls r) a st0)
    as [results st1] eqn:E1.
  apply execute_tool_calls_served in E1 as [events [S1 [K1 [M1 [L1 P1]]]]].
  revert E. run_monad.
  destruct (llm_invoke
              (messages st1
                 ++ AIMessage (content r) (tool_calls r) :: results)
              (llm st1)) as [r1 l1] eqn:EL.
  destruct st1 as [w1 l1' p1 m1 c1 k1]. simpl in *.
  rewrite EL. intros E. injection E as <- <- <-.
  exists results, events. simpl. subst.
  rewrite W0, M0, K0, L0, P0 in *.
  repeat split; auto. now rewrite <- app_assoc.
Qed.

Lemma tool_loop_from_passes tools a n :
  forall r last st answer st',
    tool_loop_from llm_invoke cb n tools r last a st = (answer, st') ->
    exists ext new,
      messages st' = messages st ++ ext /\
      calls st' = calls st ++ new /\
      pending_actions st'
      = pending_actions st ++ filter (gated a) (requested ext) /\
      passes llm_invoke tools a n r (messages st) (world st) (llm st)
        ext new (world st') (llm st').
Proof.
  induction n as [|n IH]; intros r last st answer st' E.
  - injection E as <- <-. exists [], []. rewrite !app_nil_r.
    repeat split. constructor. now left.
  - simpl in E. destruct (tool_calls r) as [|tc0 tcs0] eqn:T.
    + injection E as <- <-. exists [], []. rewrite !app_nil_r.
      repeat split. constructor. now right.
    + unfold bind in E.
      destruct (loop_body llm_invoke cb tools r last a st)
        as [[r1 last1] st1] eqn:EB.
      simpl fst in E. simpl snd in E.
      apply loop_body_served in EB
        as [results [events [S1 [M1 [K1 [I1 P1]]]]]].
      apply IH in E as [ext2 [new2 [M2 [K2 [P2 T2]]]]].
      rewrite T in *.
      exists (AIMessage (content r) (tc0 :: tcs0) :: results ++ ext2),
        (events ++ CallLLM (messages st1) r1 :: new2).
      split; [rewrite M2, M1, <- app_assoc; reflexivity|].
      split; [rewrite K2, K1, <- !app_assoc; reflexivity|].
      split.
      * rewrite P2, P1, <- app_assoc. f_equal.
        change (AIMessage (content r) (tc0 :: tcs0) :: results ++ ext2)
          with ([AIMessage (content r) (tc0 :: tcs0)] ++ results ++ ext2).
        rewrite !requested_app, filter_app.
        assert (Q : requested results = []).
        { clear - S1. induction S1 as [|? ? ? ? ? ? ? ? ? H _ IH];
            [reflexivity|].
          unfold requested in *. simpl. rewrite IH.
          now destruct H. }
        rewrite Q. unfold requested at 1. simpl. now rewrite app_nil_r.
      * rewrite M1 in *. rewrite <- T in *.
        eapply passes_step; eauto. rewrite T. discriminate.
Qed.

Lemma process_query_passes tools user_input h cbs st answer st' :
  process_query llm_invoke cb system_prompt tools user_input h cbs st
  = (answer, st') ->
  let a := is_confirmation user_input in
  let conv := format_messages system_prompt (or_empty h) user_input in
  exists ext new,
    messages st' = conv ++ ext /\
    calls st'
    = calls st ++ CallIsConfirmation user_input
        :: CallLLM conv (fst (llm_invoke conv (llm st))) :: new /\
    pending_actions st' = filter (gated a) (requested ext) /\
    passes llm_invoke tools a MAX_ITERATIONS
      (fst (llm_invoke conv (llm st))) conv
      (world st) (snd (llm_invoke conv (llm st)))
      ext new (world st') (llm st').
Proof.
  intros E a conv.
  unfold process_query, _tool_loop in E. fold a in E. fold conv in E.
  destruct st as [w l p m c k]. run_monad_in E.
  simpl llm. simpl world. simpl calls.
  destruct (llm_invoke conv l) as [r0 l0] eqn:EL. simpl fst. simpl snd.
  apply tool_loop_from_passes in E as [ext [new [M2 [K2 [P2 T2]]]]].
  simpl in *. exists ext, new. repeat split; auto.
  rewrite K2, <- !app_assoc. reflexivity.
Qed.

(** What the relations say, request by request and pass by pass. *)

Lemma served_answers tools a tc w m evs w' :
  served tools a tc w m evs w' ->
  answers tools a tc m /\ Forall (tool_event a tc) evs.
Proof.
  destruct 1 as [w R A | w G F | w w' t out G F I].
  - split; [now constructor | repeat constructor].
  - split; [now constructor | repeat constructor; simpl; auto].
  - split.
    + destruct out; simpl; econstructor; eassumption.
    + rewrite (find_tool_name _ _ _ F). repeat constructor; simpl; auto.
Qed.

Lemma served_all_answers tools a tcs w results events w' :
  served_all tools a tcs w results events w' ->
  Forall2 (answers tools a) tcs results /\
  Forall (fun c => exists tc, In tc tcs /\ tool_event a tc c) events.
Proof.
  induction 1 as [|tc tcs w w1 w2 m ms evs evss S1 _ [IH1 IH2]].
  - split; constructor.
  - apply served_answers in S1 as [A1 F1]. split; [now constructor|].
    apply Forall_app. split.
    + eapply Forall_impl; [|exact F1]. intros c Hc.
      exists tc. split; [now left | exact Hc].
    + eapply Forall_impl; [|exact IH2]. intros c [tc' [I Hc]].
      exists tc'. split; [now right | exact Hc].
Qed.

Lemma passes_answered tools a n r conv w l ext new w' l' :
  passes llm_invoke tools a n r conv w l ext new w' l' ->
  answered_turns tools a ext.
Proof.
  induction 1 as [|? ? ? ? ? ? ? ? ? ? ? ? ? ? _ S1 _ _ IH]; [constructor|].
  constructor; [|exact IH]. now apply served_all_answers in S1.
Qed.

(** A reply with requests received while a pass is left is given a
    pass. *)
Lemma passes_unfold tools a n r conv w l ext new w' l' :
  passes llm_invoke tools a (S n) r conv w l ext new w' l' ->
  tool_calls r <> [] ->
  exists results events ext' new' r' w1 l1,
    let conv' := conv ++ AIMessage (content r) (tool_calls r) :: results in
    ext = AIMessage (content r) (tool_calls r) :: results ++ ext' /\
    new = events ++ CallLLM conv' r' :: new' /\
    served_all tools a (tool_calls r) w results events w1 /\
    llm_invoke conv' l = (r', l1) /\
    passes llm_invoke tools a n r' conv' w1 l1 ext' new' w' l'.
Proof.
  intros P N. inversion P; subst.
  - destruct H as [H|H]; [discriminate | contradiction].
  - do 7 eexists. cbv zeta. repeat split; eauto.
Qed.



(* ================================================================ *)
(** ** Results of the requests of a turn *)
(* ================================================================ *)

(** C3. In every pass of the loop, each tool call request of the
    model's turn gets exactly one tool result turn (a blocked notice,
    a not-found notice, or what the execution gave), carrying the
    request's call id unchanged; the results follow the model's own
    turn in request order, and all of this is in the conversation the
    next model invocation receives.  A cycle is made of such passes:
    after the first model invocation the loop runs the passes that
    [passes] describes, with MAX_ITERATIONS passes at most, so the
    conversation grows by answered turns only, and a first reply that
    has requests is answered.  Third part: whenever a pass is left and
    the reply at hand has requests, that reply is answered, request by
    request, without any model invocation in between, the next model
    invocation receives the conversation with the turn and its
    results, and the loop goes on from there. *)
Theorem C3_every_request_answered_in_order tools :
  (forall r last a st,
      let out := loop_body llm_invoke cb tools r last a st in
      exists results new,
        Forall2 (answers tools a) (tool_calls r) results /\
        map result_id results
        = map (fun tc => Some (tc_id tc)) (tool_calls r) /\
        messages (snd out)
        = messages st ++ AIMessage (content r) (tool_calls r) :: results /\
        calls (snd out)
        = calls st ++ new
            ++ [CallLLM (messages (snd out)) (fst (fst out))] /\
        llm_calls new = 0) /\
  (forall user_input h cbs st,
      let out :=
        process_query llm_invoke cb system_prompt tools user_input h cbs st
      in
      let a := is_confirmation user_input in
      let conv := format_messages system_prompt (or_empty h) user_input in
      let first := llm_invoke conv (llm st) in
      exists ext new,
        messages (snd out) = conv ++ ext /\
        calls (snd out)
        = calls st ++ CallIsConfirmation user_input
            :: CallLLM conv (fst first) :: new /\
        answered_turns tools a ext /\
        passes llm_invoke tools a MAX_ITERATIONS (fst first) conv
          (world st) (snd first) ext new
          (world (snd out)) (llm (snd out)) /\
        (tool_calls (fst first) <> [] ->
         exists results rest,
           ext
           = AIMessage (content (fst first)) (tool_calls (fst first))
               :: results ++ rest /\
           Forall2 (answers tools a) (tool_calls (fst first)) results /\
           map result_id results
           = map (fun tc => Some (tc_id tc)) (tool_calls (fst first)))) /\
  (forall a n r conv w l ext new w' l',
      passes llm_invoke tools a (S n) r conv w l ext new w' l' ->
      tool_calls r <> [] ->
      exists results events ext' new' r' w1 l1,
        let conv' :=
          conv ++ AIMessage (content r) (tool_calls r) :: results in
        ext = AIMessage (content r) (tool_calls r) :: results ++ ext' /\
        Forall2 (answers tools a) (tool_calls r) results /\
        map result_id results
        = map (fun tc => Some (tc_id tc)) (tool_calls r) /\
        new = events ++ CallLLM conv' r' :: new' /\
        llm_calls events = 0 /\
        llm_invoke conv' l = (r', l1) /\
        passes llm_invoke tools a n r' conv' w1 l1 ext' new' w' l').
Proof.
  assert (U : forall a n r conv w l ext new w' l',
             passes llm_invoke tools a (S n) r conv w l ext new w' l' ->
             tool_calls r <> [] ->
             exists results events ext' new' r' w1 l1,
               let conv' :=
                 conv ++ AIMessage (content r) (tool_calls r) :: results in
               ext = AIMessage (content r) (tool_calls r)
                       :: results ++ ext' /\
               Forall2 (answers tools a) (tool_calls r) results /\
               map result_id results
               = map (fun tc => Some (tc_id tc)) (tool_calls r) /\
               new = events ++ CallLLM conv' r' :: new' /\
               llm_calls events = 0 /\
               llm_invoke conv' l = (r', l1) /\
               passes llm_invoke tools a n r' conv' w1 l1 ext' new' w' l').
  { intros a n r conv w l ext new w' l' P N.
    destruct (passes_unfold _ _ _ _ _ _ _ _ _ _ _ P N)
      as [results [events [ext' [new' [r' [w1 [l1 [E [K [S1 [I P']]]]]]]]]]].
    destruct (served_all_answers _ _ _ _ _ _ _ S1) as [A F].
    exists results, events, ext', new', r', w1, l1. cbv zeta.
    repeat split; auto.
    - now destruct (results_not_turns _ _ _ _ A) as [_ [_ Q]].
    - now destruct (tool_events_quiet _ _ _ F). }
  split; [|split; [|exact U]].
  - intros r last a st out. subst out.
    destruct (loop_body llm_invoke cb tools r last a st)
      as [[r' last'] st'] eqn:E.
    apply loop_body_spec in E
      as [_ [_ [results [new [A [M1 [_ [K1 [F1 _]]]]]]]]].
    exists results, new. simpl. repeat split; auto.
    + now destruct (results_not_turns _ _ _ _ A) as [_ [_ Q]].
    + now destruct (tool_events_quiet _ _ _ F1).
  - intros user_input h cbs st out a conv first. subst out.
    destruct (process_query llm_invoke cb system_prompt tools user_input
                h cbs st) as [answer st'] eqn:E.
    apply process_query_passes in E as [ext [new [M [K [_ P]]]]].
    fold a conv first in M, K, P.
    exists ext, new. simpl. repeat split; auto.
    + now apply passes_answered in P.
    + intros N. change MAX_ITERATIONS with (S 9) in P.
      destruct (U _ _ _ _ _ _ _ _ _ _ P N)
        as [results [events [ext' [new' [r' [w1 [l1 [E [A [Q _]]]]]]]]]].
      now exists results, ext'.
Qed.

(* ================================================================ *)
(** ** Termination and the returned string *)
(* ================================================================ *)

(** C4, as the code has it.  For every model and every first
    response the tool loop returns after at most MAX_ITERATIONS = 10
    model invocations of its own, with a non-empty string: the text of
    the last response, else the last non-empty intermediate text of
    the cycle, else a fixed string, which is "Reached maximum analysis
    steps." when all ten passes were used and "No response generated."
    when the loop stopped earlier, at a turn without tool calls. *)
Theorem C4_tool_loop_bounded_nonempty tools r a st :
  let out := _tool_loop llm_invoke cb tools r a st in
  exists ext new,
    messages (snd out) = messages st ++ ext /\
    calls (snd out) = calls st ++ new /\
    llm_calls new <= MAX_ITERATIONS /\
    MAX_ITERATIONS = 10 /\
    fst out <> EmptyString /\
    fst out
    = or_else (extract_response_text (last_reply r new))
        (or_else (last_nonempty EmptyString (turn_texts ext))
           (if llm_calls new =? MAX_ITERATIONS
            then "Reached maximum analysis steps."
            else "No response generated.")) /\
    (llm_calls new < MAX_ITERATIONS ->
     tool_calls (last_reply r new) = []).
Proof.
  intros out. subst out. unfold _tool_loop.
  destruct (tool_loop_from llm_invoke cb MAX_ITERATIONS tools r
              EmptyString a st) as [answer st'] eqn:E.
  apply tool_loop_from_spec in E
    as [ext [new [M2 [_ [_ [K2 [_ [N2 [Z2 [R2 _]]]]]]]]]].
  exists ext, new. simpl. repeat split; auto.
  rewrite R2. apply fallback_nonempty.
Qed.

(* ================================================================ *)
(** ** Approval gating *)
(* ================================================================ *)

Lemma Forall2_In_left {A B : Type} (R : A -> B -> Prop) l l' x :
  Forall2 R l l' -> In x l -> exists y, In y l' /\ R x y.
Proof.
  induction 1 as [|a b l l' H _ IH]; [contradiction|].
  intros [->|I].
  - exists b. split; [now left | exact H].
  - destruct (IH I) as [y [Hy Ry]]. exists y. split; [now right | exact Ry].
Qed.


Lemma answers_when_unknown tools a tc m :
  answers tools a tc m ->
  gated a tc = false ->
  _find_tool tools (tc_name tc) = None ->
  m = ToolMessage (not_found_notice (tc_name tc)) (tc_id tc).
Proof.
  intros H G F. destruct H as [R A | | ? ? ? ? _ F' _ | ? ? ? ? _ F' _].
  - unfold gated in G. rewrite R, A in G. discriminate.
  - reflexivity.
  - congruence.
  - congruence.
Qed.



Lemma invoke_was_allowed a (new : list (Call Value)) n args :
  Forall (fun c => is_llm_call c = true
                   \/ exists tc, True /\ tool_event a tc c) new ->
  In (CallInvoke n args) new ->
  requires_approval n && negb a = false.
Proof.
  intros F I. rewrite Forall_forall in F.
  destruct (F _ I) as [H|[tc [_ [-> [_ G]]]]]; [discriminate | exact G].
Qed.

(** Without a confirmation, no approval-required tool is invoked in
    the cycle. *)
Lemma cycle_without_approval tools user_input h cbs st :
  is_confirmation user_input = false ->
  exists new,
    calls (snd (process_query llm_invoke cb system_prompt tools user_input
                  h cbs st)) = calls st ++ new /\
    forall n args,
      In (CallInvoke n args) new -> requires_approval n = false.
Proof.
  intros NC.
  destruct (process_query llm_invoke cb system_prompt tools user_input
              h cbs st) as [answer st'] eqn:E.
  apply process_query_spec in E as [ext [new [_ [_ [_ [K [F _]]]]]]].
  rewrite NC in *. simpl. eexists. split; [exact K|].
  intros n args [I|[I|I]]; try discriminate.
  pose proof (invoke_was_allowed _ _ _ _ F I) as G.
  now rewrite andb_true_r in G.
Qed.


(** The approval-required tools are registered. *)
Lemma approval_required_registered n :
  requires_approval n = true ->
  _find_tool (get_all_tools tool_body) n = Some (mkTool n (tool_body n)).
Proof.
  intros R. apply in_set_In in R. simpl in R.
  destruct R as [<-|[<-|[]]]; reflexivity.
Qed.


(* ================================================================ *)
(** ** Unknown tools and failing tools *)
(* ================================================================ *)

Lemma unknown_needs_no_approval n :
  _find_tool (get_all_tools tool_body) n = None ->
  requires_approval n = false.
Proof.
  intros F. destruct (requires_approval n) eqn:R; [|reflexivity].
  rewrite (approval_required_registered _ R) in F. discriminate.
Qed.

(** C6, as the code has it.  [requires_approval] is false for every
    name outside the approval-required set.  For a name that the
    registry does not know, the approval test is evaluated first (and
    is false), then the lookup fails: the request gets the "not found"
    result turn under its id, no tool runs, nothing is left pending,
    and the pass goes on to the next model invocation with that result
    in the conversation. *)
Theorem C6_unknown_tool_not_found :
  (forall n, ~ In n APPROVAL_REQUIRED_TOOLS -> requires_approval n = false) /\
  (forall tc a st,
      _find_tool (get_all_tools tool_body) (tc_name tc) = None ->
      requires_approval (tc_name tc) = false /\
      _execute_tool_call cb (get_all_tools tool_body) tc a st
      = (ToolMessage (not_found_notice (tc_name tc)) (tc_id tc),
         mkState (world st) (llm st) (pending_actions st) (messages st)
           (option_map (on_tool_start cb (tc_name tc) (tc_args tc))
              (callbacks st))
           (calls st ++ [CallRequiresApproval (tc_name tc);
                         CallFindTool (tc_name tc)])) /\
      (forall r last,
          In tc (tool_calls r) ->
          let out :=
            loop_body llm_invoke cb (get_all_tools tool_body) r last a st
          in
          In (ToolMessage (not_found_notice (tc_name tc)) (tc_id tc))
            (messages (snd out)) /\
          exists new,
            calls (snd out)
            = calls st ++ new
                ++ [CallLLM (messages (snd out)) (fst (fst out))])).
Proof.
  split.
  - intros n H. destruct (requires_approval n) eqn:R; [|reflexivity].
    apply in_set_In in R. contradiction.
  - intros tc a st F.
    pose proof (unknown_needs_no_approval _ F) as R.
    assert (G : gated a tc = false) by (unfold gated; now rewrite R).
    split; [exact R|]. split; [now apply execute_not_found|].
    intros r last I out. subst out.
    destruct (loop_body llm_invoke cb (get_all_tools tool_body) r last a st)
      as [[r' last'] st'] eqn:E.
    apply loop_body_spec in E
      as [_ [_ [results [new [A [M1 [_ [K1 _]]]]]]]].
    simpl. split; [|now exists new].
    destruct (Forall2_In_left _ _ _ _ A I) as [m [Im Hm]].
    rewrite (answers_when_unknown _ _ _ _ Hm G F) in Im.
    rewrite M1. apply in_or_app. right. now right.
Qed.

(** C7. When the execution of a tool call raises [e], the exception
    is caught: the request's result turn is "Error: " followed by the
    message, [on_tool_end] is told the message with [success=False],
    the remaining requests of the turn are executed from the state the
    failure left, and the pass ends with the next model invocation on
    a conversation that holds the error result. *)
Theorem C7_tool_failure_is_reported tools tc a st t e w' :
  gated a tc = false ->
  _find_tool tools (tc_name tc) = Some t ->
  invoke t (tc_args tc) (world st) = (Raised e, w') ->
  let failed := ToolMessage ("Error: " +++ e) (tc_id tc) in
  let st1 :=
    mkState w' (llm st) (pending_actions st) (messages st)
      (option_map
         (fun o =>
            on_tool_end cb (tc_name tc) e false
              (on_tool_start cb (tc_name tc) (tc_args tc) o))
         (callbacks st))
      (calls st ++ [CallRequiresApproval (tc_name tc);
                    CallFindTool (tc_name tc);
                    CallInvoke (name t) (tc_args tc)]) in
  _execute_tool_call cb tools tc a st = (failed, st1) /\
  (forall rest,
      execute_tool_calls cb tools (tc :: rest) a st
      = (failed :: fst (execute_tool_calls cb tools rest a st1),
         snd (execute_tool_calls cb tools rest a st1))) /\
  (forall r last rest,
      tool_calls r = tc :: rest ->
      let out := loop_body llm_invoke cb tools r last a st in
      In failed (messages (snd out)) /\
      exists new,
        calls (snd out)
        = calls st ++ new ++ [CallLLM (messages (snd out)) (fst (fst out))]).
Proof.
  intros G F I failed st1.
  assert (E1 : _execute_tool_call cb tools tc a st = (failed, st1))
    by exact (execute_found tools tc a st t (Raised e) w' G F I).
  split; [exact E1|]. split.
  - intros rest. rewrite execute_tool_calls_cons, E1.
    now destruct (execute_tool_calls cb tools rest a st1).
  - intros r last rest T out. subst out.
    destruct (loop_body llm_invoke cb tools r last a st)
      as [[r' last'] st'] eqn:E.
    apply loop_body_spec in E
      as [_ [_ [results [new [_ [M1 [_ [K1 [_ [_ R]]]]]]]]]].
    simpl. split; [|now exists new].
    rewrite M1. apply in_or_app. right. right.
    rewrite R, T, execute_tool_calls_cons.
    set (st0 := snd (report_reasoning cb (extract_response_text r) st)).
    assert (I0 : invoke t (tc_args tc) (world st0) = (Raised e, w')).
    { subst st0.
      destruct (report_reasoning_frame (extract_response_text r) st)
        as [-> _]. exact I. }
    rewrite (execute_found tools tc a st0 t (Raised e) w' G F I0).
    match goal with
    | |- context [execute_tool_calls cb tools rest a ?s] =>
        destruct (execute_tool_calls cb tools rest a s)
    end.
    now left.
Qed.

(* ================================================================ *)
(** ** The final answer *)
(* ================================================================ *)

(** C8, as the code has it.  A turn without tool calls met inside the
    loop ends it at once, nothing more being executed or invoked: the
    answer is the turn's trimmed text, else the last non-empty
    intermediate text, else "No response generated.".  When it is the
    first turn of the cycle, no tool runs in that cycle.  A turn that
    answers the last model invocation the loop allows is returned by
    the code after the loop, whose fixed string is "Reached maximum
    analysis steps.".  The answer of a cycle is never empty. *)
Theorem C8_final_answer tools :
  (forall n r last a st,
      tool_calls r = [] ->
      tool_loop_from llm_invoke cb (S n) tools r last a st
      = (or_else (extract_response_text r)
           (or_else last "No response generated."), st)) /\
  (forall r last a st,
      tool_loop_from llm_invoke cb 0 tools r last a st
      = (or_else (extract_response_text r)
           (or_else last "Reached maximum analysis steps."), st)) /\
  (forall s (tcs : list (ToolCall Value)),
      extract_response_text (mkResponse (ContentStr s) tcs) = strip s) /\
  (forall user_input h cbs st,
      let conv := format_messages system_prompt (or_empty h) user_input in
      let r0 := fst (llm_invoke conv (llm st)) in
      let out :=
        process_query llm_invoke cb system_prompt tools user_input h cbs st
      in
      tool_calls r0 = [] ->
      fst out = or_else (extract_response_text r0) "No response generated." /\
      (extract_response_text r0 <> EmptyString ->
       fst out = extract_response_text r0) /\
      calls (snd out)
      = calls st ++ [CallIsConfirmation user_input; CallLLM conv r0] /\
      world (snd out) = world st /\
      messages (snd out) = conv /\
      pending_actions (snd out) = []) /\
  (forall user_input h cbs st,
      let conv := format_messages system_prompt (or_empty h) user_input in
      let r0 := fst (llm_invoke conv (llm st)) in
      let out :=
        process_query llm_invoke cb system_prompt tools user_input h cbs st
      in
      fst out <> EmptyString /\
      exists ext new,
        messages (snd out) = conv ++ ext /\
        calls (snd out)
        = calls st
            ++ CallIsConfirmation user_input :: CallLLM conv r0 :: new /\
        (llm_calls new < MAX_ITERATIONS ->
         tool_calls (last_reply r0 new) = []) /\
        fst out
        = or_else (extract_response_text (last_reply r0 new))
            (or_else (last_nonempty EmptyString (turn_texts ext))
               (if llm_calls new =? MAX_ITERATIONS
                then "Reached maximum analysis steps."
                else "No response generated."))).
Proof.
  split; [|split; [|split; [|split]]].
  - intros n r last a st T. simpl. now rewrite T.
  - reflexivity.
  - reflexivity.
  - intros user_input h cbs st conv r0 out T.
    assert (E : out
                = (or_else (extract_response_text r0)
                     "No response generated.",
                   mkState (world st) (snd (llm_invoke conv (llm st))) []
                     conv (option_map (on_thinking cb) cbs)
                     (calls st ++ [CallIsConfirmation user_input;
                                   CallLLM conv r0]))).
    { subst out r0. unfold process_query, _tool_loop. fold conv.
      destruct st as [w l p m c k]. run_monad. simpl llm in *.
      destruct (llm_invoke conv l) as [r0 l0]. simpl in T |- *.
      rewrite T. run_monad. now rewrite <- app_assoc. }
    rewrite E. simpl. repeat split.
    intros NE. unfold or_else.
    destruct (extract_response_text r0); [contradiction | reflexivity].
  - intros user_input h cbs st conv r0 out. subst out.
    destruct (process_query llm_invoke cb system_prompt tools user_input
                h cbs st) as [answer st'] eqn:E.
    apply process_query_spec in E
      as [ext [new [M [_ [_ [K [_ [_ [Z [R _]]]]]]]]]].
    simpl. split.
    + rewrite R. apply fallback_nonempty.
    + now exists ext, new.
Qed.

(** C10, as the code has it.  An input made only of white space and
    of the characters '!', '.', ',' (the empty input included) is not a
    confirmation: what normalization leaves is made of such characters
    only - nothing at all when no white space lies between the
    punctuation characters - and no word of the vocabulary is; a cycle
    with such an input never invokes an approval-required tool. *)
Theorem C10_blank_input_grants_nothing (text : string) :
  all_chars is_blank text = true ->
  is_confirmation text = false /\
  all_chars is_blank (normalize text) = true /\
  (forall ws1 p ws2,
      text = ws1 +++ p +++ ws2 ->
      all_chars is_space ws1 = true ->
      all_chars is_punct p = true ->
      all_chars is_space ws2 = true ->
      normalize text = EmptyString) /\
  (forall tools h cbs st,
      let out :=
        process_query llm_invoke cb system_prompt tools text h cbs st in
      exists new,
        calls (snd out) = calls st ++ new /\
        forall n args,
          In (CallInvoke n args) new -> requires_approval n = false).
Proof.
  intros B. pose proof (blank_not_confirmation _ B) as NC.
  split; [exact NC|]. split; [now apply normalize_blank|]. split.
  - intros ws1 p ws2 -> A1 A2 A3. now apply normalize_punct_run.
  - intros tools h cbs st out. subst out.
    now apply cycle_without_approval.
Qed.

End AgentFacts.

(* ================================================================== *)
(** ** The progress observer *)
(* ================================================================== *)

Section ObserverFacts.

Context {Value World LLM Obs1 Obs2 : Type}.
Variable llm_invoke : list (Message Value) -> LLM -> Response Value * LLM.
Variable cb1 : Observer Value Obs1.
Variable cb2 : Observer Value Obs2.
Variable system_prompt : string.

Local Abbreviation St1 := (State Value World LLM Obs1).
Local Abbreviation St2 := (State Value World LLM Obs2).
Implicit Types (tc : ToolCall Value) (tools : list (Tool Value World))
  (r : Response Value).
















End ObserverFacts.

(* ================================================================== *)
(** ** Observers that may raise *)
(* ================================================================== *)

Section RaisingFacts.

Context {Value World LLM Obs : Type}.
Variable llm_invoke : list (Message Value) -> LLM -> Response Value * LLM.
Variable cb : Raising.Observer Value Obs.
Variable system_prompt : string.

Local Abbreviation St := (State Value World LLM Obs).
Local Abbreviation R := (Raising.R Value World LLM Obs).
Local Abbreviation M0 := (M Value World LLM Obs).
Implicit Types (tc : ToolCall Value) (tools : list (Tool Value World))
  (r : Response Value).
















End RaisingFacts.

Section NonInterference.

Context {Value World LLM Obs1 Obs2 : Type}.
Variable llm_invoke : list (Message Value) -> LLM -> Response Value * LLM.
Variable cb1 : Raising.Observer Value Obs1.
Variable cb2 : Raising.Observer Value Obs2.
Variable system_prompt : string.


End NonInterference.

(* ================================================================== *)
(** ** The theorems at work on concrete cycles *)
(* ================================================================== *)

Import Scenario.

(** "  Go Ahead.,! " is accepted, by the decomposition of C5. *)
Lemma C5_witness :
  In (lower "Go Ahead") CONFIRMATIONS /\
  is_confirmation "  Go Ahead.,! " = true.
Proof.
  assert (H : In (lower "Go Ahead") CONFIRMATIONS).
  { simpl. do 4 right. left. reflexivity. }
  split; [exact H|].
  destruct C5_is_confirmation_exact_match as [_ [_ [_ [_ C]]]].
  apply (proj2 (C "  Go Ahead.,! ")).
  exists "  ", "Go Ahead", ".,!", " ".
  repeat split; [reflexivity .. | exact H].
Defined.



Lemma C3_witness :
  tool_calls
    (fst (scripted [asks "Looking at the logs."
                      [call "list_log_files" "c1";
                       call "drop_database" "c2"];
                    asks "Two log files." []]
            [SystemMessage "SYSTEM"; HumanMessage "which logs are there?"]
            0))
  <> [] /\
  exists results rest,
    messages
      (snd (run [asks "Looking at the logs."
                   [call "list_log_files" "c1"; call "drop_database" "c2"];
                 asks "Two log files." []]
              "which logs are there?" None))
    = [SystemMessage "SYSTEM"; HumanMessage "which logs are there?"]
        ++ AIMessage (ContentStr "Looking at the logs.")
             [call "list_log_files" "c1"; call "drop_database" "c2"]
        :: results ++ rest /\
    map result_id results = [Some "c1"; Some "c2"].
Proof.
  assert (N : tool_calls
                (fst (scripted [asks "Looking at the logs."
                                  [call "list_log_files" "c1";
                                   call "drop_database" "c2"];
                                asks "Two log files." []]
                        [SystemMessage "SYSTEM";
                         HumanMessage "which logs are there?"] 0))
              <> []) by discriminate.
  split; [exact N|].
  destruct (C3_every_request_answered_in_order
              (scripted [asks "Looking at the logs."
                           [call "list_log_files" "c1";
                            call "drop_database" "c2"];
                         asks "Two log files." []])
              recorder "SYSTEM" (get_all_tools bodies)) as [_ [H _]].
  destruct (H "which logs are there?" None None st0)
    as [ext [new [M [_ [_ [_ F]]]]]].
  destruct (F N) as [results [rest [E [_ I]]]].
  exists results, rest. split; [|exact I].
  unfold run. rewrite M, E. reflexivity.
Defined.

(** A cycle whose only turn has no tool call and no text. *)
Lemma C4_witness :
  fst (_tool_loop (scripted []) recorder (get_all_tools bodies) silent
         false st0) <> EmptyString.
Proof.
  destruct (C4_tool_loop_bounded_nonempty (scripted []) recorder
              (get_all_tools bodies) silent false st0)
    as [ext [new [_ [_ [_ [_ [H _]]]]]]].
  exact H.
Defined.

(** C4 as stated fails: the loop stops at a first turn that has neither
    tool calls nor text, no intermediate text was seen, and the string
    returned is not "Reached maximum analysis steps.". *)
Lemma C4_counterexample :
  let out :=
    _tool_loop (scripted []) recorder (get_all_tools bodies) silent false st0
  in
  tool_calls silent = [] /\
  extract_response_text silent = EmptyString /\
  turn_texts (messages (snd out)) = [] /\
  fst out = "No response generated." /\
  fst out <> "Reached maximum analysis steps.".
Proof. vm_compute. repeat split. discriminate. Qed.

(** A request for a tool that does not exist. *)
Lemma C6_witness :
  ~ In "drop_database" APPROVAL_REQUIRED_TOOLS /\
  _find_tool (get_all_tools bodies) "drop_database" = None /\
  requires_approval "drop_database" = false /\
  fst (_execute_tool_call recorder (get_all_tools bodies)
         (call "drop_database" "c1") false st0)
  = ToolMessage "Tool 'drop_database' not found" "c1".
Proof.
  assert (N : ~ In "drop_database" APPROVAL_REQUIRED_TOOLS).
  { simpl. intros [H|[H|[]]]; discriminate. }
  assert (F : _find_tool (get_all_tools bodies)
                (tc_name (call "drop_database" "c1")) = None)
    by reflexivity.
  destruct (C6_unknown_tool_not_found (scripted []) bodies recorder)
    as [H1 H2].
  split; [exact N|]. split; [exact F|]. split; [exact (H1 _ N)|].
  destruct (H2 (call "drop_database" "c1") false st0 F) as [_ [E _]].
  rewrite E. reflexivity.
Defined.

(** C6 as stated fails: for a name the registry does not know, the
    approval test is evaluated, and before the lookup. *)
Lemma C6_counterexample :
  _find_tool (get_all_tools bodies) "drop_database" = None /\
  calls (snd (_execute_tool_call recorder (get_all_tools bodies)
                (call "drop_database" "c1") false st0))
  = [CallRequiresApproval "drop_database"; CallFindTool "drop_database"].
Proof. split; reflexivity. Qed.

(** [search_logs] fails: the error becomes the result. *)
Lemma C7_witness :
  gated false (call "search_logs" "c2") = false /\
  _find_tool (get_all_tools bodies) "search_logs" = Some (search_logs bodies) /\
  invoke (search_logs bodies) [] [] = (Raised "missing argument", []) /\
  _execute_tool_call recorder (get_all_tools bodies)
    (call "search_logs" "c2") false (set_callbacks (Some []) st0)
  = (ToolMessage "Error: missing argument" "c2",
     mkState [] 0 [] []
       (Some [ToolStart "search_logs" [];
              ToolEnd "search_logs" "missing argument" false])
       [CallRequiresApproval "search_logs"; CallFindTool "search_logs";
        CallInvoke "search_logs" []]).
Proof.
  assert (G : gated false (call "search_logs" "c2") = false) by reflexivity.
  assert (F : _find_tool (get_all_tools bodies)
                (tc_name (call "search_logs" "c2"))
              = Some (search_logs bodies)) by reflexivity.
  assert (I : invoke (search_logs bodies) (tc_args (call "search_logs" "c2"))
                (world (set_callbacks (Some []) st0))
              = (Raised "missing argument", [])) by reflexivity.
  split; [exact G|]. split; [exact F|]. split; [exact I|].
  destruct (C7_tool_failure_is_reported (scripted []) recorder
              (get_all_tools bodies) (call "search_logs" "c2") false
              (set_callbacks (Some []) st0) (search_logs bodies)
              "missing argument" [] G F I) as [E _].
  exact E.
Defined.

(** A first turn with text and no tool call. *)
Lemma C8_witness :
  tool_calls (asks "  There are 2 log files.  " []) = [] /\
  fst (run [asks "  There are 2 log files.  " []] "list log files" None)
  = "There are 2 log files.".
Proof.
  split; [reflexivity|].
  destruct (C8_final_answer (scripted [asks "  There are 2 log files.  " []])
              recorder "SYSTEM" (get_all_tools bodies))
    as [_ [_ [_ [H _]]]].
  destruct (H "list log files" None None st0 eq_refl) as [_ [E _]].
  unfold run. rewrite E; [reflexivity | discriminate].
Defined.

(** C8 as stated fails twice.  A turn with neither tool calls nor text
    that answers the tenth invocation made by the loop, no intermediate
    text having been seen, is answered with "Reached maximum analysis
    steps."; and a turn with text and no tool call that follows a turn
    with a tool call is returned in a cycle that did execute a tool. *)
Lemma C8_counterexample :
  (let script :=
     repeat (asks "" [call "list_log_files" "c"]) 10 ++ [asks "" []] in
   let out := run script "list log files" None in
   tool_calls (nth 10 script silent) = [] /\
   extract_response_text (nth 10 script silent) = EmptyString /\
   last_nonempty EmptyString (turn_texts (messages (snd out))) = EmptyString /\
   fst out = "Reached maximum analysis steps." /\
   fst out <> "No response generated.") /\
  (let out :=
     run [asks "" [call "list_log_files" "c"]; asks "Two files." []]
       "list log files" None in
   fst out = "Two files." /\
   world (snd out) = ["list_log_files"]).
Proof. vm_compute. repeat split. discriminate. Qed.

(** An input of white space and punctuation only. *)
Lemma C10_witness :
  all_chars is_blank " ., " = true /\ is_confirmation " ., " = false.
Proof.
  assert (B : all_chars is_blank " ., " = true) by reflexivity.
  split; [exact B|].
  destruct (C10_blank_input_grants_nothing (World:=list string) (scripted [])
              recorder "SYSTEM" " ., " B) as [H _].
  exact H.
Defined.

(** C10 as stated fails: ". ." is made of white space and punctuation
    only, and normalization does not reduce it to the empty string. *)
Lemma C10_counterexample :
  all_chars is_blank ". ." = true /\
  normalize ". ." = ". " /\
  normalize ". ." <> EmptyString.
Proof. repeat split. discriminate. Qed.




(* ================================================================== *)
(** ** More on the string primitives and on extract_response_text *)
(* ================================================================== *)

Module TrimFacts.

Lemma lstrip_lstripped (p : ascii -> bool) (s : string) :
  lstripped p (lstrip p s).
Proof.
  unfold lstripped. induction s as [|c s IH]; simpl; [exact I|].
  destruct (p c) eqn:Hc; [exact IH | simpl; exact Hc].
Qed.

Lemma lstrip_fix (p : ascii -> bool) (s : string) :
  lstripped p s -> lstrip p s = s.
Proof.
  unfold lstripped. destruct s as [|c s]; simpl; [reflexivity|].
  intros H. now rewrite H.
Qed.

Lemma rstrip_keeps_lstripped (p q : ascii -> bool) (s : string) :
  lstripped q s -> lstripped q (rstrip p s).
Proof.
  unfold lstripped. destruct s as [|c s]; simpl; [auto|].
  intros H. destruct (rstrip p s); [destruct (p c)|]; simpl; auto.
Qed.

Lemma strip_trimmed (s : string) : trimmed (strip s).
Proof.
  unfold strip. split.
  - apply rstrip_keeps_lstripped, lstrip_lstripped.
  - apply rstrip_rstripped.
Qed.

Lemma trimmed_strip (s : string) : trimmed s -> strip s = s.
Proof.
  intros [L R]. unfold strip. rewrite (lstrip_fix _ _ L).
  now apply rstrip_fix.
Qed.

Lemma lstrip_app (p : ascii -> bool) (a b : string) :
  lstrip p (a +++ b)
  = if all_chars p a then lstrip p b else lstrip p a +++ b.
Proof.
  induction a as [|c a IH]; simpl; [reflexivity|].
  destruct (p c); simpl; [exact IH | reflexivity].
Qed.



(** White space around a text does not change what [strip] gives. *)
Lemma strip_padding (ws1 t ws2 : string) :
  all_chars is_space ws1 = true ->
  all_chars is_space ws2 = true ->
  strip (ws1 +++ t +++ ws2) = strip t.
Proof.
  intros A1 A2. unfold strip. rewrite (lstrip_app_all _ _ _ A1), lstrip_app.
  destruct (all_chars is_space t) eqn:T.
  - rewrite (lstrip_all _ _ A2), (lstrip_all _ _ T). reflexivity.
  - now apply rstrip_app_all.
Qed.

Lemma space_lower_char (c : ascii) : is_space (lower_char c) = is_space c.
Proof. destruct c as [[] [] [] [] [] [] [] []]; reflexivity. Qed.

Lemma lower_char_idem (c : ascii) : lower_char (lower_char c) = lower_char c.
Proof. destruct c as [[] [] [] [] [] [] [] []]; reflexivity. Qed.

Lemma lower_idem (s : string) : lower (lower s) = lower s.
Proof.
  induction s as [|c s IH]; simpl; [reflexivity|].
  now rewrite lower_char_idem, IH.
Qed.

Lemma lstrip_lower (s : string) :
  lstrip is_space (lower s) = lower (lstrip is_space s).
Proof.
  induction s as [|c s IH]; simpl; [reflexivity|].
  rewrite space_lower_char. destruct (is_space c); [exact IH | reflexivity].
Qed.

Lemma rstrip_lower (s : string) :
  rstrip is_space (lower s) = lower (rstrip is_space s).
Proof.
  induction s as [|c s IH]; simpl; [reflexivity|].
  rewrite IH, space_lower_char.
  destruct (rstrip is_space s); simpl; [|reflexivity].
  now destruct (is_space c).
Qed.

Lemma strip_lower (s : string) : strip (lower s) = lower (strip s).
Proof. unfold strip. now rewrite lstrip_lower, rstrip_lower. Qed.

End TrimFacts.
Import TrimFacts.

(** X1. Whatever the shape of the content (a string, a list of blocks,
    anything else), the text that [extract_response_text] returns has no
    leading and no trailing white space: stripping it again changes
    nothing. *)
Theorem X1_extracted_text_is_trimmed (Value : Type) (r : Response Value) :
  trimmed (extract_response_text r) /\
  strip (extract_response_text r) = extract_response_text r.
Proof.
  assert (T : trimmed (extract_response_text r)).
  { unfold extract_response_text, content_text. apply strip_trimmed. }
  split; [exact T | now apply trimmed_strip].
Qed.

(** X2. In a structured content, the blocks that carry no text (dicts
    without a 'text' entry, items that are neither dict nor string) never
    change the extracted text: removing them gives the same result, and a
    content made only of such blocks gives the empty string. *)
Theorem X2_blocks_without_text_are_skipped (blocks : list Block) :
  content_text (ContentList blocks)
  = content_text (ContentList (filter has_text blocks)) /\
  (forallb (fun b => negb (has_text b)) blocks = true ->
   content_text (ContentList blocks) = EmptyString).
Proof.
  assert (E : flat_map block_text blocks
              = flat_map block_text (filter has_text blocks)).
  { induction blocks as [|b blocks IH]; [reflexivity|].
    destruct b as [[t|]| |]; simpl; first [exact IH | f_equal; exact IH]. }
  split.
  - unfold content_text. now rewrite E.
  - intros H. unfold content_text. rewrite E.
    assert (N : filter has_text blocks = []).
    { clear E. induction blocks as [|b blocks IH]; [reflexivity|].
      simpl in H. apply andb_prop in H as [Hb H]. simpl.
      destruct (has_text b); [discriminate | now apply IH]. }
    rewrite N. reflexivity.
Qed.

Lemma X2_witness :
  forallb (fun b => negb (has_text b)) [BlockOther; BlockDict None] = true /\
  content_text (ContentList [BlockOther; BlockDict None]) = EmptyString.
Proof.
  assert (H : forallb (fun b => negb (has_text b))
                [BlockOther; BlockDict None] = true) by reflexivity.
  split; [exact H|].
  exact (proj2 (X2_blocks_without_text_are_skipped
                  [BlockOther; BlockDict None]) H).
Defined.

(** X3. The verdict of [is_confirmation] does not depend on letter case
    nor on white space around the input: two inputs with the same
    lower-casing get the same verdict, and padding an input with white
    space on either side does not change it. *)
Theorem X3_confirmation_ignores_case_and_padding :
  (forall t u, lower t = lower u -> is_confirmation t = is_confirmation u) /\
  (forall ws1 t ws2,
      all_chars is_space ws1 = true ->
      all_chars is_space ws2 = true ->
      is_confirmation (ws1 +++ t +++ ws2) = is_confirmation t).
Proof.
  split.
  - intros t u E. unfold is_confirmation, normalize.
    now rewrite <- !strip_lower, E.
  - intros ws1 t ws2 A1 A2. unfold is_confirmation, normalize.
    now rewrite strip_padding.
Qed.

Lemma X3_witness :
  lower "CONFIRM" = lower "Confirm" /\
  is_confirmation "CONFIRM" = is_confirmation "Confirm".
Proof.
  assert (E : lower "CONFIRM" = lower "Confirm") by reflexivity.
  split; [exact E|].
  exact (proj1 X3_confirmation_ignores_case_and_padding _ _ E).
Defined.


(* ================================================================== *)
(** ** Bookkeeping of a cycle *)
(* ================================================================== *)

Section AccountingFacts.

Context {Value World LLM Obs : Type}.
Variable llm_invoke : list (Message Value) -> LLM -> Response Value * LLM.
Variable cb : Observer Value Obs.
Variable system_prompt : string.

Local Abbreviation St := (State Value World LLM Obs).
Implicit Types (st : St) (tc : ToolCall Value)
  (tools : list (Tool Value World)) (r : Response Value).

Lemma count_calls_app (p : Call Value -> bool) (l1 l2 : list (Call Value)) :
  count_calls p (l1 ++ l2) = count_calls p l1 + count_calls p l2.
Proof. unfold count_calls. now rewrite filter_app, length_app. Qed.

Ltac count_up :=
  unfold llm_calls, count_calls; rewrite ?filter_app, ?length_app; simpl.

(** What one request adds to the record of calls and to the pending
    actions. *)
Lemma execute_tool_call_counts tools tc a st :
  let st' := snd (_execute_tool_call cb tools tc a st) in
  messages st' = messages st /\
  llm_calls (calls st') = llm_calls (calls st) /\
  count_calls is_requires_approval_call (calls st')
  = count_calls is_requires_approval_call (calls st) + 1 /\
  count_calls is_find_call (calls st') + length (pending_actions st')
  = count_calls is_find_call (calls st) + length (pending_actions st) + 1 /\
  count_calls is_invoke_call (calls st') + count_calls is_find_call (calls st)
  <= count_calls is_invoke_call (calls st)
     + count_calls is_find_call (calls st').
Proof.
  intros st'. subst st'. destruct (gated a tc) eqn:G.
  - unfold gated in G. apply andb_prop in G as [R A].
    apply negb_true_iff in A. subst a.
    rewrite (execute_blocked cb tools tc st R). simpl.
    count_up. rewrite ?length_app. simpl. repeat split; lia.
  - destruct (_find_tool tools (tc_name tc)) as [t|] eqn:F.
    + destruct (invoke t (tc_args tc) (world st)) as [out w'] eqn:I.
      rewrite (execute_found cb tools tc a st t out w' G F I). simpl.
      count_up. repeat split; lia.
    + rewrite (execute_not_found cb tools tc a st G F). simpl.
      count_up. repeat split; lia.
Qed.

Lemma execute_tool_calls_counts tools tcs a :
  forall st,
    let st' := snd (execute_tool_calls cb tools tcs a st) in
    messages st' = messages st /\
    llm_calls (calls st') = llm_calls (calls st) /\
    count_calls is_requires_approval_call (calls st')
    = count_calls is_requires_approval_call (calls st) + length tcs /\
    count_calls is_find_call (calls st') + length (pending_actions st')
    = count_calls is_find_call (calls st) + length (pending_actions st)
      + length tcs /\
    count_calls is_invoke_call (calls st')
    + count_calls is_find_call (calls st)
    <= count_calls is_invoke_call (calls st)
       + count_calls is_find_call (calls st').
Proof.
  induction tcs as [|tc rest IH]; intros st st'; subst st'.
  - simpl. repeat split; lia.
  - rewrite execute_tool_calls_cons.
    pose proof (execute_tool_call_counts tools tc a st) as H1.
    destruct (_execute_tool_call cb tools tc a st) as [m st1].
    pose proof (IH st1) as H2.
    destruct (execute_tool_calls cb tools rest a st1) as [ms st2].
    simpl in *. destruct H1 as [M1 [L1 [R1 [F1 I1]]]].
    destruct H2 as [M2 [L2 [R2 [F2 I2]]]].
    repeat split; try congruence; lia.
Qed.

Lemma accounted_refl st : accounted st st.
Proof. unfold accounted. repeat split; lia. Qed.

Lemma accounted_trans st1 st2 st3 :
  accounted st1 st2 -> accounted st2 st3 -> accounted st1 st3.
Proof. unfold accounted. intros [A [B [C D]]] [A' [B' [C' D']]]. repeat split; lia. Qed.

Lemma loop_body_accounted tools r last a st :
  accounted st (snd (loop_body llm_invoke cb tools r last a st)).
Proof.
  destruct (loop_body llm_invoke cb tools r last a st)
    as [[r' last'] st'] eqn:E.
  pose proof E as E'.
  apply loop_body_spec in E'
    as [_ [_ [results [new [A [M1 [_ [K1 [_ [_ R]]]]]]]]]].
  destruct (results_not_turns _ _ _ _ A) as [Q1 [Q2 _]].
  (* the state the tool calls leave *)
  unfold loop_body in E. unfold bind at 1 in E.
  pose proof (report_reasoning_frame cb (extract_response_text r) st)
    as [_ [_ [P0 [M0 K0]]]].
  destruct (report_reasoning cb (extract_response_text r) st) as [[] st0].
  simpl in P0, M0, K0, R. unfold bind at 1 in E.
  pose proof (execute_tool_calls_counts tools (tool_calls r) a st0) as H.
  destruct (execute_tool_calls cb tools (tool_calls r) a st0)
    as [results' st1].
  simpl in H, R. subst results'. destruct H as [M2 [L2 [R2 [F2 I2]]]].
  destruct st1 as [w1 l1 p1 m1 c1 k1].
  revert E.
  cbv beta iota delta [bind ret notify invoke_llm
                         set_calls set_llm set_messages set_callbacks
                         world llm pending_actions messages callbacks calls].
  destruct (llm_invoke (m1 ++ AIMessage (content r) (tool_calls r) :: results)
              l1) as [r1 l2].
  intros E. injection E as _ _ <-. simpl in *. subst m1.
  rewrite M0, K0, P0 in *.
  assert (T1 : turn_texts
                 (messages st
                    ++ AIMessage (content r) (tool_calls r) :: results)
               = turn_texts (messages st)
                   ++ [content_text (content r)]).
  { change (AIMessage (content r) (tool_calls r) :: results)
      with ([AIMessage (content r) (tool_calls r)] ++ results).
    rewrite !turn_texts_app, Q2. reflexivity. }
  assert (T2 : requested
                 (messages st
                    ++ AIMessage (content r) (tool_calls r) :: results)
               = requested (messages st) ++ tool_calls r).
  { change (AIMessage (content r) (tool_calls r) :: results)
      with ([AIMessage (content r) (tool_calls r)] ++ results).
    rewrite !requested_app, Q1. unfold requested at 2. simpl.
    now rewrite !app_nil_r. }
  unfold accounted. cbn [messages calls pending_actions].
  rewrite T1, T2, !length_app, !count_calls_app, llm_calls_app.
  cbn [length].
  change (llm_calls [CallLLM
                       (messages st
                          ++ AIMessage (content r) (tool_calls r) :: results)
                       r1]) with 1.
  change (count_calls is_requires_approval_call
            [CallLLM
               (messages st
                  ++ AIMessage (content r) (tool_calls r) :: results) r1])
    with 0.
  change (count_calls is_find_call
            [CallLLM
               (messages st
                  ++ AIMessage (content r) (tool_calls r) :: results) r1])
    with 0.
  change (count_calls is_invoke_call
            [CallLLM
               (messages st
                  ++ AIMessage (content r) (tool_calls r) :: results) r1])
    with 0.
  repeat split; lia.
Qed.

Lemma tool_loop_from_accounted tools a n :
  forall r last st,
    accounted st (snd (tool_loop_from llm_invoke cb n tools r last a st)).
Proof.
  induction n as [|n IH]; intros r last st; simpl; [apply accounted_refl|].
  destruct (tool_calls r); [apply accounted_refl|].
  unfold bind.
  pose proof (loop_body_accounted tools r last a st) as H.
  destruct (loop_body llm_invoke cb tools r last a st) as [next st1].
  simpl in H. eapply accounted_trans; [exact H | apply IH].
Qed.

(** [process_query] is its prelude followed by the loop. *)
Lemma process_query_unfold tools user_input h cbs st :
  process_query llm_invoke cb system_prompt tools user_input h cbs st
  = (let conv := format_messages system_prompt (or_empty h) user_input in
     _tool_loop llm_invoke cb tools (fst (llm_invoke conv (llm st)))
       (is_confirmation user_input)
       (mkState (world st) (snd (llm_invoke conv (llm st))) [] conv
          (option_map (on_thinking cb) cbs)
          (calls st ++ [CallIsConfirmation user_input;
                        CallLLM conv (fst (llm_invoke conv (llm st)))]))).
Proof.
  unfold process_query. destruct st as [w l p m c k].
  cbv beta iota zeta delta [bind ret log notify invoke_llm
                              set_calls set_llm set_messages set_callbacks
                              set_pending_actions
                              world llm pending_actions messages callbacks
                              calls].
  destruct (llm_invoke (format_messages system_prompt (or_empty h) user_input)
              l) as [r0 l0].
  simpl. now rewrite <- app_assoc.
Qed.

(** X4. The bookkeeping of a cycle.  [process_query] invokes the model
    once before the loop and once more for every model turn it appends
    to the conversation, hence between 1 and MAX_ITERATIONS + 1 = 11
    times; it evaluates [requires_approval] once per request of those
    turns; each such request is either left in [pending_actions] or
    looked up in the registry, never both; and a tool is invoked only
    after a lookup. *)
Theorem X4_cycle_bookkeeping tools user_input h cbs st :
  let out :=
    process_query llm_invoke cb system_prompt tools user_input h cbs st in
  let conv := format_messages system_prompt (or_empty h) user_input in
  exists ext new,
    messages (snd out) = conv ++ ext /\
    calls (snd out) = calls st ++ new /\
    llm_calls new = 1 + length (turn_texts ext) /\
    1 <= llm_calls new <= MAX_ITERATIONS + 1 /\
    count_calls is_requires_approval_call new = length (requested ext) /\
    count_calls is_find_call new + length (pending_actions (snd out))
    = length (requested ext) /\
    count_calls is_invoke_call new <= count_calls is_find_call new.
Proof.
  intros out conv. subst out. rewrite process_query_unfold.
  cbv zeta. fold conv.
  set (r0 := fst (llm_invoke conv (llm st))).
  set (l0 := snd (llm_invoke conv (llm st))).
  clearbody r0 l0 conv.
  set (st2 := mkState (world st) l0 [] conv
                (option_map (on_thinking cb) cbs)
                (calls st ++ [CallIsConfirmation user_input;
                              CallLLM conv r0])).
  unfold _tool_loop.
  pose proof (tool_loop_from_accounted tools (is_confirmation user_input)
                MAX_ITERATIONS r0 EmptyString st2) as [A [B [C D]]].
  destruct (tool_loop_from llm_invoke cb MAX_ITERATIONS tools r0 EmptyString
              (is_confirmation user_input) st2) as [answer st'] eqn:E.
  apply tool_loop_from_spec in E
    as [ext [new [M [_ [_ [K [_ [N _]]]]]]]].
  subst st2. cbn [fst snd messages calls pending_actions] in *.
  exists ext, ([CallIsConfirmation user_input; CallLLM conv r0] ++ new).
  rewrite M, K in *.
  rewrite !turn_texts_app, !requested_app, !length_app in *.
  rewrite !count_calls_app, !llm_calls_app in *.
  change (llm_calls [CallIsConfirmation user_input; CallLLM conv r0])
    with 1 in *.
  change (count_calls is_requires_approval_call
            [CallIsConfirmation user_input; CallLLM conv r0]) with 0 in *.
  change (count_calls is_find_call
            [CallIsConfirmation user_input; CallLLM conv r0]) with 0 in *.
  change (count_calls is_invoke_call
            [CallIsConfirmation user_input; CallLLM conv r0]) with 0 in *.
  cbn [length] in *.
  repeat split; try lia.
  now rewrite <- app_assoc.
Qed.

End AccountingFacts.


(* ================================================================== *)
(** ** The registry of tools *)
(* ================================================================== *)

Section RegistryFacts.

Context {Value World : Type}.
Variable tool_body : string -> Args Value -> World -> ToolOutcome * World.

Implicit Types (tools : list (Tool Value World)) (t : Tool Value World).

(** X5. [_find_tool] returns the first tool of the list whose name is
    the one asked for - no tool before it has that name - and returns
    nothing exactly when no tool of the list has that name. *)
Theorem X5_find_tool_first_match tools (n : string) :
  (forall t,
      _find_tool tools n = Some t ->
      exists before after,
        tools = before ++ t :: after /\ name t = n /\
        forall u, In u before -> name u <> n) /\
  (_find_tool tools n = None <-> ~ In n (map (@name Value World) tools)).
Proof.
  induction tools as [|t0 tools [IH1 IH2]]; split.
  - discriminate.
  - split; [intros _ [] | reflexivity].
  - intros t. unfold _find_tool. simpl.
    destruct (String.eqb (name t0) n) eqn:E.
    + intros H. injection H as <-. apply String.eqb_eq in E.
      exists [], tools. repeat split; [exact E | intros u []].
    + intros H. destruct (IH1 t H) as [before [after [-> [Hn Hb]]]].
      exists (t0 :: before), after. repeat split; [exact Hn|].
      intros u [<-|I]; [now apply String.eqb_neq | now apply Hb].
  - unfold _find_tool in *. simpl.
    destruct (String.eqb (name t0) n) eqn:E.
    + apply String.eqb_eq in E. split; [discriminate|].
      intros H. exfalso. apply H. now left.
    + apply String.eqb_neq in E. rewrite IH2. split.
      * intros H [H0|H0]; [contradiction | now apply H].
      * intros H H0. apply H. now right.
Qed.

(** X6. The registry that [get_all_tools] builds holds six tools with
    six different names, and looking up the name of any of them gives
    back that very tool. *)
Theorem X6_registered_tools_are_found :
  length (get_all_tools tool_body) = 6 /\
  NoDup (map (@name Value World) (get_all_tools tool_body)) /\
  (forall t,
      In t (get_all_tools tool_body) ->
      _find_tool (get_all_tools tool_body) (name t) = Some t).
Proof.
  split; [reflexivity|]. split.
  - simpl. repeat constructor; simpl; intuition discriminate.
  - intros t H. simpl in H.
    repeat (destruct H as [<-|H]; [reflexivity|]). contradiction.
Qed.

(** X7. The two classes of tools/__init__.py split the registry: a name
    is registered exactly when it is in SAFE_TOOLS or in
    APPROVAL_REQUIRED_TOOLS, no name is in both, and so a registered
    tool requires approval exactly when it is not a safe tool. *)
Theorem X7_classes_split_the_registry :
  (forall n,
      In n (map (@name Value World) (get_all_tools tool_body)) <->
      In n SAFE_TOOLS \/ In n APPROVAL_REQUIRED_TOOLS) /\
  (forall n, ~ (In n SAFE_TOOLS /\ In n APPROVAL_REQUIRED_TOOLS)) /\
  (forall t,
      In t (get_all_tools tool_body) ->
      requires_approval (name t) = negb (in_set (name t) SAFE_TOOLS)).
Proof.
  split; [|split].
  - intros n. simpl. intuition.
  - intros n [H1 H2]. simpl in H1, H2.
    repeat (destruct H1 as [<-|H1];
            [repeat (destruct H2 as [H2|H2]; [discriminate|]); contradiction|]).
    contradiction.
  - intros t H. simpl in H.
    repeat (destruct H as [<-|H]; [reflexivity|]). contradiction.
Qed.

End RegistryFacts.

Lemma X5_witness :
  _find_tool (get_all_tools Scenario.bodies) "search_logs"
  = Some (search_logs Scenario.bodies) /\
  name (search_logs Scenario.bodies) = "search_logs".
Proof.
  assert (F : _find_tool (get_all_tools Scenario.bodies) "search_logs"
              = Some (search_logs Scenario.bodies)) by reflexivity.
  split; [exact F|].
  destruct (proj1 (X5_find_tool_first_match
                     (get_all_tools Scenario.bodies) "search_logs")
              _ F) as [before [after [_ [H _]]]].
  exact H.
Defined.

Lemma X6_witness :
  In (reboot_rds_instance Scenario.bodies) (get_all_tools Scenario.bodies) /\
  _find_tool (get_all_tools Scenario.bodies) "reboot_rds_instance"
  = Some (reboot_rds_instance Scenario.bodies).
Proof.
  assert (I : In (reboot_rds_instance Scenario.bodies)
                (get_all_tools Scenario.bodies)).
  { simpl. do 4 right. left. reflexivity. }
  split; [exact I|].
  exact (proj2 (proj2 (X6_registered_tools_are_found Scenario.bodies)) _ I).
Defined.

Lemma X7_witness :
  In (list_log_files Scenario.bodies) (get_all_tools Scenario.bodies) /\
  requires_approval "list_log_files" = false.
Proof.
  assert (I : In (list_log_files Scenario.bodies)
                (get_all_tools Scenario.bodies)).
  { simpl. right. left. reflexivity. }
  split; [exact I|].
  exact (proj2 (proj2 (X7_classes_split_the_registry Scenario.bodies)) _ I).
Defined.

(* ================================================================== *)
(** ** The answer of a cycle, as the chat shows it *)
(* ================================================================== *)

Section AnswerFacts.

Context {Value World LLM Obs : Type}.
Variable llm_invoke : list (Message Value) -> LLM -> Response Value * LLM.
Variable cb : Observer Value Obs.
Variable system_prompt : string.

Lemma trimmed_or_else (x y : string) :
  trimmed x -> trimmed y -> trimmed (or_else x y).
Proof. intros X Y. unfold or_else. now destruct (truthy x). Qed.

Lemma turn_texts_trimmed (msgs : list (Message Value)) :
  Forall trimmed (turn_texts msgs).
Proof.
  induction msgs as [|m msgs IH]; [constructor|].
  unfold turn_texts in *. simpl.
  destruct m; simpl; try exact IH.
  constructor; [apply strip_trimmed | exact IH].
Qed.

Lemma last_nonempty_trimmed (texts : list string) :
  forall start,
    trimmed start -> Forall trimmed texts ->
    trimmed (last_nonempty start texts).
Proof.
  unfold last_nonempty.
  induction texts as [|t texts IH]; intros start S F; [exact S|].
  inversion F as [|? ? Ft Fr]; subst. simpl. apply IH; [|exact Fr].
  now destruct (truthy t).
Qed.

Lemma fixed_strings_trimmed (b : bool) :
  trimmed (if b then "Reached maximum analysis steps."
           else "No response generated.").
Proof. destruct b; split; reflexivity. Qed.

(** X8. The string that [process_query] returns is never empty and has
    no leading or trailing white space, so the chat shows it as it is:
    the replacement text of app.py, lines 210-211, is never used. *)
Theorem X8_answer_is_shown_as_returned tools user_input h cbs
    (st : State Value World LLM Obs) :
  let answer :=
    fst (process_query llm_invoke cb system_prompt tools user_input h cbs st)
  in
  answer <> EmptyString /\ trimmed answer /\ shown_response answer = answer.
Proof.
  intros answer. subst answer.
  destruct (process_query llm_invoke cb system_prompt tools user_input h cbs
              st) as [answer st'] eqn:E.
  apply process_query_spec in E
    as [ext [new [_ [_ [_ [_ [_ [_ [_ [R _]]]]]]]]]].
  simpl.
  assert (N : answer <> EmptyString)
    by (rewrite R; apply fallback_nonempty).
  assert (T : trimmed answer).
  { rewrite R. apply trimmed_or_else.
    - unfold extract_response_text, content_text. apply strip_trimmed.
    - apply trimmed_or_else; [|apply fixed_strings_trimmed].
      apply last_nonempty_trimmed; [split; exact I|].
      apply turn_texts_trimmed. }
  split; [exact N|]. split; [exact T|].
  unfold shown_response. rewrite (trimmed_strip _ T).
  destruct answer; [contradiction | reflexivity].
Qed.

End AnswerFacts.

(* ================================================================== *)
(** ** What the observer is told *)
(* ================================================================== *)

Section TranscriptFacts.

Import Transcript.

Context {World LLM : Type}.
Variable llm_invoke : list (Message string) -> LLM -> Response string * LLM.
Variable system_prompt : string.

Local Abbreviation RSt := (State string World LLM (list Event)).
Implicit Types (tc : ToolCall string) (tools : list (Tool string World))
  (r : Response string).




Lemma reported_refl (st : RSt) : reported st st.
Proof. intros H. repeat split; auto. Qed.

Lemma reported_trans (st1 st2 st3 : RSt) :
  reported st1 st2 -> reported st2 st3 -> reported st1 st3.
Proof.
  intros H1 H2 C. destruct (H1 C) as [C2 [A [B [D [E [F G]]]]]].
  destruct (H2 C2) as [C3 [A' [B' [D' [E' [F' G']]]]]].
  split; [exact C3|]. repeat split; lia.
Qed.

Ltac tally :=
  unfold transcript; simpl;
  unfold count_events, count_calls, llm_calls, spoken;
  rewrite ?filter_app, ?length_app; simpl.

Lemma execute_tool_call_reported tools tc a (st : RSt) :
  reported st (snd (_execute_tool_call recorder tools tc a st)).
Proof.
  intros C. destruct st as [w l p m [o|] k]; [clear C | contradiction].
  destruct (gated a tc) eqn:G.
  - unfold gated in G. apply andb_prop in G as [R A].
    apply negb_true_iff in A. subst a.
    rewrite (execute_blocked recorder tools tc _ R).
    split; [discriminate|]. tally. repeat split; lia.
  - destruct (_find_tool tools (tc_name tc)) as [t|] eqn:F.
    + destruct (invoke t (tc_args tc) w) as [out w'] eqn:I.
      rewrite (execute_found recorder tools tc a
                 (mkState w l p m (Some o) k) t out w' G F I).
      split; [discriminate|]. tally. repeat split; lia.
    + rewrite (execute_not_found recorder tools tc a _ G F).
      split; [discriminate|]. tally. repeat split; lia.
Qed.

Lemma execute_tool_calls_reported tools tcs a :
  forall st : RSt,
    reported st (snd (execute_tool_calls recorder tools tcs a st)).
Proof.
  induction tcs as [|tc rest IH]; intros st; [apply reported_refl|].
  rewrite execute_tool_calls_cons.
  pose proof (execute_tool_call_reported tools tc a st) as H1.
  destruct (_execute_tool_call recorder tools tc a st) as [m st1].
  pose proof (IH st1) as H2.
  destruct (execute_tool_calls recorder tools rest a st1) as [ms st2].
  simpl in *. eapply reported_trans; eassumption.
Qed.

Lemma spoken_turn (msgs results : list (Message string)) (c : Content)
    (tcs : list (ToolCall string)) :
  turn_texts results = [] ->
  spoken (msgs ++ AIMessage c tcs :: results)
  = spoken msgs + (if truthy (content_text c) then 1 else 0).
Proof.
  intros Q. unfold spoken.
  change (AIMessage c tcs :: results) with ([AIMessage c tcs] ++ results).
  rewrite !turn_texts_app, Q, !filter_app, !length_app.
  unfold turn_texts at 2. simpl.
  destruct (truthy (content_text c)); simpl; lia.
Qed.

Lemma loop_body_reported tools r last a (st : RSt) :
  reported st (snd (loop_body llm_invoke recorder tools r last a st)).
Proof.
  destruct (loop_body llm_invoke recorder tools r last a st)
    as [[r' last'] st'] eqn:E.
  pose proof E as E'.
  apply loop_body_spec in E'
    as [_ [_ [results [new [A [_ [_ [_ [_ [_ R]]]]]]]]]].
  destruct (results_not_turns _ _ _ _ A) as [_ [Q2 _]].
  unfold loop_body in E. unfold bind at 1 in E.
  intros C. destruct st as [w l p m [o|] k]; [clear C | contradiction].
  set (text := extract_response_text r) in *.
  assert (E0 : report_reasoning recorder text (mkState w l p m (Some o) k)
               = (tt, mkState w l p m
                        (Some (if truthy text
                               then o ++ [Reasoning text] else o)) k)).
  { unfold report_reasoning. destruct (truthy text); reflexivity. }
  rewrite E0 in *. simpl in R. unfold bind at 1 in E.
  pose proof (execute_tool_calls_reported tools (tool_calls r) a
                (mkState w l p m
                   (Some (if truthy text then o ++ [Reasoning text] else o))
                   k)) as H.
  pose proof (execute_tool_calls_spec recorder tools (tool_calls r) a
                (mkState w l p m
                   (Some (if truthy text then o ++ [Reasoning text] else o))
                   k)) as S.
  destruct (execute_tool_calls recorder tools (tool_calls r) a
              (mkState w l p m
                 (Some (if truthy text then o ++ [Reasoning text] else o))
                 k)) as [results' st1].
  simpl in H, R. subst results'.
  destruct (S _ _ eq_refl) as [_ [M1 _]]. clear S.
  destruct (H ltac:(discriminate)) as [C1 [HA [HB [HD [HE [HF HG]]]]]].
  clear H.
  destruct st1 as [w1 l1 p1 m1 [o1|] k1]; [|now contradiction C1].
  simpl in M1. subst m1.
  revert E.
  cbv beta iota delta [bind ret notify invoke_llm
                         set_calls set_llm set_messages set_callbacks
                         world llm pending_actions messages callbacks calls].
  destruct (llm_invoke (m ++ AIMessage (content r) (tool_calls r) :: results)
              l1) as [r1 l2].
  intros E. injection E as _ _ <-.
  split; [discriminate|].
  unfold transcript in *.
  cbv beta iota delta [fst snd callbacks calls pending_actions messages
                         option_map] in *.
  rewrite (spoken_turn _ _ _ _ Q2).
  fold (extract_response_text r). fold text.
  clear E0 A Q2. revert HA HB HD HE HF HG.
  destruct (truthy text) eqn:T; tally; rewrite ?T; simpl;
    intros; repeat split; lia.
Qed.

Lemma tool_loop_from_reported tools a n :
  forall r last (st : RSt),
    reported st
      (snd (tool_loop_from llm_invoke recorder n tools r last a st)).
Proof.
  induction n as [|n IH]; intros r last st; simpl; [apply reported_refl|].
  destruct (tool_calls r); [apply reported_refl|].
  unfold bind.
  pose proof (loop_body_reported tools r last a st) as H.
  destruct (loop_body llm_invoke recorder tools r last a st) as [next st1].
  simpl in H. eapply reported_trans; [exact H | apply IH].
Qed.

(** What a recording observer is told during a cycle. *)
Lemma cycle_reported tools user_input h (o : list Event) (st : RSt) :
  let out :=
    process_query llm_invoke recorder system_prompt tools user_input h
      (Some o) st in
  let conv := format_messages system_prompt (or_empty h) user_input in
  exists ext new o',
    messages (snd out) = conv ++ ext /\
    calls (snd out) = calls st ++ new /\
    callbacks (snd out) = Some o' /\
    count_events is_thinking o'
    = count_events is_thinking o + llm_calls new /\
    count_events is_tool_start o'
    = count_events is_tool_start o + count_calls is_find_call new /\
    count_events is_tool_end o'
    = count_events is_tool_end o + count_calls is_invoke_call new /\
    count_events is_approval_skipped o'
    = count_events is_approval_skipped o
      + length (pending_actions (snd out)) /\
    count_events is_reasoning o'
    = count_events is_reasoning o + spoken ext /\
    count_events is_empty_reasoning o'
    = count_events is_empty_reasoning o.
Proof.
  intros out conv. subst out. rewrite process_query_unfold.
  cbv zeta. fold conv.
  set (r0 := fst (llm_invoke conv (llm st))).
  set (l0 := snd (llm_invoke conv (llm st))).
  clearbody r0 l0 conv.
  set (st2 := mkState (world st) l0 [] conv
                (option_map (on_thinking recorder) (Some o))
                (calls st ++ [CallIsConfirmation user_input;
                              CallLLM conv r0])).
  unfold _tool_loop.
  pose proof (tool_loop_from_reported tools (is_confirmation user_input)
                MAX_ITERATIONS r0 EmptyString st2) as H.
  destruct (tool_loop_from llm_invoke recorder MAX_ITERATIONS tools r0
              EmptyString (is_confirmation user_input) st2)
    as [answer st'] eqn:E.
  apply tool_loop_from_spec in E as [ext [new [M [_ [_ [K _]]]]]].
  destruct (H ltac:(discriminate)) as [C [HA [HB [HD [HE [HF HG]]]]]].
  clear H.
  subst st2. unfold transcript in *.
  cbn [fst snd messages calls pending_actions callbacks option_map
         on_thinking recorder] in *.
  destruct (callbacks st') as [o'|] eqn:C'; [|contradiction].
  exists ext, ([CallIsConfirmation user_input; CallLLM conv r0] ++ new), o'.
  rewrite M, K in *.
  assert (SP : spoken (conv ++ ext) = spoken conv + spoken ext).
  { unfold spoken. now rewrite turn_texts_app, filter_app, length_app. }
  rewrite SP in HF. clear SP M.
  split; [reflexivity|]. split; [now rewrite <- app_assoc|].
  split; [reflexivity|]. clear K C C'. revert HA HB HD HE HF HG.
  tally. intros. repeat split; lia.
Qed.

(** X9. What a recording observer is told during a cycle, on top of
    what it held before: [on_thinking] once per model invocation,
    [on_tool_start] once per request that passed the approval test
    (found or not), [on_tool_end] once per tool invocation,
    [on_approval_skipped] once per pending action, and [on_reasoning]
    once per model turn with text that the loop processed, never with
    an empty text. *)
Theorem X9_observer_is_told_everything_once tools user_input h
    (o : list Event) (st : RSt) :
  let out :=
    process_query llm_invoke recorder system_prompt tools user_input h
      (Some o) st in
  let conv := format_messages system_prompt (or_empty h) user_input in
  exists ext new o',
    messages (snd out) = conv ++ ext /\
    calls (snd out) = calls st ++ new /\
    callbacks (snd out) = Some o' /\
    count_events is_thinking o'
    = count_events is_thinking o + llm_calls new /\
    count_events is_tool_start o'
    = count_events is_tool_start o + count_calls is_find_call new /\
    count_events is_tool_end o'
    = count_events is_tool_end o + count_calls is_invoke_call new /\
    count_events is_approval_skipped o'
    = count_events is_approval_skipped o
      + length (pending_actions (snd out)) /\
    count_events is_reasoning o'
    = count_events is_reasoning o + spoken ext /\
    count_events is_empty_reasoning o'
    = count_events is_empty_reasoning o.
Proof. apply cycle_reported. Qed.

End TranscriptFacts.

(* ================================================================== *)
(** ** Any observer against the recording observer *)
(* ================================================================== *)

Section ReplayFacts.

Import Transcript.

Context {World LLM Obs : Type}.
Variable llm_invoke : list (Message string) -> LLM -> Response string * LLM.
Variable cb : Observer string Obs.
Variable system_prompt : string.
Variable o0 : Obs.

Local Abbreviation St1 := (State string World LLM Obs).
Local Abbreviation St2 := (State string World LLM (list Event)).
Implicit Types (tc : ToolCall string) (tools : list (Tool string World))
  (r : Response string).

Lemma replay_snoc (t : list Event) (e : Event) :
  replay cb (t ++ [e]) o0 = tell cb e (replay cb t o0).
Proof. unfold replay. now rewrite fold_left_app. Qed.

Ltac open_mirrored st1 st2 H :=
  let A := fresh "A" in let t := fresh "t" in
  let C2 := fresh "C" in let C1 := fresh "C" in
  destruct H as [A [t [C2 C1]]];
  destruct st1 as [w1 l1 p1 m1 c1 k1]; destruct st2 as [w2 l2 p2 m2 c2 k2];
  destruct A as [? [? [? [? ?]]]]; simpl in *; subst.

Lemma mirror_bind {A B : Type}
    (m1 : M string World LLM Obs A) (m2 : M string World LLM (list Event) A)
    (k1 : A -> M string World LLM Obs B)
    (k2 : A -> M string World LLM (list Event) B) :
  mirror cb o0 m1 m2 -> (forall x, mirror cb o0 (k1 x) (k2 x)) ->
  mirror cb o0 (bind m1 k1) (bind m2 k2).
Proof.
  intros Hm Hk st1 st2 H. unfold bind.
  destruct (Hm st1 st2 H) as [E A'].
  destruct (m1 st1) as [x1 s1]. destruct (m2 st2) as [x2 s2].
  simpl in E, A'. subst x2. now apply Hk.
Qed.

Lemma mirror_ret {A : Type} (x : A) :
  mirror cb o0 (ret (World:=World) (LLM:=LLM) x) (ret x).
Proof. intros st1 st2 H. now split. Qed.

Lemma mirror_notify (f : Obs -> Obs) (e : Event) :
  (forall o, tell cb e o = f o) ->
  mirror cb o0 (notify (World:=World) (LLM:=LLM) f)
    (notify (fun t => t ++ [e])).
Proof.
  intros T st1 st2 H. open_mirrored st1 st2 H.
  split; [reflexivity|]. split; [unfold agree; simpl; now repeat split|].
  exists (t ++ [e]). simpl. split; [reflexivity|].
  now rewrite replay_snoc, T.
Qed.

Lemma mirror_log (c : Call string) :
  mirror cb o0 (log (World:=World) (LLM:=LLM) c) (log c).
Proof.
  intros st1 st2 H. open_mirrored st1 st2 H.
  split; [reflexivity|]. split; [unfold agree; simpl; now repeat split|].
  now exists t.
Qed.

Lemma mirror_invoke_llm :
  mirror cb o0 (invoke_llm (World:=World) llm_invoke) (invoke_llm llm_invoke).
Proof.
  intros st1 st2 H. open_mirrored st1 st2 H. unfold invoke_llm. simpl.
  destruct (llm_invoke m2 l2). simpl.
  split; [reflexivity|]. split; [unfold agree; simpl; now repeat split|].
  now exists t.
Qed.

Lemma mirror_invoke_tool (t : Tool string World) (args : Args string) :
  mirror cb o0 (invoke_tool (LLM:=LLM) t args) (invoke_tool t args).
Proof.
  intros st1 st2 H. open_mirrored st1 st2 H. unfold invoke_tool. simpl.
  destruct (invoke t args w2). simpl.
  split; [reflexivity|]. split; [unfold agree; simpl; now repeat split|].
  now exists t0.
Qed.

Lemma mirror_execute_tool_call tools tc a :
  mirror cb o0 (LLM:=LLM) (_execute_tool_call cb tools tc a)
    (_execute_tool_call recorder tools tc a).
Proof.
  unfold _execute_tool_call.
  apply mirror_bind; [apply mirror_log | intros _].
  destruct (requires_approval (tc_name tc) && negb a).
  - apply mirror_bind; [|intros _].
    + intros st1 st2 H. open_mirrored st1 st2 H.
      split; [reflexivity|].
      split; [unfold agree; simpl; now repeat split|]. now exists t.
    + apply mirror_bind; [|intros _; apply mirror_ret].
      now apply (mirror_notify _
                   (ApprovalSkipped (tc_name tc) (tc_args tc))).
  - apply mirror_bind; [|intros _].
    { now apply (mirror_notify _ (ToolStart (tc_name tc) (tc_args tc))). }
    apply mirror_bind; [apply mirror_log | intros _].
    destruct (_find_tool tools (tc_name tc)) as [t|]; [|apply mirror_ret].
    apply mirror_bind; [apply mirror_invoke_tool | intros [result|e]].
    + apply mirror_bind; [|intros _; apply mirror_ret].
      now apply (mirror_notify _ (ToolEnd (tc_name tc) result true)).
    + apply mirror_bind; [|intros _; apply mirror_ret].
      now apply (mirror_notify _ (ToolEnd (tc_name tc) e false)).
Qed.

Lemma mirror_execute_tool_calls tools tcs a :
  mirror cb o0 (LLM:=LLM) (execute_tool_calls cb tools tcs a)
    (execute_tool_calls recorder tools tcs a).
Proof.
  induction tcs as [|tc rest IH]; simpl; [apply mirror_ret|].
  apply mirror_bind; [apply mirror_execute_tool_call | intros m].
  apply mirror_bind; [exact IH | intros ms; apply mirror_ret].
Qed.

Lemma mirror_loop_body tools r last a :
  mirror cb o0 (loop_body llm_invoke cb tools r last a)
    (loop_body llm_invoke recorder tools r last a).
Proof.
  unfold loop_body.
  apply mirror_bind; [|intros _].
  { unfold report_reasoning.
    destruct (truthy (extract_response_text r)); [|apply mirror_ret].
    now apply (mirror_notify _ (Reasoning (extract_response_text r))). }
  apply mirror_bind; [apply mirror_execute_tool_calls | intros results].
  apply mirror_bind; [|intros _].
  - intros st1 st2 H. open_mirrored st1 st2 H.
    split; [reflexivity|].
    split; [unfold agree; simpl; now repeat split|]. now exists t.
  - apply mirror_bind; [now apply (mirror_notify _ Thinking) | intros _].
    apply mirror_bind; [apply mirror_invoke_llm | intros r'; apply mirror_ret].
Qed.

Lemma mirror_tool_loop_from tools a n :
  forall r last,
    mirror cb o0 (tool_loop_from llm_invoke cb n tools r last a)
      (tool_loop_from llm_invoke recorder n tools r last a).
Proof.
  induction n as [|n IH]; intros r last; simpl; [apply mirror_ret|].
  destruct (tool_calls r); [apply mirror_ret|].
  apply mirror_bind; [apply mirror_loop_body | intros next; apply IH].
Qed.

(** A cycle observed by [cb] from [o0], against the same cycle observed
    by the recording observer from an empty transcript. *)
Lemma process_query_mirrored tools user_input h (st1 : St1) (st2 : St2) :
  agree st1 st2 ->
  let observed :=
    process_query llm_invoke cb system_prompt tools user_input h
      (Some o0) st1 in
  let recorded :=
    process_query llm_invoke recorder system_prompt tools user_input h
      (Some []) st2 in
  fst observed = fst recorded /\
  mirrored cb o0 (snd observed) (snd recorded).
Proof.
  intros A observed recorded. subst observed recorded.
  rewrite !process_query_unfold. cbv zeta. unfold _tool_loop.
  destruct A as [W [L [P [M K]]]]. rewrite L, K, W.
  apply mirror_tool_loop_from. split.
  - unfold agree. simpl. now repeat split.
  - exists [Thinking]. simpl. split; reflexivity.
Qed.

End ReplayFacts.

Section ReplayOfRaising.

Import Transcript.

Context {World LLM Obs : Type}.
Variable llm_invoke : list (Message string) -> LLM -> Response string * LLM.
Variable cb : Raising.Observer string Obs.
Variable system_prompt : string.



End ReplayOfRaising.


(* ================================================================== *)
(** ** The chat application *)
(* ================================================================== *)

Section AppFacts.

Import Transcript App.

Context {World LLM : Type}.
Variable llm_invoke : list (Message string) -> LLM -> Response string * LLM.
Variable system_prompt : string.

Implicit Types (tools : list (Tool string World)).

Lemma tool_count_replay (t : list Event) :
  forall p,
    tool_count (replay streamlit_progress t p)
    = tool_count p + count_events is_tool_start t.
Proof.
  unfold replay, count_events.
  induction t as [|e t IH]; intros p; simpl; [lia|].
  rewrite IH. destruct e; simpl; try lia.
  unfold progress_on_reasoning. destruct (truthy text); simpl; lia.
Qed.

Lemma steps_replay (t : list Event) :
  forall p,
    length (steps (replay streamlit_progress t p))
    + count_events is_empty_reasoning t
    = length (steps p) + count_events is_reasoning t
      + count_events is_tool_end t + count_events is_approval_skipped t.
Proof.
  unfold replay, count_events.
  induction t as [|e t IH]; intros p; simpl; [lia|].
  specialize (IH (tell streamlit_progress e p)).
  destruct e; simpl in *; try rewrite length_app in IH; simpl in IH;
    try lia.
  unfold progress_on_reasoning in *.
  destruct (truthy text); simpl in *;
    try rewrite length_app in IH; simpl in IH; lia.
Qed.

(** X11. After a cycle run from the chat with a fresh StreamlitProgress,
    its [tool_count] is the number of requests that passed the approval
    test and were looked up - requests left pending are not counted,
    requests for unknown tools are - and it holds one step per model
    turn with text, per tool invocation and per pending action;
    [complete] then shows "Done" when the count is zero and the count
    with "tool" or "tools" otherwise. *)
Theorem X11_progress_after_a_cycle tools user_input h
    (st : State string World LLM Progress) :
  let out :=
    process_query llm_invoke streamlit_progress system_prompt tools
      user_input h (Some new_progress) st in
  let conv := format_messages system_prompt (or_empty h) user_input in
  exists ext new p,
    messages (snd out) = conv ++ ext /\
    calls (snd out) = calls st ++ new /\
    callbacks (snd out) = Some p /\
    tool_count p = count_calls is_find_call new /\
    length (steps p)
    = spoken ext + count_calls is_invoke_call new
      + length (pending_actions (snd out)) /\
    status (complete p)
    = status p
        ++ [StatusUpdate
              (match count_calls is_find_call new with
               | 0 => "Done"
               | n =>
                   "Done " +++ em_dash +++ " " +++ str_of_nat n +++ " tool"
                   +++ (if negb (n =? 1) then "s" else "") +++ " used"
               end)
              "complete" (Some false)].
Proof.
  intros out conv.
  set (st2 := mkState (world st) (llm st) (pending_actions st) (messages st)
                (@None (list Event)) (calls st)).
  destruct (process_query_mirrored llm_invoke streamlit_progress
              system_prompt new_progress tools user_input h st st2)
    as [_ [A [t [C2 C1]]]].
  { unfold agree. simpl. now repeat split. }
  fold out in A, C1.
  destruct (cycle_reported llm_invoke system_prompt tools user_input h [] st2)
    as [ext [new [o' [M [K [C [_ [HB [HD [HE [HF HG]]]]]]]]]]].
  fold conv in M. rewrite C2 in C. injection C as <-.
  destruct A as [_ [_ [AP [AM AK]]]].
  exists ext, new, (replay streamlit_progress t new_progress).
  assert (TC : tool_count (replay streamlit_progress t new_progress)
               = count_calls is_find_call new).
  { rewrite tool_count_replay, HB. reflexivity. }
  repeat split.
  - now rewrite AM.
  - now rewrite AK.
  - exact C1.
  - exact TC.
  - pose proof (steps_replay t new_progress) as S.
    rewrite HG, HF, HD, HE in S. rewrite AP. simpl in S.
    unfold count_events in S. simpl in S. lia.
  - unfold complete. rewrite TC.
    now destruct (count_calls is_find_call new).
Qed.

(** X12. The one-line summaries of tool results.  A tool without a
    branch of its own in [_summarize_result] is summarized by the first
    80 characters of its result; the summary of every tool other than
    list_log_files and search_logs has at most 80 characters. *)
Theorem X12_summaries_are_short (tool_name result : string) :
  (get TOOL_LABELS tool_name tool_name = tool_name ->
   _summarize_result tool_name result = take 80 result) /\
  (tool_name <> "list_log_files" -> tool_name <> "search_logs" ->
   String.length (_summarize_result tool_name result) <= 80).
Proof.
  assert (T : forall n s, String.length (take n s) <= n).
  { induction n as [|n IH]; intros [|c s]; simpl; try lia.
    specialize (IH s). lia. }
  split.
  - intros G. unfold _summarize_result.
    destruct (String.eqb tool_name "list_log_files") eqn:E1;
      [apply String.eqb_eq in E1; subst; discriminate|].
    destruct (String.eqb tool_name "read_log_file") eqn:E2;
      [apply String.eqb_eq in E2; subst; discriminate|].
    destruct (String.eqb tool_name "search_logs") eqn:E3;
      [apply String.eqb_eq in E3; subst; discriminate|].
    destruct (String.eqb tool_name "send_slack_notification") eqn:E4;
      [apply String.eqb_eq in E4; subst; discriminate|].
    destruct (in_set tool_name
                ["reboot_rds_instance"; "restart_kubernetes_pod"]) eqn:E5;
      [|reflexivity].
    apply in_set_In in E5. simpl in E5.
    destruct E5 as [<-|[<-|[]]]; discriminate.
  - intros N1 N2. unfold _summarize_result.
    apply String.eqb_neq in N1, N2. rewrite N1, N2.
    destruct (String.eqb tool_name "read_log_file"); [simpl; lia|].
    destruct (String.eqb tool_name "send_slack_notification"); [simpl; lia|].
    destruct (in_set tool_name
                ["reboot_rds_instance"; "restart_kubernetes_pod"]);
      [simpl; lia | apply T].
Qed.

Lemma removelast_snoc {A : Type} (l : list A) (x : A) :
  removelast (l ++ [x]) = l.
Proof. apply removelast_last. Qed.

Lemma to_langchain_requests (session : list ChatEntry) :
  requested (to_langchain session) = [].
Proof.
  unfold requested, to_langchain.
  induction session as [|e session IH]; [reflexivity|]. simpl.
  destruct (String.eqb (role e) "user"); simpl; exact IH.
Qed.

(** X13. The history that the chat hands to the agent for a prompt is
    the earlier entries of the session, one message per entry in the
    same order - a HumanMessage for the role "user", an AIMessage
    without tool calls for any other role - and does not hold the
    prompt: the first conversation sent to the model is the system
    prompt, that history, then the prompt. *)
Theorem X13_history_handed_to_the_agent tools (session : list ChatEntry)
    (prompt : string) cbs (st : State string World LLM Progress) :
  let history := history_for session prompt in
  history = to_langchain session /\
  length history = length session /\
  requested history = [] /\
  (forall i e,
      nth_error session i = Some e ->
      nth_error history i
      = Some (if String.eqb (role e) "user"
              then HumanMessage (entry_content e)
              else AIMessage (ContentStr (entry_content e)) [])) /\
  exists ext,
    messages
      (snd (process_query llm_invoke streamlit_progress system_prompt tools
              prompt (Some history) cbs st))
    = (SystemMessage system_prompt :: to_langchain session
         ++ [HumanMessage prompt]) ++ ext.
Proof.
  intros history.
  assert (E : history = to_langchain session).
  { subst history. unfold history_for. now rewrite removelast_snoc. }
  rewrite E. split; [reflexivity|]. split.
  { unfold to_langchain. apply length_map. }
  split; [apply to_langchain_requests|].
  split.
  { intros i e H. unfold to_langchain. rewrite nth_error_map, H.
    reflexivity. }
  destruct (process_query llm_invoke streamlit_progress system_prompt tools
              prompt (Some (to_langchain session)) cbs st)
    as [answer st'] eqn:Q.
  apply process_query_spec in Q as [ext [new [M _]]].
  assert (O : or_empty (Some (to_langchain session)) = to_langchain session)
    by (unfold or_empty; now destruct (to_langchain session)).
  exists ext. simpl. rewrite M. unfold format_messages. now rewrite O.
Qed.

End AppFacts.

Lemma X12_witness :
  App.get App.TOOL_LABELS "rollback" "rollback" = "rollback" /\
  "rollback" <> "list_log_files" /\ "rollback" <> "search_logs" /\
  App._summarize_result "rollback" "deployment rolled back"
  = "deployment rolled back".
Proof.
  assert (G : App.get App.TOOL_LABELS "rollback" "rollback" = "rollback")
    by reflexivity.
  split; [exact G|]. split; [discriminate|]. split; [discriminate|].
  rewrite (proj1 (X12_summaries_are_short "rollback"
                    "deployment rolled back") G).
  reflexivity.
Defined.

Lemma X13_witness :
  nth_error [App.mkChatEntry "user" "hello" None] 0
  = Some (App.mkChatEntry "user" "hello" None) /\
  nth_error (App.history_for [App.mkChatEntry "user" "hello" None] "again") 0
  = Some (HumanMessage "hello").
Proof.
  assert (H : nth_error [App.mkChatEntry "user" "hello" None] 0
              = Some (App.mkChatEntry "user" "hello" None)) by reflexivity.
  split; [exact H|].
  destruct (X13_history_handed_to_the_agent (Scenario.scripted []) "SYSTEM"
              (get_all_tools Scenario.bodies)
              [App.mkChatEntry "user" "hello" None] "again" None
              (mkState [] 0 [] [] None []))
    as [_ [_ [_ [N _]]]].
  exact (N 0 _ H).
Defined.

(* ================================================================== *)
(** ** The Slack notification (tools/slack_notifier.py) *)
(* ================================================================== *)

Section SlackFacts.

Import Env Slack.

Lemma tag_of_unknown_severity (severity : string) :
  in_set severity ["P1"; "P2"; "P3"; "info"] = false ->
  App.get severity_tags severity "[UNKNOWN]" = "[UNKNOWN]".
Proof.
  unfold in_set, severity_tags. cbn [existsb App.get]. intro H.
  apply Bool.orb_false_iff in H as [H1 H].
  apply Bool.orb_false_iff in H as [H2 H].
  apply Bool.orb_false_iff in H as [H3 H].
  apply Bool.orb_false_iff in H as [H4 _].
  rewrite (String.eqb_sym "P1"), H1, (String.eqb_sym "P2"), H2,
    (String.eqb_sym "P3"), H3, (String.eqb_sym "info"), H4.
  reflexivity.
Qed.

(** X14 - [_build_slack_payload]: the message goes to the channel
    given; its blocks are one header, then sections, then one context
    block, the sections being the severity and summary, the details and
    the actions taken, the last two only when the text is not empty; a
    severity other than P1, P2, P3 and info, in that letter case, is
    tagged [UNKNOWN]. *)
Theorem X14_slack_payload_shape
    (channel summary severity details actions_taken : string) :
  let p :=
    _build_slack_payload channel summary severity details actions_taken in
  Slack.channel p = channel /\
  (exists title sections,
      blocks p
      = HeaderBlock title :: sections
        ++ [ContextBlock ["Sent by AI Logging Agent | DevOps Automation"]]
      /\ forallb is_section sections = true
      /\ List.length sections
         = 1 + (if truthy details then 1 else 0)
           + (if truthy actions_taken then 1 else 0)) /\
  (In (SectionBlock ("*Details:*" +++ newline +++ details)) (blocks p)
   <-> details <> "") /\
  (In (SectionBlock ("*Actions Taken:*" +++ newline +++ actions_taken))
      (blocks p)
   <-> actions_taken <> "") /\
  (in_set severity ["P1"; "P2"; "P3"; "info"] = false ->
   text p = "[UNKNOWN] " +++ severity +++ ": " +++ summary).
Proof.
  unfold _build_slack_payload. cbv zeta.
  set (tag := App.get severity_tags severity "[UNKNOWN]").
  split; [reflexivity|].
  split.
  { exists (tag +++ " " +++ severity +++ " Incident: " +++ summary).
    exists ([SectionBlock ("*Severity:* " +++ severity +++ newline
                           +++ "*Summary:* " +++ summary)]
            ++ (if truthy details
                then [SectionBlock ("*Details:*" +++ newline +++ details)]
                else [])
            ++ (if truthy actions_taken
                then [SectionBlock ("*Actions Taken:*" +++ newline
                                    +++ actions_taken)]
                else [])).
    destruct details, actions_taken; cbn [truthy blocks app];
      repeat split; reflexivity. }
  split.
  { destruct details, actions_taken; cbn [truthy blocks app In]; split;
      intro H; try discriminate; try (exfalso; now apply H);
      repeat (destruct H as [H|H]; try discriminate H); auto. }
  split.
  { destruct details, actions_taken; cbn [truthy blocks app In]; split;
      intro H; try discriminate; try (exfalso; now apply H);
      repeat (destruct H as [H|H]; try discriminate H); auto 6. }
  intro U. cbn [text]. subst tag. now rewrite (tag_of_unknown_severity _ U).
Qed.

(** X15 - [send_slack_notification]: without a webhook URL in the
    environment nothing is posted and the answer is marked as simulated;
    otherwise exactly one request is made, to that URL, carrying the
    payload built from the arguments; and the answer says that the
    notification was sent, unmarked, only when the webhook answered
    with status 200. *)
Theorem X15_slack_posts_only_to_the_webhook
    (env : Env) (urlopen : HttpPost -> HttpOutcome)
    (channel summary severity details actions_taken : string) :
  let payload :=
    _build_slack_payload channel summary severity details actions_taken in
  let out :=
    send_slack_notification env urlopen channel summary severity details
      actions_taken in
  (_is_slack_configured env = false ->
   snd out = [] /\ String.prefix "[SIMULATED] " (fst out) = true) /\
  (_is_slack_configured env = true ->
   exists u, env "SLACK_WEBHOOK_URL" = Some u /\ u <> "" /\
             snd out = [mkHttpPost (Some u) payload]) /\
  (String.prefix "Slack notification sent" (fst out) = true ->
   exists req, snd out = [req] /\ urlopen req = HttpResponse 200).
Proof.
  unfold send_slack_notification, _is_slack_configured, is_set. cbv zeta.
  split; [|split].
  - intro C. rewrite C. split; reflexivity.
  - intro C. rewrite C.
    destruct (env "SLACK_WEBHOOK_URL") as [u|] eqn:E; [|discriminate].
    exists u. split; [reflexivity|]. split.
    + intro Z. subst u. discriminate.
    + unfold _send_slack_real. rewrite E.
      destruct (urlopen _) as [status| |]; [destruct (status =? 200)| |];
        reflexivity.
  - destruct (match env "SLACK_WEBHOOK_URL" with
              | Some v => truthy v | None => false end).
    + unfold _send_slack_real.
      destruct (urlopen _) as [status| |] eqn:U; simpl; try discriminate.
      destruct (status =? 200) eqn:S; simpl; try discriminate.
      intros _. eexists. split; [reflexivity|].
      rewrite U. f_equal. now apply Nat.eqb_eq.
    + simpl. discriminate.
Qed.

End SlackFacts.

Lemma X14_witness :
  in_set "p1" ["P1"; "P2"; "P3"; "info"] = false /\
  Slack.text (Slack._build_slack_payload "#ops" "db down" "p1" "" "")
  = "[UNKNOWN] p1: db down".
Proof.
  assert (U : in_set "p1" ["P1"; "P2"; "P3"; "info"] = false) by reflexivity.
  split; [exact U|].
  exact (proj2 (proj2 (proj2 (proj2
           (X14_slack_payload_shape "#ops" "db down" "p1" "" ""))))
           U).
Defined.

Lemma X15_witness :
  Slack._is_slack_configured (fun _ => None) = false /\
  snd (Slack.send_slack_notification (fun _ => None)
         (fun _ => Slack.HttpResponse 200) "#ops" "db down" "P1" "" "")
  = [].
Proof.
  assert (C : Slack._is_slack_configured (fun _ => None) = false)
    by reflexivity.
  split; [exact C|].
  exact (proj1 (proj1 (X15_slack_posts_only_to_the_webhook
                         (fun _ => None) (fun _ => Slack.HttpResponse 200)
                         "#ops" "db down" "P1" "" "") C)).
Defined.

(* ================================================================== *)
(** ** The RDS reboot (tools/aws_actions.py) *)
(* ================================================================== *)

Section AwsFacts.

Import Env Aws.

Variable Cloud : Type.

Lemma handle_is_no_success (e : AwsError) :
  String.prefix "Successfully initiated" (handle e) = false.
Proof. destruct e; reflexivity. Qed.

(** X16 - [reboot_rds_instance]: the reboot is requested at most once,
    after the instance was described, and only when AWS credentials are
    in the environment, boto3 is there and the first instance described
    has the status available, written so; in every other case the cloud
    is left as it was.  Without credentials no call is made at all and
    the answer is marked as simulated.  An answer that starts with
    "Successfully initiated" comes from a reboot call that raised
    nothing. *)
Theorem X16_reboot_only_when_available
    (env : Env) (boto3 : Boto3 Cloud) (db_instance_id reason : string)
    (cloud : Cloud) :
  let region := getenv_default env "AWS_REGION" "us-east-1" in
  let describe := DescribeDbInstances region db_instance_id in
  let reboot := RebootDbInstance region db_instance_id in
  let out := reboot_rds_instance env boto3 db_instance_id reason cloud in
  let result := fst (fst out) in
  let calls := snd (fst out) in
  (calls = [] \/ calls = [describe] \/ calls = [describe; reboot]) /\
  (calls = [describe; reboot] ->
   _is_aws_configured env = true /\ installed boto3 = true /\
   (exists others,
       describe_db_instances boto3 region db_instance_id cloud
       = inl ("available" :: others)) /\
   snd out = snd (reboot_db_instance boto3 region db_instance_id cloud)) /\
  (calls <> [describe; reboot] -> snd out = cloud) /\
  (_is_aws_configured env = false ->
   calls = [] /\ String.prefix "[SIMULATED] " result = true) /\
  (String.prefix "Successfully initiated" result = true ->
   calls = [describe; reboot] /\
   fst (reboot_db_instance boto3 region db_instance_id cloud) = None).
Proof.
  cbv zeta. unfold reboot_rds_instance.
  destruct (_is_aws_configured env) eqn:C.
  2:{ unfold _reboot_rds_placeholder. cbn [fst snd].
      repeat split; auto; try discriminate. }
  unfold _reboot_rds_real.
  set (region := getenv_default env "AWS_REGION" "us-east-1").
  destruct (installed boto3) eqn:I; cbn [negb fst snd].
  2:{ repeat split; auto; try discriminate. }
  destruct (client boto3 region) as [e|]; cbn [fst snd].
  { rewrite handle_is_no_success. repeat split; auto; try discriminate. }
  destruct (describe_db_instances boto3 region db_instance_id cloud)
    as [[|status others]|e] eqn:D; cbn [fst snd].
  - repeat split; auto; try discriminate.
  - destruct (String.eqb status "available") eqn:A; cbn [negb fst snd app].
    + apply String.eqb_eq in A. subst status.
      destruct (reboot_db_instance boto3 region db_instance_id cloud)
        as [[e|] cloud'] eqn:R; cbn [fst snd].
      * rewrite handle_is_no_success.
        repeat split; eauto; try discriminate.
        intro N. now contradiction N.
      * repeat split; eauto; try discriminate.
        intro N. now contradiction N.
    + repeat split; auto; try discriminate.
  - destruct e as [|code message|text]; cbn [fst snd];
      [| destruct (String.eqb code "DBInstanceNotFoundFault"); cbn [fst snd]|];
      repeat split; auto; try discriminate.
Qed.

End AwsFacts.

Lemma X16_witness :
  snd (fst (Aws.reboot_rds_instance
         (fun name => if String.eqb name "AWS_PROFILE" then Some "ops" else None)
         (Aws.mkBoto3 true (fun _ => None)
            (fun _ _ (_ : nat) => inl ["available"])
            (fun _ _ cloud => (None, S cloud)))
         "orders-db-prod" "too many connections" 0))
  = [Aws.DescribeDbInstances "us-east-1" "orders-db-prod";
     Aws.RebootDbInstance "us-east-1" "orders-db-prod"] /\
  snd (Aws.reboot_rds_instance
         (fun name => if String.eqb name "AWS_PROFILE" then Some "ops" else None)
         (Aws.mkBoto3 true (fun _ => None)
            (fun _ _ (_ : nat) => inl ["available"])
            (fun _ _ cloud => (None, S cloud)))
         "orders-db-prod" "too many connections" 0)
  = 1.
Proof.
  assert (R : snd (fst (Aws.reboot_rds_instance
         (fun name => if String.eqb name "AWS_PROFILE" then Some "ops" else None)
         (Aws.mkBoto3 true (fun _ => None)
            (fun _ _ (_ : nat) => inl ["available"])
            (fun _ _ cloud => (None, S cloud)))
         "orders-db-prod" "too many connections" 0))
              = [Aws.DescribeDbInstances "us-east-1" "orders-db-prod";
                 Aws.RebootDbInstance "us-east-1" "orders-db-prod"])
    by reflexivity.
  split; [exact R|].
  destruct (proj1 (proj2 (X16_reboot_only_when_available nat
                            (fun name => if String.eqb name "AWS_PROFILE" then Some "ops" else None)
                            (Aws.mkBoto3 true (fun _ => None)
            (fun _ _ (_ : nat) => inl ["available"])
            (fun _ _ cloud => (None, S cloud)))
                            "orders-db-prod" "too many connections" 0)) R)
    as [_ [_ [_ W]]].
  exact W.
Defined.

(* ================================================================== *)
(** ** The log tools (tools/log_reader.py) *)
(* ================================================================== *)

Section LogsFacts.

Import PyStrFacts Logs.

Lemma prefix_newline (c : ascii) (s : string) :
  String.prefix newline (String c s) = is_newline c.
Proof.
  unfold newline, is_newline. cbn [String.prefix].
  destruct (ascii_dec (ascii_of_nat 10) c) as [E|N].
  - subst c. now destruct s.
  - symmetry. apply Ascii.eqb_neq. congruence.
Qed.

Lemma count_newline_cons (c : ascii) (s : string) :
  App.count newline (String c s)
  = (if is_newline c then 1 else 0) + App.count newline s.
Proof.
  unfold App.count. cbn [App.count_from]. rewrite prefix_newline.
  now destruct (is_newline c).
Qed.

Lemma readlines_nil (s : string) : readlines s = [] -> s = EmptyString.
Proof.
  destruct s as [|c s]; [reflexivity|]. cbn [readlines].
  destruct (Ascii.eqb c (ascii_of_nat 10)); [discriminate|].
  destruct (readlines s); discriminate.
Qed.

Lemma join_empty_cons (x : string) (r : list string) :
  join EmptyString (x :: r) = x +++ join EmptyString r.
Proof.
  destruct r; cbn [join]; [now rewrite append_nil_r | reflexivity].
Qed.

Lemma readlines_join (s : string) : join EmptyString (readlines s) = s.
Proof.
  induction s as [|c s IH]; [reflexivity|]. cbn [readlines].
  destruct (Ascii.eqb c (ascii_of_nat 10)).
  - rewrite join_empty_cons. cbn. now rewrite IH.
  - destruct (readlines s) as [|l ls] eqn:R.
    + apply readlines_nil in R. now subst s.
    + rewrite join_empty_cons in *. cbn. now rewrite IH.
Qed.

Lemma readlines_length (s : string) :
  List.length (readlines s)
  = App.count newline s
    + (match last_char s with
       | Some c => if is_newline c then 0 else 1
       | None => 0
       end).
Proof.
  induction s as [|c s IH]; [reflexivity|].
  rewrite count_newline_cons. cbn [readlines last_char].
  fold (is_newline c).
  destruct s as [|d s'].
  - cbn. now destruct (is_newline c).
  - remember (String d s') as s eqn:S.
    destruct (is_newline c).
    + cbn [List.length]. rewrite IH. lia.
    + destruct (readlines s) as [|l ls] eqn:R.
      * apply readlines_nil in R. subst s. discriminate.
      * cbn [List.length] in *. rewrite IH. lia.
Qed.

(** X17 - [read_log_file] on a file that can be read: the answer ends
    with the text of the file as it is, and the number it gives after
    "Lines:" is the number of newline characters plus one; that is the
    number of lines [readlines] finds in the file, by which [search_logs]
    numbers them, when the text ends with another character than a
    newline, and one more when the file is empty or its text ends with
    a newline.  The lines of [readlines], put together, are the text. *)
Theorem X17_line_count_of_read_log_file
    (LOG_DIRECTORY : string) (fs : Files) (filename content : string)
    (file_size : nat) :
  read_text fs filename = inl content ->
  getsize fs filename = inl file_size ->
  exists line_count,
    read_log_file LOG_DIRECTORY fs filename
    = "File: " +++ filename +++ newline
      +++ "Size: " +++ App.str_of_nat file_size +++ " bytes" +++ newline
      +++ "Lines: " +++ App.str_of_nat line_count +++ newline
      +++ newline +++ content
    /\ line_count
       = List.length (readlines content)
         + (match last_char content with
            | Some c => if is_newline c then 1 else 0
            | None => 1
            end)
    /\ join EmptyString (readlines content) = content.
Proof.
  intros R G. exists (App.count newline content + 1).
  split; [|split].
  - unfold read_log_file. now rewrite R, G.
  - rewrite readlines_length.
    destruct (last_char content) as [c|]; [destruct (is_newline c)|]; lia.
  - apply readlines_join.
Qed.

(* ------------------------------------------------------------------ *)
(** *** search_logs *)

Lemma enumerate_cons (k : nat) (line : string) (lines : list string) :
  enumerate k (line :: lines) = (k, line) :: enumerate (S k) lines.
Proof. reflexivity. Qed.

Lemma find_matches_enumerate (term : string) (lines : list string) :
  forall k,
    find_matches term k lines
    = map (fun e => match_entry (fst e) (snd e))
        (filter (fun e => matches_term term (snd e)) (enumerate k lines)).
Proof.
  induction lines as [|line lines IH]; intro k; [reflexivity|].
  rewrite enumerate_cons. cbn [find_matches filter snd].
  rewrite IH. now destruct (matches_term term line).
Qed.

Lemma In_enumerate (lines : list string) :
  forall k n line,
    In (n, line) (enumerate k lines)
    <-> k <= n /\ nth_error lines (n - k) = Some line.
Proof.
  induction lines as [|l lines IH]; intros k n line.
  - cbn. split; [tauto|]. intros [_ H]. now destruct (n - k).
  - rewrite enumerate_cons. cbn [In]. rewrite IH. split.
    + intros [E|[L N]].
      * injection E as -> ->. split; [lia|]. now rewrite Nat.sub_diag.
      * split; [lia|]. replace (n - k) with (S (n - S k)) by lia. exact N.
    + intros [L N]. destruct (Nat.eq_dec k n) as [->|D].
      * left. rewrite Nat.sub_diag in N. cbn in N. congruence.
      * right. split; [lia|].
        replace (n - k) with (S (n - S k)) in N by lia. exact N.
Qed.

Lemma prefix_empty (s : string) : String.prefix EmptyString s = true.
Proof. now destruct s. Qed.

Lemma contains_empty (s : string) : App.contains EmptyString s = true.
Proof. destruct s; reflexivity. Qed.

Lemma contains_prefix (a s : string) :
  String.prefix a s = true -> App.contains a s = true.
Proof. intro P. destruct s; cbn [App.contains]; now rewrite P. Qed.

Lemma prefix_lower (a : string) :
  forall s, String.prefix a s = true ->
            String.prefix (lower a) (lower s) = true.
Proof.
  induction a as [|x a IH]; intros s P; [apply prefix_empty|].
  destruct s as [|y s]; [discriminate|]. cbn in P |- *.
  destruct (ascii_dec x y) as [->|]; [|discriminate].
  destruct (ascii_dec (lower_char y) (lower_char y)); [|congruence].
  now apply IH.
Qed.

Lemma contains_lower (a s : string) :
  App.contains a s = true -> App.contains (lower a) (lower s) = true.
Proof.
  induction s as [|c s IH]; cbn [App.contains lower]; intro C.
  - rewrite Bool.orb_false_r in C. apply prefix_lower in C.
    cbn [lower] in C. now rewrite C.
  - apply Bool.orb_true_iff in C as [P|C].
    + apply prefix_lower in P. cbn [lower] in P. now rewrite P.
    + rewrite (IH C). apply Bool.orb_true_r.
Qed.

Lemma filter_all {A : Type} (p : A -> bool) (l : list A) :
  (forall x, p x = true) -> filter p l = l.
Proof.
  intro T. induction l as [|x l IH]; [reflexivity|].
  cbn. now rewrite T, IH.
Qed.

Lemma enumerate_lines (lines : list string) :
  forall k, map snd (enumerate k lines) = lines.
Proof.
  induction lines as [|l lines IH]; intro k; [reflexivity|].
  rewrite enumerate_cons. cbn. now rewrite IH.
Qed.

Lemma hits_ascend (p : nat * string -> bool) (lines : list string) :
  forall k,
    StronglySorted lt (map fst (filter p (enumerate k lines)))
    /\ Forall (le k) (map fst (filter p (enumerate k lines))).
Proof.
  induction lines as [|l lines IH]; intro k.
  - cbn. split; constructor.
  - rewrite enumerate_cons. destruct (IH (S k)) as [Sd F].
    assert (F' : Forall (le k) (map fst (filter p (enumerate (S k) lines)))).
    { eapply Forall_impl; [|exact F]. intros; cbn in *; lia. }
    cbn [filter]. destruct (p (k, l)); cbn [map fst]; [|now split].
    split.
    + constructor; [exact Sd|].
      eapply Forall_impl; [|exact F]. intros; cbn in *; lia.
    + constructor; [lia | exact F'].
Qed.

Lemma search_logs_read (fs : Files) (filename term content : string) :
  read_text fs filename = inl content ->
  search_logs fs filename term
  = match hits term (readlines content) with
    | [] => "No matches found for '" +++ term +++ "' in " +++ filename
    | found =>
        found_header (List.length found) term filename
        +++ newline +++ newline
        +++ join newline
              (map (fun e => match_entry (fst e) (snd e)) found)
    end.
Proof.
  intro R. unfold search_logs, hits, found_header. rewrite R.
  rewrite find_matches_enumerate. cbv zeta. rewrite length_map.
  destruct (filter _ _) as [|e found]; [reflexivity|].
  cbn [map]. now rewrite !append_assoc.
Qed.

(** X18 - [search_logs] on a file that can be read: the lines reported
    are the lines of the file whose lower-cased text holds the
    lower-cased term, each under its number counted from 1, in the
    order of the file; an ASCII line that holds an ASCII term as
    written is among them; an empty term reports every line; the header
    gives their number, and a search without a match answers "No
    matches found". *)
Theorem X18_search_reports_the_matching_lines
    (fs : Files) (filename search_term content : string) :
  read_text fs filename = inl content ->
  let lines := readlines content in
  let found := hits search_term lines in
  let entries := map (fun e => match_entry (fst e) (snd e)) found in
  (forall n line,
      In (n, line) found
      <-> 1 <= n /\ nth_error lines (n - 1) = Some line
          /\ matches_term search_term line = true) /\
  StronglySorted lt (map fst found) /\
  (forall n line,
      nth_error lines n = Some line ->
      all_chars is_ascii search_term = true ->
      all_chars is_ascii line = true ->
      App.contains search_term line = true ->
      In (S n, line) found) /\
  (search_term = EmptyString -> map snd found = lines) /\
  (found = [] ->
   search_logs fs filename search_term
   = "No matches found for '" +++ search_term +++ "' in " +++ filename) /\
  (found <> [] ->
   search_logs fs filename search_term
   = found_header (List.length found) search_term filename
     +++ newline +++ newline +++ join newline entries).
Proof.
  intros R lines found entries.
  assert (I : forall n line,
             In (n, line) found
             <-> 1 <= n /\ nth_error lines (n - 1) = Some line
                 /\ matches_term search_term line = true).
  { intros n line. unfold found, hits. rewrite filter_In, In_enumerate.
    cbn [snd]. tauto. }
  split; [exact I|].
  split; [apply (hits_ascend _ lines 1)|].
  split.
  { intros n line N _ _ C. apply I. rewrite Nat.sub_succ, Nat.sub_0_r.
    split; [lia|]. split; [exact N|]. now apply contains_lower. }
  split.
  { intros ->. unfold found, hits. rewrite filter_all.
    - apply enumerate_lines.
    - intros [n line]. apply contains_empty. }
  rewrite (search_logs_read _ _ _ _ R). fold lines. fold found.
  split.
  - now intros ->.
  - intro N. destruct found; [now contradiction N | reflexivity].
Qed.

(* ------------------------------------------------------------------ *)
(** *** The summary of a search in the progress panel *)

Lemma all_chars_impl (p q : ascii -> bool) (s : string) :
  (forall c, p c = true -> q c = true) ->
  all_chars p s = true -> all_chars q s = true.
Proof.
  intro I. induction s as [|c s IH]; [reflexivity|]. cbn.
  intro H. apply andb_true_iff in H as [H1 H2].
  now rewrite (I _ H1), (IH H2).
Qed.

Lemma uint_digits (d : Decimal.uint) :
  all_chars is_digit (NilEmpty.string_of_uint d) = true.
Proof. induction d; cbn [NilEmpty.string_of_uint all_chars]; auto. Qed.

Lemma str_of_nat_digits (n : nat) :
  all_chars is_digit (App.str_of_nat n) = true.
Proof.
  unfold App.str_of_nat, NilZero.string_of_uint.
  destruct (Nat.to_uint n) eqn:E; try (rewrite <- E; apply uint_digits).
  reflexivity.
Qed.

Lemma digit_is_no_newline (c : ascii) :
  is_digit c = true -> negb (is_newline c) = true.
Proof.
  unfold is_newline. destruct (Ascii.eqb_spec c (ascii_of_nat 10)) as [->|];
    [intro H; vm_compute in H; discriminate | reflexivity].
Qed.

Lemma first_line_app (a b : string) :
  all_chars (fun c => negb (is_newline c)) a = true ->
  App.first_line (a +++ newline +++ b) = a.
Proof.
  induction a as [|c a IH]; [reflexivity|].
  cbn [all_chars String.append App.first_line].
  intro H. apply andb_true_iff in H as [H1 H2].
  unfold is_newline in H1. destruct (Ascii.eqb c (ascii_of_nat 10));
    [discriminate|].
  now rewrite (IH H2).
Qed.

Lemma first_line_keeps (p : ascii -> bool) (s : string) :
  all_chars p s = true -> all_chars p (App.first_line s) = true.
Proof.
  induction s as [|c s IH]; [reflexivity|]. cbn.
  intro H. apply andb_true_iff in H as [H1 H2].
  destruct (Ascii.eqb c "010"); [reflexivity|].
  cbn. now rewrite H1, (IH H2).
Qed.

Lemma no_capital_f_no_found (s : string) :
  all_chars (fun c => negb (Ascii.eqb c "F")) s = true ->
  App.contains "Found" s = false.
Proof.
  induction s as [|c s IH]; [reflexivity|]. cbn [all_chars App.contains].
  intro H. apply andb_true_iff in H as [H1 H2].
  rewrite (IH H2), Bool.orb_false_r. cbn [String.prefix].
  destruct (ascii_dec "F" c) as [<-|]; [discriminate | reflexivity].
Qed.

(** X19 - what the progress panel shows for [search_logs]: when the
    search found lines, and neither the file name nor the term holds a
    newline, it is the header of the answer in lower case, "found n
    matches for 'term' in file:"; when the search found nothing, or the
    file is not there, and neither the file name nor the term holds a
    capital F, it is "search complete". *)
Theorem X19_search_summary
    (fs : Files) (filename search_term : string) :
  let shown :=
    App._summarize_result "search_logs"
      (search_logs fs filename search_term) in
  let single_line := all_chars (fun c => negb (is_newline c)) in
  let no_capital_f := all_chars (fun c => negb (Ascii.eqb c "F")) in
  (forall content,
      read_text fs filename = inl content ->
      hits search_term (readlines content) <> [] ->
      single_line filename = true -> single_line search_term = true ->
      shown
      = lower (found_header
                 (List.length (hits search_term (readlines content)))
                 search_term filename)) /\
  (forall content,
      read_text fs filename = inl content ->
      hits search_term (readlines content) = [] ->
      no_capital_f filename = true -> no_capital_f search_term = true ->
      shown = "search complete") /\
  (read_text fs filename = inr FileNotFoundError ->
   no_capital_f filename = true ->
   shown = "search complete").
Proof.
  cbv zeta. unfold App._summarize_result. cbn [String.eqb Ascii.eqb Bool.eqb].
  split; [|split].
  - intros content R N Lf Lt. rewrite (search_logs_read _ _ _ _ R).
    destruct (hits search_term (readlines content)) as [|e found] eqn:H;
      [now contradiction N|].
    rewrite first_line_app.
    + rewrite contains_prefix; reflexivity.
    + unfold found_header. rewrite !all_chars_app, Lf, Lt.
      rewrite (all_chars_impl is_digit _ _ digit_is_no_newline
                 (str_of_nat_digits _)).
      reflexivity.
  - intros content R N Ff Ft. rewrite (search_logs_read _ _ _ _ R), N.
    rewrite no_capital_f_no_found; [reflexivity|].
    apply first_line_keeps. rewrite !all_chars_app, Ff, Ft. reflexivity.
  - intros R Ff. unfold search_logs. rewrite R.
    rewrite no_capital_f_no_found; [reflexivity|].
    apply first_line_keeps. rewrite !all_chars_app, Ff. reflexivity.
Qed.

End LogsFacts.

Lemma X17_witness :
  Logs.read_text
    (Logs.mkFiles (fun _ => inl ("ok" +++ newline +++ "ERROR boom"))
        (fun _ => inl 13))
    "app.log"
  = inl ("ok" +++ newline +++ "ERROR boom") /\
  Logs.read_log_file "logs"
    (Logs.mkFiles (fun _ => inl ("ok" +++ newline +++ "ERROR boom"))
        (fun _ => inl 13))
    "app.log"
  = "File: app.log" +++ newline +++ "Size: 13 bytes" +++ newline
    +++ "Lines: 2" +++ newline +++ newline
    +++ "ok" +++ newline +++ "ERROR boom".
Proof.
  split; [reflexivity|].
  destruct (X17_line_count_of_read_log_file "logs"
              (Logs.mkFiles (fun _ => inl ("ok" +++ newline +++ "ERROR boom"))
        (fun _ => inl 13))
              "app.log" ("ok" +++ newline +++ "ERROR boom") 13
              eq_refl eq_refl)
    as [line_count [R [L _]]].
  rewrite R, L. reflexivity.
Defined.

Lemma X18_witness :
  Logs.read_text
    (Logs.mkFiles (fun _ => inl ("ok" +++ newline +++ "ERROR boom"))
        (fun _ => inl 13))
    "app.log"
  = inl ("ok" +++ newline +++ "ERROR boom") /\
  In (2, "ERROR boom")
     (Logs.hits "boom"
        (Logs.readlines ("ok" +++ newline +++ "ERROR boom"))).
Proof.
  split; [reflexivity|].
  destruct (X18_search_reports_the_matching_lines
              (Logs.mkFiles (fun _ => inl ("ok" +++ newline +++ "ERROR boom"))
        (fun _ => inl 13))
              "app.log" "boom" ("ok" +++ newline +++ "ERROR boom") eq_refl)
    as [_ [_ [W _]]].
  apply (W 1 "ERROR boom"); reflexivity.
Defined.

Lemma X19_witness :
  Logs.hits "error" (Logs.readlines ("ok" +++ newline +++ "ERROR boom"))
  <> [] /\
  App._summarize_result "search_logs"
    (Logs.search_logs
       (Logs.mkFiles (fun _ => inl ("ok" +++ newline +++ "ERROR boom"))
        (fun _ => inl 13))
       "app.log" "error")
  = "found 1 matches for 'error' in app.log:".
Proof.
  assert (N : Logs.hits "error"
                (Logs.readlines ("ok" +++ newline +++ "ERROR boom")) <> [])
    by discriminate.
  split; [exact N|].
  rewrite (proj1 (X19_search_summary
                    (Logs.mkFiles (fun _ => inl ("ok" +++ newline +++ "ERROR boom"))
        (fun _ => inl 13))
                    "app.log" "error")
             ("ok" +++ newline +++ "ERROR boom") eq_refl N eq_refl eq_refl).
  reflexivity.
Defined.

(* ================================================================== *)
(** ** The configuration and the model factory (config.py,
       models/factory.py) *)
(* ================================================================== *)

Section ConfigFacts.

Import Env Config.

(** X20 - [Config.validate] and [create_model]: when the validation
    returns, a model that the factory builds carries a key that is not
    empty; the validation lets every provider name other than gemini
    and github through, and it is the factory that raises for them; the
    provider name is taken in any letter case. *)
Theorem X20_a_model_is_built_with_its_key (env : Env) (dirs : Dirs) :
  (forall made model,
      validate env dirs = Validated made ->
      create_model env = inl model ->
      exists key, key_of model = Some key /\ key <> EmptyString) /\
  (LLM_PROVIDER env <> "gemini" -> LLM_PROVIDER env <> "github" ->
   (forall message, validate env dirs <> ValueError message) /\
   create_model env
   = inr ("Unknown LLM_PROVIDER '" +++ LLM_PROVIDER env +++ "'. "
          +++ "Supported values: gemini, github")) /\
  (forall name,
      env "LLM_PROVIDER" = Some name -> lower name = "github" ->
      exists model key base_url,
        create_model env = inl (GitHubModel model key base_url)).
Proof.
  unfold validate, create_model. cbv zeta.
  split; [|split].
  - intros made model V M.
    destruct (String.eqb (LLM_PROVIDER env) "gemini") eqn:G.
    + injection M as <-. cbn [key_of andb] in *.
      unfold missing in V. destruct (GEMINI_API_KEY env) as [key|];
        [|discriminate].
      exists key. split; [reflexivity|]. intros ->. discriminate.
    + destruct (String.eqb (LLM_PROVIDER env) "github") eqn:H;
        [|discriminate].
      injection M as <-. cbn [key_of andb] in *.
      exists (GITHUB_TOKEN env). split; [reflexivity|].
      intro Z. rewrite Z in V. discriminate.
  - intros G H.
    apply String.eqb_neq in G. apply String.eqb_neq in H.
    rewrite G, H. cbn [andb]. split; [|reflexivity].
    intros message.
    destruct (negb (path_exists dirs (LOG_DIRECTORY env)));
      [destruct (makedirs dirs (LOG_DIRECTORY env))|]; discriminate.
  - intros name E L. unfold LLM_PROVIDER, getenv_default. rewrite E, L.
    cbn. eauto.
Qed.

End ConfigFacts.

Lemma X20_witness :
  Config.validate
    (fun name =>
       if String.eqb name "LLM_PROVIDER" then Some "GitHub"
       else if String.eqb name "GITHUB_TOKEN" then Some "ghp_token"
       else None)
    (Config.mkDirs (fun _ => true) (fun _ => None))
  = Config.Validated [] /\
  exists key,
    Config.key_of
      (Config.GitHubModel "openai/gpt-5" "ghp_token"
         "https://models.github.ai/inference")
    = Some key /\ key <> EmptyString.
Proof.
  split; [reflexivity|].
  exact (proj1 (X20_a_model_is_built_with_its_key
                  (fun name =>
                     if String.eqb name "LLM_PROVIDER" then Some "GitHub"
                     else if String.eqb name "GITHUB_TOKEN"
                          then Some "ghp_token"
                          else None)
                  (Config.mkDirs (fun _ => true) (fun _ => None)))
           [] _ eq_refl eq_refl).
Defined.
